(** * TopoModelX tutorials: stacked classifiers over topological domains

    A shallow embedding of the three tutorial notebooks (HSN, TemplateNN and
    ConvCXN): the domains they build, the neighbourhood tensors they derive,
    the [torch.nn.Module] classes they declare and the training loops they
    run.  Reals are modelled by rationals; a tensor carries its dtype and its
    shape explicitly, so that the casts and the shape checks of the tensor
    framework are visible in the model. *)

From Stdlib Require Import String.
From Stdlib Require Import List ZArith QArith Qabs Bool Arith Lia.
Import ListNotations.
Local Open Scope string_scope.
Local Open Scope list_scope.
Local Open Scope nat_scope.

(** ** Python outcomes *)

Module Py.

(** The exceptions the notebooks can run into. *)
Inductive exn : Type :=
| UnboundLocalError (name : string)   (* a local read before assignment *)
| RuntimeError (msg : string)         (* torch: dtypes or shapes do not fit *)
| ValueError (msg : string)           (* toponetx: rank not available *)
| AttributeError (name : string)      (* an attribute that was never set *)
| ZeroDivisionError.                  (* a quotient of Python numbers by 0 *)

Inductive result (A : Type) : Type :=
| Ok (a : A)
| Raise (e : exn).
Arguments Ok {A} a.
Arguments Raise {A} e.

Definition bind {A B} (c : result A) (k : A -> result B) : result B :=
  match c with
  | Ok a => k a
  | Raise e => Raise e
  end.

Definition is_ok {A} (c : result A) : bool :=
  match c with Ok _ => true | Raise _ => false end.

(** A local variable of a function body: bound or not yet assigned. *)
Definition read_local {A} (name : string) (v : option A) : result A :=
  match v with
  | Some a => Ok a
  | None => Raise (UnboundLocalError name)
  end.

End Py.
Import Py.

Notation "x <- c ;; k" := (Py.bind c (fun x => k))
  (at level 61, c at next level, right associativity).
Notation "' pat <- c ;; k" := (Py.bind c (fun x => match x with pat => k end))
  (at level 61, pat pattern, c at next level, right associativity).

(** ** Tensors *)

Module Tensor.

Inductive dtype : Type := Float32 | Float64 | Int64.

Definition dtype_eqb (a b : dtype) : bool :=
  match a, b with
  | Float32, Float32 | Float64, Float64 | Int64, Int64 => true
  | _, _ => false
  end.

Definition is_floating (a : dtype) : bool :=
  match a with Float32 | Float64 => true | Int64 => false end.

(** A two-dimensional array (numpy matrix, scipy sparse matrix or torch
    tensor, dense or sparse: the storage layout is not modelled). *)
Record tensor : Type := mkTensor {
  t_dtype : dtype;
  t_rows : nat;
  t_cols : nat;
  t_at : nat -> nat -> Q
}.

(** A one-dimensional tensor.  Its entries are the results of reductions,
    which can be nan: [None]. *)
Record tensor1 : Type := mkTensor1 {
  v_dtype : dtype;
  v_len : nat;
  v_at : nat -> option Q
}.

Definition shape (t : tensor) : nat * nat := (t_rows t, t_cols t).
Definition shape1 (v : tensor1) : nat := v_len v.

Definition to_lists (t : tensor) : list (list Q) :=
  map (fun i => map (fun j => t_at t i j) (seq 0 (t_cols t))) (seq 0 (t_rows t)).

Definition of_lists (d : dtype) (rows : list (list Q)) : tensor :=
  mkTensor d (length rows) (length (hd [] rows))
           (fun i j => nth j (nth i rows []) 0%Q).

(** [M.T] *)
Definition T (t : tensor) : tensor :=
  mkTensor (t_dtype t) (t_cols t) (t_rows t) (fun i j => t_at t j i).

(** [M.todense()], [torch.from_numpy(M)] and [M.to_sparse()] keep the
    dtype, the shape and the entries. *)
Definition todense (t : tensor) : tensor := t.
Definition from_numpy (t : tensor) : tensor := t.
Definition to_sparse (t : tensor) : tensor := t.

(** [M.float()] casts to single precision. *)
Definition float (t : tensor) : tensor :=
  mkTensor Float32 (t_rows t) (t_cols t) (t_at t).

(** [torch.tensor([[...]])] and [torch.Tensor(...)] of Python floats:
    the default dtype. *)
Definition torch_tensor (rows : list (list Q)) : tensor := of_lists Float32 rows.

Fixpoint qsum (n : nat) (f : nat -> Q) : Q :=
  match n with
  | O => 0%Q
  | S k => (qsum k f + f k)%Q
  end.

(** [torch.mean(x, dim=0)]: the mean of every column; on a tensor with no
    rows the quotient 0 / 0 is nan. *)
Definition mean_dim0 (t : tensor) : tensor1 :=
  mkTensor1 (t_dtype t) (t_cols t)
            (fun j =>
               match t_rows t with
               | O => None
               | S _ =>
                   Some (qsum (t_rows t) (fun i => t_at t i j)
                         / inject_Z (Z.of_nat (t_rows t)))%Q
               end).

(** The sum of two entries: nan when one of them is. *)
Definition plus (a b : option Q) : option Q :=
  match a, b with
  | Some x, Some y => Some (x + y)%Q
  | _, _ => None
  end.

(** [a + b] on one-dimensional tensors of one length (a length of 1
    broadcasts). *)
Definition add1 (a b : tensor1) : result tensor1 :=
  if v_len a =? v_len b then
    Ok (mkTensor1 (v_dtype a) (v_len a) (fun j => plus (v_at a j) (v_at b j)))
  else if v_len a =? 1 then
    Ok (mkTensor1 (v_dtype a) (v_len b) (fun j => plus (v_at a 0) (v_at b j)))
  else if v_len b =? 1 then
    Ok (mkTensor1 (v_dtype a) (v_len a) (fun j => plus (v_at a j) (v_at b 0)))
  else Raise (RuntimeError "The size of tensor a must match the size of tensor b").

(** [a += b] on tensors of one shape (gradient accumulation). *)
Definition add_ (a b : tensor) : tensor :=
  mkTensor (t_dtype a) (t_rows a) (t_cols a) (fun i j => (t_at a i j + t_at b i j)%Q).

(** The order [argmax] compares entries with: nan is above every number. *)
Definition exceeds (a b : option Q) : bool :=
  match a, b with
  | _, None => false
  | None, Some _ => true
  | Some x, Some y => negb (Qle_bool x y)
  end.

(** [v.argmax()]: the first index of a greatest entry. *)
Fixpoint argmax_upto (n : nat) (v : nat -> option Q) : nat :=
  match n with
  | O => O
  | S k =>
      let best := argmax_upto k v in
      if exceeds (v k) (v best) then k else best
  end.

Definition argmax (v : tensor1) : nat := argmax_upto (v_len v) (v_at v).

End Tensor.
Import Tensor.

(** ** Topological domains (the constructors of the domain library) *)

Module Domain.

Local Open Scope Z_scope.

(** Lexicographic order on integer tuples. *)
Fixpoint tuple_compare (a b : list Z) : comparison :=
  match a, b with
  | [], [] => Eq
  | [], _ :: _ => Lt
  | _ :: _, [] => Gt
  | x :: a', y :: b' =>
      match Z.compare x y with
      | Eq => tuple_compare a' b'
      | c => c
      end
  end.

Definition tuple_eqb (a b : list Z) : bool :=
  match tuple_compare a b with Eq => true | _ => false end.

(** Sorted insertion without duplicates. *)
Fixpoint insert_tuple (s : list Z) (l : list (list Z)) : list (list Z) :=
  match l with
  | [] => [s]
  | t :: l' =>
      match tuple_compare s t with
      | Lt => s :: t :: l'
      | Eq => t :: l'
      | Gt => t :: insert_tuple s l'
      end
  end.

Definition sort_tuples (l : list (list Z)) : list (list Z) :=
  fold_left (fun acc s => insert_tuple s acc) l [].

Fixpoint insert_vertex (x : Z) (l : list Z) : list Z :=
  match l with
  | [] => [x]
  | y :: l' =>
      match Z.compare x y with
      | Lt => x :: y :: l'
      | Eq => y :: l'
      | Gt => y :: insert_vertex x l'
      end
  end.

Definition sort_vertices (l : list Z) : list Z :=
  fold_left (fun acc x => insert_vertex x acc) l [].

(** The sub-tuples with [k] entries, in order. *)
Fixpoint subsets (k : nat) (l : list Z) : list (list Z) :=
  match k, l with
  | O, _ => [[]]
  | S _, [] => []
  | S k', x :: t => map (cons x) (subsets k' t) ++ subsets k t
  end.

Fixpoint remove_nth (k : nat) (l : list Z) : list Z :=
  match k, l with
  | _, [] => []
  | O, _ :: t => t
  | S k', x :: t => x :: remove_nth k' t
  end.

Definition subset_of (a b : list Z) : bool :=
  forallb (fun x => existsb (Z.eqb x) b) a.

Definition of_int (z : Z) : Q := inject_Z z.

(** *** [toponetx.SimplicialComplex] *)

Module SimplicialComplex.

(** The complex is kept as the list of simplices it was built from; its
    cells are all their non-empty faces. *)
Record t : Type := mk { maximal : list (list Z) }.

Definition SimplicialComplex (simplices : list (list Z)) : t := mk simplices.

(** The cells of one rank, each a sorted tuple, in lexicographic order. *)
Definition skeleton (c : t) (rank : nat) : list (list Z) :=
  sort_tuples (flat_map (fun s => subsets (S rank) (sort_vertices s)) (maximal c)).

(** [domain.simplices] of a complex of dimension at most two. *)
Definition simplices (c : t) : list (list Z) :=
  skeleton c 0 ++ skeleton c 1 ++ skeleton c 2.

(** The coefficient of the cell [row] in the boundary of the cell [col]:
    the sign (-1)^k when [row] is [col] without its k-th vertex. *)
Definition boundary_coeff (row col : list Z) : Z :=
  fold_left
    (fun acc k =>
       if tuple_eqb (remove_nth k col) row
       then acc + (if Nat.even k then 1 else -1)
       else acc)
    (seq 0 (length col)) 0.

(** [domain.dim]: the greatest rank of a cell; there is none in the empty
    complex. *)
Definition dim (c : t) : option nat :=
  fold_left
    (fun acc s =>
       match sort_vertices s with
       | [] => acc
       | _ :: rest =>
           match acc with
           | None => Some (length rest)
           | Some d => Some (Nat.max d (length rest))
           end
       end)
    (maximal c) None.

(** [domain.incidence_matrix(rank)]: cells of rank - 1 by cells of rank,
    in single precision; at rank 0 one row of ones.  A rank above the
    dimension is refused. *)
Definition incidence_matrix (c : t) (rank : nat) : result tensor :=
  match dim c with
  | None => Raise (ValueError "Rank cannot be larger than the dimension of the complex")
  | Some d =>
      if (d <? rank)%nat
      then Raise (ValueError "Rank cannot be larger than the dimension of the complex")
      else
        match rank with
        | O => Ok (mkTensor Float32 1 (length (skeleton c 0)) (fun _ _ => of_int 1))
        | S r =>
            let rows := skeleton c r in
            let cols := skeleton c rank in
            Ok (mkTensor Float32 (length rows) (length cols)
                  (fun i j => of_int (boundary_coeff (nth i rows []) (nth j cols []))))
        end
  end.

(** [domain.adjacency_matrix(rank)]: from the incidence B of the next rank
    (so the top rank is refused), the absolute values of B B^T with a zero
    diagonal: two cells are adjacent when they are faces of a common cell
    of the next rank. *)
Definition adjacency_matrix (c : t) (rank : nat) : result tensor :=
  B <- incidence_matrix c (S rank) ;;
  Ok (mkTensor (t_dtype B) (t_rows B) (t_rows B)
        (fun i j =>
           if (i =? j)%nat then of_int 0
           else Qabs (qsum (t_cols B) (fun k => t_at B i k * t_at B j k)%Q))).

End SimplicialComplex.

(** *** [toponetx.CellComplex] *)

Module CellComplex.

(** An item of the list handed to the constructor: a bare node or a list
    of nodes. *)
Inductive item : Type :=
| Node (v : Z)
| Cell (vs : list Z).

Record t : Type := mk {
  nodes : list Z;               (* in order of insertion *)
  edges : list (Z * Z);         (* each as (lesser, greater) node, sorted *)
  cells : list (list Z)         (* the 2-cells, each a closed walk *)
}.

Definition empty : t := mk [] [] [].

Definition add_node (c : t) (v : Z) : t :=
  if existsb (Z.eqb v) (nodes c) then c
  else mk (nodes c ++ [v]) (edges c) (cells c).

Definition same_edge (e f : Z * Z) : bool :=
  ((fst e =? fst f) && (snd e =? snd f)) || ((fst e =? snd f) && (snd e =? fst f)).

(** Sorted insertion of an edge, without duplicates. *)
Fixpoint insert_edge (e : Z * Z) (l : list (Z * Z)) : list (Z * Z) :=
  match l with
  | [] => [e]
  | f :: l' =>
      match tuple_compare [fst e; snd e] [fst f; snd f] with
      | Lt => e :: f :: l'
      | Eq => f :: l'
      | Gt => f :: insert_edge e l'
      end
  end.

Definition add_edge (c : t) (u v : Z) : t :=
  let c' := add_node (add_node c u) v in
  mk (nodes c') (insert_edge (Z.min u v, Z.max u v) (edges c')) (cells c').

(** The edges along a closed walk v1 v2 ... vn (v1). *)
Fixpoint walk_edges (first : Z) (vs : list Z) : list (Z * Z) :=
  match vs with
  | [] => []
  | [v] => [(v, first)]
  | u :: ((v :: _) as rest) => (u, v) :: walk_edges first rest
  end.

Definition boundary (vs : list Z) : list (Z * Z) :=
  match vs with
  | [] => []
  | v :: _ => walk_edges v vs
  end.

(** Adding a 2-cell adds the edges of its boundary (the complex stays
    regular). *)
Definition add_cell (c : t) (vs : list Z) : t :=
  let c' := fold_left (fun acc e => add_edge acc (fst e) (snd e)) (boundary vs) c in
  mk (nodes c') (edges c') (cells c' ++ [vs]).

Definition add_item (c : t) (i : item) : t :=
  match i with
  | Node v => add_node c v
  | Cell [] => c
  | Cell [v] => add_node c v
  | Cell [u; v] => add_edge c u v
  | Cell vs => add_cell c vs
  end.

Definition CellComplex (items : list item) : t :=
  fold_left add_item items empty.

(** The coefficient of an edge in the boundary of a 2-cell: +1 when the
    walk runs from the lesser to the greater node, -1 against it. *)
Definition boundary_coeff (e : Z * Z) (vs : list Z) : Z :=
  fold_left
    (fun acc f =>
       if (fst e =? fst f) && (snd e =? snd f) then acc + 1
       else if (fst e =? snd f) && (snd e =? fst f) then acc - 1
       else acc)
    (boundary vs) 0.

(** The matrices of a cell complex come in double precision. *)
Definition incidence_matrix (c : t) (rank : nat) : result tensor :=
  match rank with
  | 1%nat =>
      Ok (mkTensor Float64 (length (nodes c)) (length (edges c))
            (fun i j =>
               let v := nth i (nodes c) 0 in
               let e := nth j (edges c) (0, 0) in
               if v =? snd e then of_int 1
               else if v =? fst e then of_int (-1) else of_int 0))
  | 2%nat =>
      Ok (mkTensor Float64 (length (edges c)) (length (cells c))
            (fun i j =>
               of_int (boundary_coeff (nth i (edges c) (0, 0)) (nth j (cells c) []))))
  | _ => Raise (ValueError "only incidence of rank 1 and 2 is available")
  end.

Definition adjacency_matrix (c : t) (rank : nat) : result tensor :=
  match rank with
  | 0%nat =>
      Ok (mkTensor Float64 (length (nodes c)) (length (nodes c))
            (fun i j =>
               let u := nth i (nodes c) 0 in
               let v := nth j (nodes c) 0 in
               if negb (u =? v) && existsb (same_edge (u, v)) (edges c)
               then of_int 1 else of_int 0))
  | _ => Raise (ValueError "only adjacency of rank 0 is modelled")
  end.

End CellComplex.

End Domain.

(** ** The tensor framework: modules, parameters, the linear layer *)

Module Torch.

(** A [torch.nn.Parameter] is an object; its identity is its address. *)
Definition param_id := nat.

#[local] Set Warnings "-register-all".

(** A [torch.nn.Module] object: its class and constructor arguments, the
    two registries [_parameters] and [_modules], and the ordinary
    attributes of the instance's [__dict__] (here: lists of modules). *)
Inductive module : Type :=
  mkModule (cls : string) (cfg : list nat)
           (_parameters : list (string * param_id))
           (_modules : list (string * module))
           (__dict__ : list (string * list module)).

Definition cls (m : module) := let 'mkModule c _ _ _ _ := m in c.
Definition cfg (m : module) := let 'mkModule _ c _ _ _ := m in c.
Definition _parameters (m : module) := let 'mkModule _ _ p _ _ := m in p.
Definition _modules (m : module) := let 'mkModule _ _ _ s _ := m in s.
Definition __dict__ (m : module) := let 'mkModule _ _ _ _ d := m in d.

(** What the notebooks assign to attributes of a module. *)
Inductive value : Type :=
| VParameter (p : param_id)
| VModule (m : module)
| VList (ms : list module).          (* a plain Python list *)

(** [Module.__init__]: empty registries. *)
Definition Module_init (c : string) (args : list nat) : module :=
  mkModule c args [] [] [].

(** [Module.__setattr__]: a Parameter goes to [_parameters], a Module to
    [_modules], anything else is an ordinary attribute. *)
Definition setattr (self : module) (name : string) (v : value) : module :=
  let 'mkModule c a ps subs d := self in
  match v with
  | VParameter p => mkModule c a (ps ++ [(name, p)]) subs d
  | VModule m => mkModule c a ps (subs ++ [(name, m)]) d
  | VList ms => mkModule c a ps subs (d ++ [(name, ms)])
  end.

Fixpoint assoc {A} (name : string) (l : list (string * A)) : option A :=
  match l with
  | [] => None
  | (k, v) :: l' => if String.eqb k name then Some v else assoc name l'
  end.

Definition lookup {A} (name : string) (l : list (string * A)) : result A :=
  match assoc name l with
  | Some v => Ok v
  | None => Raise (AttributeError name)
  end.

(** [Module.parameters()]: the module's own parameters, then those of
    the registered sub-modules, recursively. *)
Fixpoint parameters (m : module) : list param_id :=
  let 'mkModule _ _ ps subs _ := m in
  map snd ps ++ flat_map (fun s => let '(_, sub) := s in parameters sub) subs.

(** The values of the parameters, and the next free address. *)
Record heap : Type := mkHeap {
  next : param_id;
  data : param_id -> tensor
}.

Definition update (v : param_id -> tensor) (p : param_id) (t : tensor)
  : param_id -> tensor :=
  fun q => if q =? p then t else v q.

Section Construction.

(** The random initial entries drawn for a new parameter. *)
Variable init_entries : param_id -> nat -> nat -> Q.

(** [torch.nn.Parameter(torch.Tensor(rows, cols))] with its
    initialisation. *)
Definition new_parameter (rows cols : nat) (h : heap) : param_id * heap :=
  let p := next h in
  (p, mkHeap (S p) (update (data h) p (mkTensor Float32 rows cols (init_entries p)))).

(** [torch.nn.Linear(in_features, out_features)]: a weight of shape
    (out, in) and a bias, stored as a row. *)
Definition Linear (in_features out_features : nat) (h : heap) : module * heap :=
  let self := Module_init "Linear" [in_features; out_features] in
  let '(w, h) := new_parameter out_features in_features h in
  let self := setattr self "weight" (VParameter w) in
  let '(b, h) := new_parameter 1 out_features h in
  let self := setattr self "bias" (VParameter b) in
  (self, h).

End Construction.

(** The checks of the matrix product x W^T, in the order the framework
    makes them: one dtype, then the last dimension of [x] against
    [in_features]. *)
Definition mm_check (x w : tensor) : option exn :=
  if negb (dtype_eqb (t_dtype x) (t_dtype w))
  then Some (RuntimeError "mat1 and mat2 must have the same dtype")
  else if t_cols x =? t_cols w then None
  else Some (RuntimeError "mat1 and mat2 shapes cannot be multiplied").

(** [Linear.forward]: x W^T + b. *)
Definition Linear_forward (self : module) (v : param_id -> tensor) (x : tensor)
  : result tensor :=
  w <- lookup "weight" (_parameters self) ;;
  b <- lookup "bias" (_parameters self) ;;
  match mm_check x (v w) with
  | Some e => Raise e
  | None =>
      Ok (mkTensor (t_dtype x) (t_rows x) (t_rows (v w))
            (fun i k => (qsum (t_cols x) (fun j => t_at x i j * t_at (v w) k j)
                          + t_at (v b) 0 k)%Q))
  end.

End Torch.
Import Torch.

(** ** The imported libraries, as an interface *)

(** What the notebooks import and never define: the initialisation of new
    parameters, the message-passing layers of the layer library, and the
    loss functions, the automatic differentiation and the Adam update of the
    tensor framework. *)
Class Libraries : Type := {
  init_entries : param_id -> nat -> nat -> Q;
  (* the learnable tensors a layer of a class allocates, given its
     constructor arguments: name and shape of each *)
  layer_weights : string -> list nat -> list (string * (nat * nat));
  (* the exception the constructor of a layer of a class raises on these
     arguments, if it refuses them *)
  layer_rejects : string -> list nat -> option exn;
  (* layer(x_0, incidence_1, adjacency_0) *)
  HSNLayer_forward :
    module -> (param_id -> tensor) -> tensor -> tensor -> tensor -> result tensor;
  (* layer(x_2, incidence_2) *)
  TemplateLayer_forward :
    module -> (param_id -> tensor) -> tensor -> tensor -> result tensor;
  (* layer(x_0, x_1, neighborhood_0_to_0, neighborhood_1_to_2) *)
  ConvCXNLayer_forward :
    module -> (param_id -> tensor) -> tensor -> tensor -> tensor -> tensor ->
    result (tensor * tensor * tensor);
  (* torch.nn.functional.binary_cross_entropy_with_logits(input, target) *)
  binary_cross_entropy_with_logits : tensor -> tensor -> result Q;
  (* torch.nn.CrossEntropyLoss()(input, target) *)
  cross_entropy : tensor1 -> nat -> result Q;
  (* the derivative of a loss, seen as a function of the parameter
     values, with respect to one parameter; none when the loss was not
     computed from that parameter *)
  autograd :
    ((param_id -> tensor) -> result Q) -> (param_id -> tensor) -> param_id ->
    option tensor;
  (* Adam: its state per parameter and one update of one parameter *)
  adam_slot : Type;
  adam_init : adam_slot;
  adam_update : Q -> adam_slot -> tensor -> tensor -> tensor * adam_slot;
  (* the entries of the k-th array drawn by np.random.rand, and the k-th
     draw of random.randint(0, 1) *)
  np_random_rand : nat -> nat -> nat -> Q;
  random_randint : nat -> bool
}.

(** ** The three classifiers *)

Module Models.

Section WithLibraries.

Context {L : Libraries}.

(** The constructor of a layer of the layer library, once it has accepted
    its arguments: a module holding the learnable tensors of that layer. *)
Definition new_layer (c : string) (args : list nat) (h : heap) : module * heap :=
  fold_left
    (fun acc w =>
       let '(self, h) := acc in
       let '(name, (rows, cols)) := w in
       let '(p, h) := new_parameter init_entries rows cols h in
       (setattr self name (VParameter p), h))
    (layer_weights c args)
    (Module_init c args, h).

Definition HSNLayer (channels : nat) : heap -> module * heap :=
  new_layer "HSNLayer" [channels].

Definition TemplateLayer (in_channels intermediate_channels out_channels : nat)
  : heap -> module * heap :=
  new_layer "TemplateLayer" [in_channels; intermediate_channels; out_channels].

Definition ConvCXNLayer (in_channels_0 in_channels_1 in_channels_2 : nat)
  : heap -> module * heap :=
  new_layer "ConvCXNLayer" [in_channels_0; in_channels_1; in_channels_2].

(** [for _ in range(n_layers): layers.append(ctor(...))] *)
Fixpoint append_layers (n_layers : nat) (ctor : heap -> module * heap)
         (layers : list module) (h : heap) : list module * heap :=
  match n_layers with
  | O => (layers, h)
  | S n =>
      let '(layer, h) := ctor h in
      append_layers n ctor (layers ++ [layer]) h
  end.

(** The call of a layer's constructor: it raises when the layer refuses
    its arguments, and none of its tensors is allocated then. *)
Definition call_layer (c : string) (args : list nat) (h : heap)
  : result (module * heap) :=
  match layer_rejects c args with
  | Some e => Raise e
  | None => Ok (new_layer c args h)
  end.

(** The same loop, left by the first constructor that raises. *)
Fixpoint try_append_layers (n_layers : nat) (ctor : heap -> result (module * heap))
         (layers : list module) (h : heap) : result (list module * heap) :=
  match n_layers with
  | O => Ok (layers, h)
  | S n =>
      '(layer, h) <- ctor h ;;
      try_append_layers n ctor (layers ++ [layer]) h
  end.

(** [self.name] for an attribute holding a list, and for one holding a
    module. *)
Definition getattr_list (self : module) (name : string) : result (list module) :=
  lookup name (__dict__ self).

Definition getattr_module (self : module) (name : string) : result module :=
  lookup name (_modules self).

(** *** HSN *)

(** [__init__] when every layer constructor returns. *)
Definition HSN_init (channels n_layers : nat) (h : heap) : module * heap :=
  let self := Module_init "HSN" [channels; n_layers] in
  let '(layers, h) := append_layers n_layers (HSNLayer channels) [] h in
  let '(linear, h) := Linear init_entries channels 1 h in
  let self := setattr self "linear" (VModule linear) in
  let self := setattr self "layers" (VList layers) in
  (self, h).

(** [HSN(channels, n_layers)] as the notebook calls it: [__init__] with
    the exceptions of the layer constructors. *)
Definition HSN_new (channels n_layers : nat) (h : heap) : result (module * heap) :=
  let self := Module_init "HSN" [channels; n_layers] in
  '(layers, h) <-
    try_append_layers n_layers (call_layer "HSNLayer" [channels]) [] h ;;
  let '(linear, h) := Linear init_entries channels 1 h in
  let self := setattr self "linear" (VModule linear) in
  let self := setattr self "layers" (VList layers) in
  Ok (self, h).

Fixpoint HSN_layers (layers : list module) (v : param_id -> tensor)
         (x_0 incidence_1 adjacency_0 : tensor) : result tensor :=
  match layers with
  | [] => Ok x_0
  | layer :: rest =>
      x_0 <- HSNLayer_forward layer v x_0 incidence_1 adjacency_0 ;;
      HSN_layers rest v x_0 incidence_1 adjacency_0
  end.

Definition HSN_forward (self : module) (v : param_id -> tensor)
           (x_0 incidence_1 adjacency_0 : tensor) : result tensor :=
  layers <- getattr_list self "layers" ;;
  x_0 <- HSN_layers layers v x_0 incidence_1 adjacency_0 ;;
  linear <- getattr_module self "linear" ;;
  Linear_forward linear v x_0.

(** *** TemplateNN *)

(** [__init__] when every layer constructor returns. *)
Definition TemplateNN_init (channels_face channels_edge n_layers : nat) (h : heap)
  : module * heap :=
  let self := Module_init "TemplateNN" [channels_face; channels_edge; n_layers] in
  let '(layers, h) :=
    append_layers n_layers (TemplateLayer channels_face channels_edge channels_face) [] h in
  let self := setattr self "layers" (VList layers) in
  let '(linear, h) := Linear init_entries channels_face 1 h in
  let self := setattr self "linear" (VModule linear) in
  (self, h).

(** [TemplateNN(channels_face, channels_edge, n_layers)] as the notebook
    calls it. *)
Definition TemplateNN_new (channels_face channels_edge n_layers : nat) (h : heap)
  : result (module * heap) :=
  let self := Module_init "TemplateNN" [channels_face; channels_edge; n_layers] in
  '(layers, h) <-
    try_append_layers n_layers
      (call_layer "TemplateLayer" [channels_face; channels_edge; channels_face]) [] h ;;
  let self := setattr self "layers" (VList layers) in
  let '(linear, h) := Linear init_entries channels_face 1 h in
  let self := setattr self "linear" (VModule linear) in
  Ok (self, h).

Fixpoint TemplateNN_layers (layers : list module) (v : param_id -> tensor)
         (x_2 incidence_2_torch : tensor) : result tensor :=
  match layers with
  | [] => Ok x_2
  | layer :: rest =>
      x_2 <- TemplateLayer_forward layer v x_2 incidence_2_torch ;;
      TemplateNN_layers rest v x_2 incidence_2_torch
  end.

Definition TemplateNN_forward (self : module) (v : param_id -> tensor)
           (x_2 incidence_2_torch : tensor) : result tensor :=
  layers <- getattr_list self "layers" ;;
  x_2 <- TemplateNN_layers layers v x_2 incidence_2_torch ;;
  linear <- getattr_module self "linear" ;;
  Linear_forward linear v x_2.

(** *** ConvCXN *)

(** [__init__] when every layer constructor returns. *)
Definition ConvCXN_init (in_ch_0 in_ch_1 in_ch_2 num_classes n_layers : nat) (h : heap)
  : module * heap :=
  let self := Module_init "ConvCXN" [in_ch_0; in_ch_1; in_ch_2; num_classes; n_layers] in
  let '(layers, h) :=
    append_layers n_layers (ConvCXNLayer in_ch_0 in_ch_1 in_ch_2) [] h in
  let self := setattr self "layers" (VList layers) in
  let '(lin_0, h) := Linear init_entries in_ch_0 num_classes h in
  let self := setattr self "lin_0" (VModule lin_0) in
  let '(lin_1, h) := Linear init_entries in_ch_1 num_classes h in
  let self := setattr self "lin_1" (VModule lin_1) in
  let '(lin_2, h) := Linear init_entries in_ch_2 num_classes h in
  let self := setattr self "lin_2" (VModule lin_2) in
  (self, h).

(** [ConvCXN(in_ch_0, in_ch_1, in_ch_2, num_classes, n_layers)] as the
    notebook calls it. *)
Definition ConvCXN_new (in_ch_0 in_ch_1 in_ch_2 num_classes n_layers : nat) (h : heap)
  : result (module * heap) :=
  let self := Module_init "ConvCXN" [in_ch_0; in_ch_1; in_ch_2; num_classes; n_layers] in
  '(layers, h) <-
    try_append_layers n_layers
      (call_layer "ConvCXNLayer" [in_ch_0; in_ch_1; in_ch_2]) [] h ;;
  let self := setattr self "layers" (VList layers) in
  let '(lin_0, h) := Linear init_entries in_ch_0 num_classes h in
  let self := setattr self "lin_0" (VModule lin_0) in
  let '(lin_1, h) := Linear init_entries in_ch_1 num_classes h in
  let self := setattr self "lin_1" (VModule lin_1) in
  let '(lin_2, h) := Linear init_entries in_ch_2 num_classes h in
  let self := setattr self "lin_2" (VModule lin_2) in
  Ok (self, h).

(** The loop of [forward].  [x_0] and [x_1] are arguments, hence bound;
    [x_2] is a local that only the loop body assigns. *)
Fixpoint ConvCXN_layers (layers : list module) (v : param_id -> tensor)
         (x_0 x_1 : tensor) (x_2 : option tensor)
         (neighborhood_0_to_0 neighborhood_1_to_2 : tensor)
  : result (tensor * tensor * option tensor) :=
  match layers with
  | [] => Ok (x_0, x_1, x_2)
  | layer :: rest =>
      '(x_0, x_1, x_2) <-
        ConvCXNLayer_forward layer v x_0 x_1 neighborhood_0_to_0 neighborhood_1_to_2 ;;
      ConvCXN_layers rest v x_0 x_1 (Some x_2) neighborhood_0_to_0 neighborhood_1_to_2
  end.

(** The returned expression:
    [torch.mean(x_2, dim=0) + torch.mean(x_1, dim=0) + torch.mean(x_0, dim=0)] *)
Definition ConvCXN_readout (x_0 x_1 x_2 : tensor) : result tensor1 :=
  s <- add1 (mean_dim0 x_2) (mean_dim0 x_1) ;;
  add1 s (mean_dim0 x_0).

Definition ConvCXN_forward (self : module) (v : param_id -> tensor)
           (x_0 x_1 neighborhood_0_to_0 neighborhood_1_to_2 : tensor)
  : result tensor1 :=
  layers <- getattr_list self "layers" ;;
  '(x_0, x_1, x_2) <-
    ConvCXN_layers layers v x_0 x_1 None neighborhood_0_to_0 neighborhood_1_to_2 ;;
  lin_0 <- getattr_module self "lin_0" ;;
  x_0 <- Linear_forward lin_0 v x_0 ;;
  lin_1 <- getattr_module self "lin_1" ;;
  x_1 <- Linear_forward lin_1 v x_1 ;;
  lin_2 <- getattr_module self "lin_2" ;;
  x_2 <- read_local "x_2" x_2 ;;
  x_2 <- Linear_forward lin_2 v x_2 ;;
  ConvCXN_readout x_0 x_1 x_2.

End WithLibraries.

End Models.
Import Models.

(** ** The training scripts *)

Module Training.

Section WithLibraries.

Context {L : Libraries}.

(** [torch.optim.Adam(params, lr)]: the parameters handed over at
    construction, the learning rate, the state kept per parameter and
    the number of calls of [step] so far. *)
Record optimizer : Type := mkOptimizer {
  param_group : list param_id;
  lr : Q;
  slots : param_id -> adam_slot;
  steps : nat
}.

Definition Adam (params : list param_id) (rate : Q) : optimizer :=
  mkOptimizer params rate (fun _ => adam_init) 0.

(** One line of the notebook's output. *)
Inductive line : Type :=
| EpochLine (epoch_i : nat) (mean_loss : Q) (train_acc : Q)
| TestLine (test_acc : Q).

(** The state the cells of a notebook share. *)
Record session : Type := mkSession {
  params : param_id -> tensor;          (* the value of every parameter *)
  grads : param_id -> option tensor;    (* its [.grad] *)
  opt : optimizer;
  stdout : list line
}.

(** [opt.zero_grad()]: the gradients of the optimizer's parameters are
    reset. *)
Definition zero_grad (s : session) : session :=
  mkSession (params s)
            (fun p => if existsb (Nat.eqb p) (param_group (opt s)) then None
                      else grads s p)
            (opt s) (stdout s).

(** [loss.backward()]: the derivative of the loss is accumulated into
    the gradient of every parameter of the model the loss was computed
    from; the gradient of any other parameter stays as it is. *)
Definition backward (loss_of : (param_id -> tensor) -> result Q)
           (leaves : list param_id) (s : session) : session :=
  mkSession (params s)
            (fun p =>
               if existsb (Nat.eqb p) leaves then
                 match autograd loss_of (params s) p with
                 | None => grads s p
                 | Some g =>
                     match grads s p with
                     | None => Some g
                     | Some g0 => Some (add_ g0 g)
                     end
                 end
               else grads s p)
            (opt s) (stdout s).

(** [opt.step()]: every parameter of the optimizer that has a gradient
    is updated. *)
Fixpoint step_params (ps : list param_id) (rate : Q)
         (g : param_id -> option tensor)
         (vs : (param_id -> tensor) * (param_id -> adam_slot))
  : (param_id -> tensor) * (param_id -> adam_slot) :=
  match ps with
  | [] => vs
  | p :: ps' =>
      let '(v, sl) := vs in
      match g p with
      | None => step_params ps' rate g vs
      | Some gp =>
          let '(t, slot) := adam_update rate (sl p) (v p) gp in
          step_params ps' rate g
            (update v p t, fun q => if q =? p then slot else sl q)
      end
  end.

Definition step (s : session) : session :=
  let o := opt s in
  let '(v, sl) := step_params (param_group o) (lr o) (grads s) (params s, slots o) in
  mkSession v (grads s) (mkOptimizer (param_group o) (lr o) sl (S (steps o))) (stdout s).

Definition print (l : line) (s : session) : session :=
  mkSession (params s) (grads s) (opt s) (stdout s ++ [l]).

(** Every parameter a forward pass of the model reads: the registered
    ones and those of the layers kept in plain lists. *)
Definition leaves (model : module) : list param_id :=
  parameters model
  ++ flat_map (fun a => flat_map parameters (snd a)) (__dict__ model).

(** [zip(a, b, c)] stops with the shortest list. *)
Fixpoint zip3 {A B C} (a : list A) (b : list B) (c : list C) : list (A * B * C) :=
  match a, b, c with
  | x :: a', y :: b', z :: c' => (x, y, z) :: zip3 a' b' c'
  | _, _, _ => []
  end.

Definition qmean (l : list Q) : Q :=
  (fold_left Qplus l 0 / inject_Z (Z.of_nat (length l)))%Q.

(** [correct / num_samples] on Python integers. *)
Definition py_div (a b : nat) : result Q :=
  match b with
  | O => Raise ZeroDivisionError
  | _ => Ok (inject_Z (Z.of_nat a) / inject_Z (Z.of_nat b))%Q
  end.

(** [model(...)]: [Module.__call__] runs [forward] on the current values of
    the parameters.  The models keep no other state, and [forward] only
    rebinds its own local names: the state of the session is as before. *)
Definition HSN_call (model : module) (s : session)
           (x_0 incidence_1 adjacency_0 : tensor) : result (tensor * session) :=
  y <- HSN_forward model (params s) x_0 incidence_1 adjacency_0 ;;
  Ok (y, s).

Definition TemplateNN_call (model : module) (s : session)
           (x_2 incidence_2_torch : tensor) : result (tensor * session) :=
  y <- TemplateNN_forward model (params s) x_2 incidence_2_torch ;;
  Ok (y, s).

Definition ConvCXN_call (model : module) (s : session)
           (x_0 x_1 neighborhood_0_to_0 neighborhood_1_to_2 : tensor)
  : result (tensor1 * session) :=
  y <- ConvCXN_forward model (params s) x_0 x_1 neighborhood_0_to_0 neighborhood_1_to_2 ;;
  Ok (y, s).

(** *** The HSN notebook *)

Section HSN.

Variables (model : module) (x_nodes incidence_1 adjacency_0 nodes_gt_labels : tensor).

Definition HSN_loss (v : param_id -> tensor) : result Q :=
  nodes_pred_labels <- HSN_forward model v x_nodes incidence_1 adjacency_0 ;;
  binary_cross_entropy_with_logits nodes_pred_labels nodes_gt_labels.

(** The body of the loop; the prediction is returned next to the new
    state. *)
Definition HSN_epoch (s : session) : result (tensor * session) :=
  let s := zero_grad s in
  '(nodes_pred_labels, s) <- HSN_call model s x_nodes incidence_1 adjacency_0 ;;
  _ <- binary_cross_entropy_with_logits nodes_pred_labels nodes_gt_labels ;;
  let s := backward HSN_loss (leaves model) s in
  let s := step s in
  Ok (nodes_pred_labels, s).

(** [for epoch in range(n): ...], with the predictions of the epochs
    in order. *)
Fixpoint HSN_train (n : nat) (s : session) : result (list tensor * session) :=
  match n with
  | O => Ok ([], s)
  | S k =>
      '(pred, s) <- HSN_epoch s ;;
      '(preds, s) <- HSN_train k s ;;
      Ok (pred :: preds, s)
  end.

End HSN.

(** *** The TemplateNN notebook *)

Section TemplateNN.

Variables (model : module) (x_2 incidence_2_torch faces_gt_labels : tensor).

Definition TemplateNN_loss (v : param_id -> tensor) : result Q :=
  faces_pred_labels <- TemplateNN_forward model v x_2 incidence_2_torch ;;
  binary_cross_entropy_with_logits faces_pred_labels faces_gt_labels.

Definition TemplateNN_epoch (s : session) : result (tensor * session) :=
  let s := zero_grad s in
  '(faces_pred_labels, s) <- TemplateNN_call model s x_2 incidence_2_torch ;;
  _ <- binary_cross_entropy_with_logits faces_pred_labels faces_gt_labels ;;
  let s := backward TemplateNN_loss (leaves model) s in
  let s := step s in
  Ok (faces_pred_labels, s).

Fixpoint TemplateNN_train (n : nat) (s : session) : result (list tensor * session) :=
  match n with
  | O => Ok ([], s)
  | S k =>
      '(pred, s) <- TemplateNN_epoch s ;;
      '(preds, s) <- TemplateNN_train k s ;;
      Ok (pred :: preds, s)
  end.

End TemplateNN.

(** *** The ConvCXN notebook *)

Section ConvCXN.

Variables (model : module) (adjacency_0 incidence_2_t : tensor).

(** The locals of one epoch. *)
Record counters : Type := mkCounters {
  epoch_loss : list Q;
  num_samples : nat;
  correct : nat
}.

Definition sample : Type := (tensor * tensor * nat)%type.

Definition ConvCXN_loss (x : sample) (v : param_id -> tensor) : result Q :=
  let '(x_0, x_1, y) := x in
  y_hat <- ConvCXN_forward model v (float x_0) (float x_1)
             (float adjacency_0) (float incidence_2_t) ;;
  cross_entropy y_hat y.

(** [(y_hat.argmax() == y).sum().item()] *)
Definition hit (y_hat : tensor1) (y : nat) : nat :=
  if argmax y_hat =? y then 1 else 0.

(** The body of the loop over the training samples. *)
Definition train_sample (c : counters) (s : session) (x : sample)
  : result (counters * session) :=
  let '(x_0, x_1, y) := x in
  let s := zero_grad s in
  '(y_hat, s) <- ConvCXN_call model s (float x_0) (float x_1)
                   (float adjacency_0) (float incidence_2_t) ;;
  loss <- cross_entropy y_hat y ;;
  let correct := correct c + hit y_hat y in
  let num_samples := num_samples c + 1 in
  let s := backward (ConvCXN_loss x) (leaves model) s in
  let s := step s in
  Ok (mkCounters (epoch_loss c ++ [loss]) num_samples correct, s).

Fixpoint train_samples (xs : list sample) (c : counters) (s : session)
  : result (counters * session) :=
  match xs with
  | [] => Ok (c, s)
  | x :: xs' =>
      '(c, s) <- train_sample c s x ;;
      train_samples xs' c s
  end.

(** The body of the loop over the held-out samples, under
    [torch.no_grad()]. *)
Definition test_sample (c : nat * nat) (s : session) (x : sample)
  : result (nat * nat * session) :=
  let '(num_samples, correct) := c in
  let '(x_0, x_1, y) := x in
  '(y_hat, s) <- ConvCXN_call model s x_0 x_1 adjacency_0 incidence_2_t ;;
  Ok (num_samples + 1, correct + hit y_hat y, s).

Fixpoint test_samples (xs : list sample) (c : nat * nat) (s : session)
  : result (nat * nat * session) :=
  match xs with
  | [] => Ok (c, s)
  | x :: xs' =>
      '(c, s) <- test_sample c s x ;;
      test_samples xs' c s
  end.

Definition test_phase (tests : list sample) (s : session) : result session :=
  '(num_samples, correct, s) <- test_samples tests (0, 0) s ;;
  test_acc <- py_div correct num_samples ;;
  Ok (print (TestLine test_acc) s).

Variables (x_0_train x_1_train : list tensor) (labels_train : list nat).
Variables (x_0_test x_1_test : list tensor) (labels_test : list nat).

Definition test_interval : nat := 2.

(** The training part of one epoch, up to its summary line. *)
Definition train_phase (epoch_i : nat) (s : session) : result (counters * session) :=
  '(c, s) <- train_samples (zip3 x_0_train x_1_train labels_train)
               (mkCounters [] 0 0) s ;;
  train_acc <- py_div (correct c) (num_samples c) ;;
  Ok (c, print (EpochLine epoch_i (qmean (epoch_loss c)) train_acc) s).

Definition ConvCXN_epoch (epoch_i : nat) (s : session) : result session :=
  '(_, s) <- train_phase epoch_i s ;;
  if epoch_i mod test_interval =? 0
  then test_phase (zip3 x_0_test x_1_test labels_test) s
  else Ok s.

Fixpoint ConvCXN_epochs (range : list nat) (s : session) : result session :=
  match range with
  | [] => Ok s
  | epoch_i :: rest =>
      s <- ConvCXN_epoch epoch_i s ;;
      ConvCXN_epochs rest s
  end.

(** [for epoch_i in range(1, args.num_epochs + 1): ...] *)
Definition ConvCXN_train (num_epochs : nat) (s : session) : result session :=
  ConvCXN_epochs (seq 1 num_epochs) s.

End ConvCXN.

End WithLibraries.

End Training.
Import Training.

(** ** The notebooks, cell by cell *)

Module Notebooks.

Import Domain.

Module SC := SimplicialComplex.
Module CC := CellComplex.
Import CC (item, Node, Cell).

Definition empty_heap : heap :=
  mkHeap 0 (fun _ => mkTensor Float32 0 0 (fun _ _ => 0%Q)).

Section WithLibraries.

Context {L : Libraries}.

Definition new_session (h : heap) (o : optimizer) : session :=
  mkSession (data h) (fun _ => None) o [].

(** *** hsn_train *)

Definition hsn_edge_set : list (list Z) := [[1; 2]; [1; 3]]%Z.
Definition hsn_domain : SC.t := SC.SimplicialComplex hsn_edge_set.

Definition hsn_incidence_1 : result tensor :=
  incidence_1 <- SC.incidence_matrix hsn_domain 1 ;;
  Ok (to_sparse (from_numpy (todense incidence_1))).

Definition hsn_adjacency_0 : result tensor :=
  adjacency_0 <- SC.adjacency_matrix hsn_domain 0 ;;
  Ok (to_sparse (from_numpy (todense adjacency_0))).

Definition x_nodes : tensor := torch_tensor [[1; 1]; [2; 2]; [1; 1]]%Q.
Definition channels_nodes : nat := t_cols x_nodes.

Definition hsn_model : module * heap := HSN_init channels_nodes 2 empty_heap.
Definition nodes_gt_labels : tensor := torch_tensor [[0]; [1]; [1]]%Q.
Definition hsn_optimizer : optimizer := Adam (parameters (fst hsn_model)) (1 # 100).

(** The training cell, run for [epochs] epochs (5 in the notebook). *)
Definition hsn_train (epochs : nat) : result (list tensor * session) :=
  incidence_1 <- hsn_incidence_1 ;;
  adjacency_0 <- hsn_adjacency_0 ;;
  HSN_train (fst hsn_model) x_nodes incidence_1 adjacency_0 nodes_gt_labels
            epochs (new_session (snd hsn_model) hsn_optimizer).

(** *** The template notebook *)

Definition template_edge_set : list (list Z) := [[1; 2]; [1; 3]]%Z.
Definition template_face_set : list (list Z) := [[2; 3; 4]; [2; 4; 5]]%Z.
Definition template_domain : SC.t :=
  SC.SimplicialComplex (template_edge_set ++ template_face_set).

Definition incidence_2_torch : result tensor :=
  incidence_2 <- SC.incidence_matrix template_domain 2 ;;
  Ok (to_sparse (from_numpy (todense incidence_2))).

Definition template_x_2 : tensor := torch_tensor [[1; 1]; [2; 2]]%Q.
Definition channels_face : nat := t_cols template_x_2.
Definition channels_edge : nat := 4.

Definition template_model : module * heap :=
  TemplateNN_init channels_face channels_edge 2 empty_heap.
Definition faces_gt_labels : tensor := torch_tensor [[0]; [1]]%Q.
Definition template_optimizer : optimizer :=
  Adam (parameters (fst template_model)) (1 # 100).

Definition template_train (epochs : nat) : result (list tensor * session) :=
  incidence_2 <- incidence_2_torch ;;
  TemplateNN_train (fst template_model) template_x_2 incidence_2 faces_gt_labels
                   epochs (new_session (snd template_model) template_optimizer).

(** *** convcxn_train *)

Definition convcxn_edge_set : list item :=
  [Cell [1; 2]; Cell [1; 3]; Cell [2; 4]; Cell [3; 4]; Cell [4; 5]; Cell [1; 6]]%Z.
Definition convcxn_node_set : list item :=
  [Node 1; Node 2; Node 3; Node 4; Node 5; Node 6]%Z.
Definition convcxn_face_set : list item := [Cell [1; 2; 3; 4]]%Z.
Definition complex : CC.t :=
  CC.CellComplex (convcxn_edge_set ++ convcxn_node_set ++ convcxn_face_set).

Definition incidence_2_t : result tensor :=
  incidence_2 <- CC.incidence_matrix complex 2 ;;
  let incidence_2_t := T incidence_2 in
  Ok (float (to_sparse (from_numpy (todense incidence_2_t)))).

Definition convcxn_adjacency_0 : result tensor :=
  adjacency_0 <- CC.adjacency_matrix complex 0 ;;
  Ok (float (to_sparse (from_numpy (todense adjacency_0)))).

(** [torch.Tensor(np.random.rand(rows, cols))], the k-th draw. *)
Definition rand_tensor (rows cols k : nat) : tensor :=
  mkTensor Float32 rows cols (np_random_rand k).

Definition num_features_0 : nat := 4.
Definition num_features_1 : nat := 5.

Definition x_0_train : list tensor :=
  map (rand_tensor (length (CC.nodes complex)) num_features_0) (seq 0 100).
Definition x_1_train : list tensor :=
  map (rand_tensor (length (CC.edges complex)) num_features_1) (seq 100 100).
Definition x_0_test : list tensor :=
  map (rand_tensor (length (CC.nodes complex)) num_features_0) (seq 200 10).
Definition x_1_test : list tensor :=
  map (rand_tensor (length (CC.edges complex)) num_features_1) (seq 210 10).

Definition randint (k : nat) : nat := if random_randint k then 1 else 0.
Definition labels_train : list nat := map randint (seq 0 100).
Definition labels_test : list nat := map randint (seq 100 10).

Definition in_ch_0 : nat := num_features_0.
Definition in_ch_1 : nat := num_features_1.
Definition in_ch_2 : nat := 5.

Definition convcxn_model : module * heap :=
  ConvCXN_init in_ch_0 in_ch_1 in_ch_2 2 2 empty_heap.

(** The training cell; [args_lr] and [args_num_epochs] default to 1e-3
    and 3. *)
Definition convcxn_train (args_lr : Q) (args_num_epochs : nat) : result session :=
  incidence_2_t <- incidence_2_t ;;
  adjacency_0 <- convcxn_adjacency_0 ;;
  ConvCXN_train (fst convcxn_model) adjacency_0 incidence_2_t
                x_0_train x_1_train labels_train x_0_test x_1_test labels_test
                args_num_epochs
                (new_session (snd convcxn_model)
                             (Adam (parameters (fst convcxn_model)) args_lr)).

End WithLibraries.

End Notebooks.

(** * Properties *)

(** ** Which parameters a model hands to its optimizer *)

Module Registry.

(** The parameters of the layers that a model keeps in ordinary
    attributes. *)
Definition layer_parameters (model : module) : list param_id :=
  flat_map (fun a => flat_map parameters (snd a)) (__dict__ model).

Lemma parameters_leaf (c : string) (a : list nat) (ps : list (string * param_id))
      (d : list (string * list module)) :
  parameters (mkModule c a ps [] d) = map snd ps.
Proof. simpl. apply app_nil_r. Qed.

Section WithLibraries.

Context {L : Libraries}.

(** One more learnable tensor of a layer under construction. *)
Definition add_weight (acc : module * heap) (w : string * (nat * nat)) : module * heap :=
  let '(self, h) := acc in
  let '(name, (rows, cols)) := w in
  let '(p, h) := new_parameter init_entries rows cols h in
  (setattr self name (VParameter p), h).

Lemma new_layer_fold (c : string) (args : list nat) (h : heap) :
  new_layer c args h = fold_left add_weight (layer_weights c args) (Module_init c args, h).
Proof. reflexivity. Qed.

Lemma add_weight_eq c a ps h name rows cols :
  add_weight (mkModule c a ps [] [], h) (name, (rows, cols))
  = (mkModule c a (ps ++ [(name, next h)]) [] [],
     mkHeap (S (next h))
            (update (data h) (next h)
                    (mkTensor Float32 rows cols (init_entries (next h))))).
Proof. reflexivity. Qed.

Lemma add_weights_spec (ws : list (string * (nat * nat))) :
  forall c a ps h,
    let r := fold_left add_weight ws (mkModule c a ps [] [], h) in
    parameters (fst r) = map snd ps ++ seq (next h) (length ws)
    /\ next (snd r) = next h + length ws
    /\ _modules (fst r) = [] /\ __dict__ (fst r) = [].
Proof.
  induction ws as [| [name [rows cols]] ws IH]; intros c a ps h; cbn zeta.
  - cbn [fold_left fst snd]. rewrite parameters_leaf.
    simpl. rewrite app_nil_r, Nat.add_0_r. auto.
  - cbn [fold_left]. rewrite add_weight_eq.
    specialize (IH c a (ps ++ [(name, next h)])
                   (mkHeap (S (next h))
                           (update (data h) (next h)
                                   (mkTensor Float32 rows cols (init_entries (next h)))))).
    cbn zeta in IH. destruct IH as (Hp & Hn & Hm & Hd).
    rewrite Hp, Hn. cbn [next length].
    rewrite map_app, <- app_assoc. cbn [map snd app].
    repeat split; auto; lia.
Qed.

Lemma new_layer_spec (c : string) (args : list nat) (h : heap) :
  parameters (fst (new_layer c args h)) = seq (next h) (length (layer_weights c args))
  /\ next (snd (new_layer c args h)) = next h + length (layer_weights c args).
Proof.
  rewrite new_layer_fold. unfold Module_init.
  destruct (add_weights_spec (layer_weights c args) c args [] h) as (Hp & Hn & _).
  cbn zeta in Hp, Hn. auto.
Qed.

Lemma append_layers_spec (c : string) (args : list nat) (n : nat) :
  forall layers h,
    let r := append_layers n (new_layer c args) layers h in
    let w := length (layer_weights c args) in
    flat_map parameters (fst r) = flat_map parameters layers ++ seq (next h) (n * w)
    /\ next (snd r) = next h + n * w
    /\ length (fst r) = length layers + n.
Proof.
  induction n as [| n IH]; intros layers h; cbn zeta.
  - simpl. rewrite app_nil_r, !Nat.add_0_r. auto.
  - simpl append_layers.
    destruct (new_layer c args h) as [layer h1] eqn:E.
    pose proof (new_layer_spec c args h) as [Hp Hn]. rewrite E in Hp, Hn.
    cbn [fst snd] in Hp, Hn.
    specialize (IH (layers ++ [layer]) h1). cbn zeta in IH.
    destruct IH as (Hf & Hx & Hl). rewrite Hf, Hx, Hl, Hn.
    rewrite flat_map_app. simpl flat_map. rewrite app_nil_r, Hp.
    rewrite length_app. simpl length. repeat split; try lia.
    rewrite <- app_assoc. f_equal.
    replace (S n * length (layer_weights c args))
      with (length (layer_weights c args) + n * length (layer_weights c args)) by lia.
    rewrite seq_app. reflexivity.
Qed.

Lemma Linear_spec (i o : nat) (h : heap) :
  parameters (fst (Linear init_entries i o h)) = seq (next h) 2
  /\ next (snd (Linear init_entries i o h)) = next h + 2.
Proof. unfold Linear, new_parameter. simpl. split; [reflexivity | lia]. Qed.

Ltac open_init :=
  unfold HSNLayer, TemplateLayer, ConvCXNLayer;
  match goal with
  | |- context [append_layers ?n (new_layer ?c ?args) [] ?h] =>
      let S := fresh "S" in
      pose proof (append_layers_spec c args n [] h) as S;
      destruct (append_layers n (new_layer c args) [] h) as [layers h1];
      cbn zeta in S; cbn [fst snd flat_map app length] in S;
      destruct S as (Hlayers & Hnext & Hlen)
  end.

Lemma HSN_registry (channels n_layers : nat) (h : heap) :
  let model := fst (HSN_init channels n_layers h) in
  let w := length (layer_weights "HSNLayer" [channels]) in
  layer_parameters model = seq (next h) (n_layers * w)
  /\ parameters model = seq (next h + n_layers * w) 2.
Proof.
  cbn zeta. unfold HSN_init. open_init.
  pose proof (Linear_spec channels 1 h1) as [Hp _].
  destruct (Linear init_entries channels 1 h1) as [linear h2].
  cbn [fst] in Hp. unfold layer_parameters.
  cbn [fst snd setattr Module_init __dict__ app flat_map parameters map].
  rewrite !app_nil_r, Hlayers, Hp, Hnext. auto.
Qed.

Lemma TemplateNN_registry (channels_face channels_edge n_layers : nat) (h : heap) :
  let model := fst (TemplateNN_init channels_face channels_edge n_layers h) in
  let w := length (layer_weights "TemplateLayer"
                     [channels_face; channels_edge; channels_face]) in
  layer_parameters model = seq (next h) (n_layers * w)
  /\ parameters model = seq (next h + n_layers * w) 2.
Proof.
  cbn zeta. unfold TemplateNN_init. open_init.
  pose proof (Linear_spec channels_face 1 h1) as [Hp _].
  destruct (Linear init_entries channels_face 1 h1) as [linear h2].
  cbn [fst] in Hp. unfold layer_parameters.
  cbn [fst snd setattr Module_init __dict__ app flat_map parameters map].
  rewrite !app_nil_r, Hlayers, Hp, Hnext. auto.
Qed.

Lemma ConvCXN_registry (in_ch_0 in_ch_1 in_ch_2 num_classes n_layers : nat) (h : heap) :
  let model := fst (ConvCXN_init in_ch_0 in_ch_1 in_ch_2 num_classes n_layers h) in
  let w := length (layer_weights "ConvCXNLayer" [in_ch_0; in_ch_1; in_ch_2]) in
  layer_parameters model = seq (next h) (n_layers * w)
  /\ parameters model = seq (next h + n_layers * w) 6.
Proof.
  cbn zeta. unfold ConvCXN_init. open_init.
  pose proof (Linear_spec in_ch_0 num_classes h1) as [Hp0 Hn0].
  destruct (Linear init_entries in_ch_0 num_classes h1) as [lin_0 h2].
  pose proof (Linear_spec in_ch_1 num_classes h2) as [Hp1 Hn1].
  destruct (Linear init_entries in_ch_1 num_classes h2) as [lin_1 h3].
  pose proof (Linear_spec in_ch_2 num_classes h3) as [Hp2 _].
  destruct (Linear init_entries in_ch_2 num_classes h3) as [lin_2 h4].
  cbn [fst snd] in Hp0, Hn0, Hp1, Hn1, Hp2. unfold layer_parameters.
  cbn [fst snd setattr Module_init __dict__ app flat_map parameters map].
  rewrite !app_nil_r, Hlayers, Hp0, Hp1, Hp2, Hn1, Hn0, Hnext.
  split; [reflexivity |].
  replace (next h + n_layers * _ + 2 + 2) with (2 + (2 + (next h + n_layers *
    length (layer_weights "ConvCXNLayer" [in_ch_0; in_ch_1; in_ch_2])))) by lia.
  replace (next h + n_layers * _ + 2) with (2 + (next h + n_layers *
    length (layer_weights "ConvCXNLayer" [in_ch_0; in_ch_1; in_ch_2]))) by lia.
  cbn [seq app Nat.add]. reflexivity.
Qed.

(** C1, as the code has it.  The layers are kept in a plain list, which
    [__setattr__] does not register: [model.parameters()], and with it
    the optimizer, holds the parameters of the read-out head(s) only.
    The parameters of the layers are the addresses allocated before
    them, none of which is handed to the optimizer. *)
Theorem optimizer_misses_layer_parameters (n_layers : nat) (h : heap) :
  (forall channels,
     let model := fst (HSN_init channels n_layers h) in
     let w := length (layer_weights "HSNLayer" [channels]) in
     layer_parameters model = seq (next h) (n_layers * w)
     /\ parameters model = seq (next h + n_layers * w) 2)
  /\ (forall channels_face channels_edge,
        let model := fst (TemplateNN_init channels_face channels_edge n_layers h) in
        let w := length (layer_weights "TemplateLayer"
                           [channels_face; channels_edge; channels_face]) in
        layer_parameters model = seq (next h) (n_layers * w)
        /\ parameters model = seq (next h + n_layers * w) 2)
  /\ (forall in_ch_0 in_ch_1 in_ch_2 num_classes,
        let model := fst (ConvCXN_init in_ch_0 in_ch_1 in_ch_2 num_classes n_layers h) in
        let w := length (layer_weights "ConvCXNLayer" [in_ch_0; in_ch_1; in_ch_2]) in
        layer_parameters model = seq (next h) (n_layers * w)
        /\ parameters model = seq (next h + n_layers * w) 6).
Proof.
  repeat split; intros;
    first [ apply HSN_registry | apply TemplateNN_registry | apply ConvCXN_registry ].
Qed.

End WithLibraries.

End Registry.

(** ** Channel widths along a layer stack *)

Module Channels.

Import Registry.







Section WithLibraries.

Context {L : Libraries}.

Lemma add_weights_class (ws : list (string * (nat * nat))) :
  forall self h,
    cls (fst (fold_left add_weight ws (self, h))) = cls self
    /\ cfg (fst (fold_left add_weight ws (self, h))) = cfg self.
Proof.
  induction ws as [| [name [rows cols]] ws IH]; intros self h; [auto |].
  cbn [fold_left].
  change (add_weight (self, h) (name, (rows, cols)))
    with (setattr self name (VParameter (next h)),
          mkHeap (S (next h))
            (update (data h) (next h)
               (mkTensor Float32 rows cols (init_entries (next h))))).
  destruct (IH (setattr self name (VParameter (next h)))
               (mkHeap (S (next h))
                  (update (data h) (next h)
                     (mkTensor Float32 rows cols (init_entries (next h))))))
    as [H1 H2].
  rewrite H1, H2. destruct self; auto.
Qed.

Lemma new_layer_class (c : string) (args : list nat) (h : heap) :
  cls (fst (new_layer c args h)) = c /\ cfg (fst (new_layer c args h)) = args.
Proof. rewrite new_layer_fold. apply add_weights_class. Qed.

Lemma append_layers_class (c : string) (args : list nat) (n : nat) :
  forall layers h,
    Forall (fun l => cls l = c /\ cfg l = args) layers ->
    Forall (fun l => cls l = c /\ cfg l = args)
           (fst (append_layers n (new_layer c args) layers h)).
Proof.
  induction n as [| n IH]; intros layers h HF; [exact HF |].
  cbn [append_layers].
  pose proof (new_layer_class c args h) as Hc.
  destruct (new_layer c args h) as [layer h1]. cbn [fst] in Hc.
  apply IH. apply Forall_app. split; [exact HF | constructor; auto].
Qed.







(** The loop of a constructor is left by the first layer constructor,
    when the layer library refuses the arguments; otherwise it is the loop
    of [__init__]. *)
Lemma try_append_layers_spec (c : string) (args : list nat) (n : nat) :
  forall layers h,
    try_append_layers n (call_layer c args) layers h =
    match n, layer_rejects c args with
    | S _, Some e => Raise e
    | _, _ => Ok (append_layers n (new_layer c args) layers h)
    end.
Proof.
  induction n as [| n IH]; intros layers h; [reflexivity |].
  cbn [try_append_layers append_layers]. unfold call_layer at 1.
  destruct (layer_rejects c args) as [e |] eqn:E; [reflexivity |].
  cbn [Py.bind]. destruct (new_layer c args h) as [layer h1].
  rewrite IH; try rewrite E. now destruct n.
Qed.

Lemma HSN_new_spec (channels n_layers : nat) (h : heap) :
  HSN_new channels n_layers h =
  match n_layers, layer_rejects "HSNLayer" [channels] with
  | S _, Some e => Raise e
  | _, _ => Ok (HSN_init channels n_layers h)
  end.
Proof.
  unfold HSN_new, HSN_init, HSNLayer. rewrite try_append_layers_spec.
  destruct n_layers as [| n]; [| destruct (layer_rejects _ _); [reflexivity |]];
    cbn [Py.bind];
    destruct (append_layers _ _ _ _) as [layers h1];
    now destruct (Linear init_entries channels 1 h1).
Qed.

Lemma TemplateNN_new_spec (channels_face channels_edge n_layers : nat) (h : heap) :
  TemplateNN_new channels_face channels_edge n_layers h =
  match n_layers,
        layer_rejects "TemplateLayer" [channels_face; channels_edge; channels_face] with
  | S _, Some e => Raise e
  | _, _ => Ok (TemplateNN_init channels_face channels_edge n_layers h)
  end.
Proof.
  unfold TemplateNN_new, TemplateNN_init, TemplateLayer.
  rewrite try_append_layers_spec.
  destruct n_layers as [| n]; [| destruct (layer_rejects _ _); [reflexivity |]];
    cbn [Py.bind];
    destruct (append_layers _ _ _ _) as [layers h1];
    now destruct (Linear init_entries channels_face 1 h1).
Qed.

Lemma ConvCXN_new_spec (in_ch_0 in_ch_1 in_ch_2 num_classes n_layers : nat) (h : heap) :
  ConvCXN_new in_ch_0 in_ch_1 in_ch_2 num_classes n_layers h =
  match n_layers, layer_rejects "ConvCXNLayer" [in_ch_0; in_ch_1; in_ch_2] with
  | S _, Some e => Raise e
  | _, _ => Ok (ConvCXN_init in_ch_0 in_ch_1 in_ch_2 num_classes n_layers h)
  end.
Proof.
  unfold ConvCXN_new, ConvCXN_init, ConvCXNLayer.
  rewrite try_append_layers_spec.
  destruct n_layers as [| n]; [| destruct (layer_rejects _ _); [reflexivity |]];
    cbn [Py.bind];
    destruct (append_layers _ _ _ _) as [layers h1];
    destruct (Linear init_entries in_ch_0 num_classes h1) as [lin_0 h2];
    destruct (Linear init_entries in_ch_1 num_classes h2) as [lin_1 h3];
    now destruct (Linear init_entries in_ch_2 num_classes h3).
Qed.

(** A constructor call that returns has run [__init__] to its end. *)
Lemma HSN_new_Ok (channels n_layers : nat) (h : heap) (built : module * heap) :
  HSN_new channels n_layers h = Ok built -> built = HSN_init channels n_layers h.
Proof.
  rewrite HSN_new_spec. destruct n_layers; [congruence |].
  destruct (layer_rejects _ _); congruence.
Qed.

Lemma TemplateNN_new_Ok (channels_face channels_edge n_layers : nat) (h : heap)
      (built : module * heap) :
  TemplateNN_new channels_face channels_edge n_layers h = Ok built ->
  built = TemplateNN_init channels_face channels_edge n_layers h.
Proof.
  rewrite TemplateNN_new_spec. destruct n_layers; [congruence |].
  destruct (layer_rejects _ _); congruence.
Qed.

Lemma ConvCXN_new_Ok (in_ch_0 in_ch_1 in_ch_2 num_classes n_layers : nat) (h : heap)
      (built : module * heap) :
  ConvCXN_new in_ch_0 in_ch_1 in_ch_2 num_classes n_layers h = Ok built ->
  built = ConvCXN_init in_ch_0 in_ch_1 in_ch_2 num_classes n_layers h.
Proof.
  rewrite ConvCXN_new_spec. destruct n_layers; [congruence |].
  destruct (layer_rejects _ _); congruence.
Qed.



End WithLibraries.

End Channels.

(** ** The training loops *)

Module Loops.

Lemma bind_Ok {A B} (c : result A) (k : A -> result B) (b : B) :
  Py.bind c k = Ok b -> exists a, c = Ok a /\ k a = Ok b.
Proof. destruct c as [a | e]; simpl; [eauto | discriminate]. Qed.

(** Splits a completed sequence of statements into its steps. *)
Ltac inv_bind H :=
  repeat match type of H with
         | Py.bind _ _ = Ok _ =>
             let a := fresh "r" in
             let E := fresh "E" in
             apply bind_Ok in H; destruct H as (a & E & H)
         | (let '(_, _) := ?p in _) = Ok _ => destruct p
         | (match ?p with (_, _) => _ end) = Ok _ => destruct p
         end.

Lemma zip3_length {A B C} (a : list A) (b : list B) (c : list C) (n : nat) :
  length a = n -> length b = n -> length c = n -> length (zip3 a b c) = n.
Proof.
  revert b c n. induction a as [| x a IH]; intros [| y b] [| z c] n Ha Hb Hc;
    simpl in *; try congruence.
  destruct n as [| n]; [discriminate |]. f_equal. apply IH; congruence.
Qed.

Section WithLibraries.

Context {L : Libraries}.

Lemma step_opt (s : session) :
  steps (opt (step s)) = S (steps (opt s))
  /\ param_group (opt (step s)) = param_group (opt s)
  /\ stdout (step s) = stdout s.
Proof.
  unfold step.
  destruct (step_params (param_group (opt s)) (lr (opt s)) (grads s) (params s, slots (opt s))).
  simpl. auto.
Qed.

(** A step of the optimizer only writes the parameters it was given. *)
Lemma step_params_frame (ps : list param_id) (rate : Q) (g : param_id -> option tensor) :
  forall vs q, ~ In q ps -> fst (step_params ps rate g vs) q = fst vs q.
Proof.
  induction ps as [| p ps IH]; intros [v sl] q Hq; [reflexivity |].
  simpl in Hq. cbn [step_params].
  destruct (g p) as [gp |].
  - destruct (adam_update rate (sl p) (v p) gp) as [t slot].
    rewrite IH by tauto. cbn [fst]. unfold update.
    destruct (q =? p) eqn:E; [apply Nat.eqb_eq in E; subst; tauto | reflexivity].
  - apply IH. tauto.
Qed.

Lemma step_frame (s : session) (q : param_id) :
  ~ In q (param_group (opt s)) -> params (step s) q = params s q.
Proof.
  intro Hq. unfold step.
  pose proof (step_params_frame (param_group (opt s)) (lr (opt s)) (grads s)
                                (params s, slots (opt s)) q Hq) as H.
  destruct (step_params (param_group (opt s)) (lr (opt s)) (grads s) (params s, slots (opt s))).
  exact H.
Qed.

(** A call returns what [forward] computes from the current parameters
    and hands the state back as it was. *)
Lemma HSN_call_frame (model : module) (s s' : session) (x i a y : tensor) :
  HSN_call model s x i a = Ok (y, s') ->
  s' = s /\ HSN_forward model (params s) x i a = Ok y.
Proof.
  unfold HSN_call. destruct (HSN_forward model (params s) x i a); cbn; [| discriminate].
  intro H. injection H as <- <-. auto.
Qed.

Lemma ConvCXN_call_frame (model : module) (s s' : session)
      (x_0 x_1 n00 n12 : tensor) (y : tensor1) :
  ConvCXN_call model s x_0 x_1 n00 n12 = Ok (y, s') ->
  s' = s /\ ConvCXN_forward model (params s) x_0 x_1 n00 n12 = Ok y.
Proof.
  unfold ConvCXN_call.
  destruct (ConvCXN_forward model (params s) x_0 x_1 n00 n12); cbn; [| discriminate].
  intro H. injection H as <- <-. auto.
Qed.

Ltac call_frame :=
  match goal with
  | E : ConvCXN_call _ _ _ _ _ _ = Ok _ |- _ =>
      apply ConvCXN_call_frame in E; destruct E as [-> ?]
  | E : HSN_call _ _ _ _ _ = Ok _ |- _ =>
      apply HSN_call_frame in E; destruct E as [-> ?]
  end.

(** An epoch of the HSN loop changes no parameter outside those the
    optimizer was given. *)
Lemma HSN_epoch_frame (model : module) (x i a labels pred : tensor) (s s' : session)
      (q : param_id) :
  ~ In q (param_group (opt s)) ->
  HSN_epoch model x i a labels s = Ok (pred, s') ->
  params s' q = params s q.
Proof.
  intros Hq H. unfold HSN_epoch in H. inv_bind H. call_frame. injection H as _ <-.
  now rewrite step_frame.
Qed.

Section ConvCXN.

Variables (model : module) (adjacency_0 incidence_2_t : tensor).

Lemma train_sample_counts (c c' : counters) (s s' : session) (x : sample) :
  train_sample model adjacency_0 incidence_2_t c s x = Ok (c', s') ->
  num_samples c' = num_samples c + 1
  /\ length (epoch_loss c') = length (epoch_loss c) + 1
  /\ steps (opt s') = steps (opt s) + 1
  /\ stdout s' = stdout s.
Proof.
  intro H. unfold train_sample in H. destruct x as [[x_0 x_1] y].
  inv_bind H. call_frame. injection H as <- <-.
  cbn [num_samples epoch_loss]. rewrite length_app. cbn [length].
  destruct (step_opt (backward (ConvCXN_loss model adjacency_0 incidence_2_t (x_0, x_1, y))
                               (leaves model) (zero_grad s))) as (Hs & _ & Ho).
  rewrite Hs, Ho. simpl. repeat split; lia.
Qed.

Lemma train_samples_counts (xs : list sample) :
  forall c s c' s',
    train_samples model adjacency_0 incidence_2_t xs c s = Ok (c', s') ->
    num_samples c' = num_samples c + length xs
    /\ length (epoch_loss c') = length (epoch_loss c) + length xs
    /\ steps (opt s') = steps (opt s) + length xs
    /\ stdout s' = stdout s.
Proof.
  induction xs as [| x xs IH]; intros c s c' s' H.
  - injection H as <- <-. simpl. repeat split; lia.
  - cbn [train_samples] in H. inv_bind H.
    apply train_sample_counts in E. apply IH in H.
    destruct E as (E1 & E2 & E3 & E4), H as (H1 & H2 & H3 & H4).
    cbn [length]. repeat split; try lia. congruence.
Qed.

(** The loop over the held-out samples hands back the state it was
    given. *)
Lemma test_samples_frame (xs : list sample) :
  forall c s c' s',
    test_samples model adjacency_0 incidence_2_t xs c s = Ok (c', s') ->
    s' = s /\ fst c' = fst c + length xs.
Proof.
  induction xs as [| x xs IH]; intros c s c' s' H.
  - injection H as <- <-. simpl. split; [reflexivity | lia].
  - cbn [test_samples] in H. inv_bind H.
    unfold test_sample in E. destruct c as [n k], x as [[x_0 x_1] y].
    inv_bind E. call_frame. injection E as <- <-. apply IH in H. cbn [fst length] in *.
    destruct H as [-> ->]. split; [reflexivity | lia].
Qed.

Lemma is_ok_Ok {A} (c : result A) : is_ok c = true -> exists a, c = Ok a.
Proof. destruct c; [eauto | discriminate]. Qed.

(** C7.  An epoch that runs to its summary line has counted every
    training sample, recorded one loss per sample and stepped the optimizer
    once per sample. *)
Theorem epoch_steps_once_per_sample
        (x_0_train x_1_train : list tensor) (labels_train : list nat)
        (n epoch_i : nat) (s : session) :
  length x_0_train = n -> length x_1_train = n -> length labels_train = n ->
  is_ok (train_phase model adjacency_0 incidence_2_t
                     x_0_train x_1_train labels_train epoch_i s) = true ->
  exists c s',
    train_phase model adjacency_0 incidence_2_t
                x_0_train x_1_train labels_train epoch_i s = Ok (c, s')
    /\ num_samples c = n
    /\ length (epoch_loss c) = n
    /\ steps (opt s') = steps (opt s) + n.
Proof.
  intros H0 H1 Hy Hok. apply is_ok_Ok in Hok. destruct Hok as [[c s'] Hrun].
  exists c, s'. split; [exact Hrun |].
  unfold train_phase in Hrun. inv_bind Hrun. injection Hrun as <- <-.
  apply train_samples_counts in E.
  pose proof (zip3_length x_0_train x_1_train labels_train n H0 H1 Hy) as Hz.
  unfold sample in E. rewrite Hz in E.
  destruct E as (E1 & E2 & E3 & _). cbn [num_samples epoch_loss length] in *.
  unfold print. cbn [opt]. auto.
Qed.

(** C8.  A completed evaluation pass leaves every parameter, every
    gradient and the optimizer as they were; it only prints its line. *)
Theorem evaluation_keeps_parameters (tests : list sample) (s : session) :
  is_ok (test_phase model adjacency_0 incidence_2_t tests s) = true ->
  exists s' acc,
    test_phase model adjacency_0 incidence_2_t tests s = Ok s'
    /\ (forall p, params s' p = params s p)
    /\ grads s' = grads s
    /\ opt s' = opt s
    /\ stdout s' = stdout s ++ [TestLine acc].
Proof.
  intro Hok. apply is_ok_Ok in Hok. destruct Hok as [s' Hrun].
  pose proof Hrun as H. unfold test_phase in H. inv_bind H.
  match goal with
  | E : test_samples _ _ _ _ _ _ = Ok _ |- _ =>
      apply test_samples_frame in E; destruct E as [-> _]
  end.
  injection H as <-. do 2 eexists.
  split; [exact Hrun |]. unfold print. cbn. auto.
Qed.

(** What a line of output is about. *)
Inductive kind : Type := Epoch (epoch_i : nat) | Test.

Definition kind_of (l : line) : kind :=
  match l with
  | EpochLine epoch_i _ _ => Epoch epoch_i
  | TestLine _ => Test
  end.

(** One summary line per epoch, and a test line after the epochs whose
    number is a multiple of the interval. *)
Definition expected_output (range : list nat) : list kind :=
  flat_map (fun epoch_i =>
              Epoch epoch_i :: if epoch_i mod test_interval =? 0 then [Test] else [])
           range.

Variables (x_0_train x_1_train : list tensor) (labels_train : list nat).
Variables (x_0_test x_1_test : list tensor) (labels_test : list nat).

Lemma epochs_output (range : list nat) :
  forall s s',
    ConvCXN_epochs model adjacency_0 incidence_2_t
                   x_0_train x_1_train labels_train x_0_test x_1_test labels_test
                   range s = Ok s' ->
    map kind_of (stdout s') = map kind_of (stdout s) ++ expected_output range.
Proof.
  induction range as [| epoch_i range IH]; intros s s' H.
  - injection H as <-. simpl. now rewrite app_nil_r.
  - cbn [ConvCXN_epochs] in H. inv_bind H. apply IH in H. rewrite H. clear H IH.
    match goal with
    | E : ConvCXN_epoch _ _ _ _ _ _ _ _ _ _ _ = Ok _ |- _ =>
        rename E into Hepoch
    end.
    unfold ConvCXN_epoch in Hepoch. inv_bind Hepoch.
    match goal with
    | E : train_phase _ _ _ _ _ _ _ _ = Ok _ |- _ =>
        unfold train_phase in E; inv_bind E; injection E as <- <-
    end.
    match goal with
    | E : train_samples _ _ _ _ _ _ = Ok _ |- _ =>
        apply train_samples_counts in E; destruct E as (_ & _ & _ & Hout)
    end.
    unfold expected_output. cbn [flat_map]. fold (expected_output range).
    destruct (epoch_i mod test_interval =? 0).
    + unfold test_phase in Hepoch. inv_bind Hepoch.
      match goal with
      | E : test_samples _ _ _ _ _ _ = Ok _ |- _ =>
          apply test_samples_frame in E; destruct E as [-> _]
      end.
      injection Hepoch as <-.
      unfold print. cbn [stdout]. rewrite Hout, !map_app. cbn.
      rewrite <- !app_assoc. reflexivity.
    + injection Hepoch as <-. unfold print. cbn [stdout]. rewrite Hout, map_app. cbn.
      rewrite <- !app_assoc. reflexivity.
Qed.

End ConvCXN.

End WithLibraries.

End Loops.

(** ** Shapes of the parameters through construction and training *)

Module Shapes.

Import Registry Loops.

(** A tensor in single precision, the dtype of the parameters. *)
Definition single (t : tensor) : Prop := t_dtype t = Float32.

(** Every learnable tensor of a layer is there under its name and has,
    under the parameter values [v], the shape the layer allocated it with,
    in single precision. *)
Definition weights_ok {L : Libraries} (layer : module) (v : param_id -> tensor) : Prop :=
  Forall2 (fun np w => fst np = fst w /\ shape (v (snd np)) = snd w
                       /\ single (v (snd np)))
          (_parameters layer) (layer_weights (cls layer) (cfg layer)).

(** All parameters of a module lie below an address. *)
Definition below (m : module) (n : param_id) : Prop :=
  Forall (fun np => snd np < n) (_parameters m).

(** No parameter changes its shape or its dtype from [v] to [v']. *)
Definition same_shapes (v v' : param_id -> tensor) : Prop :=
  forall q, shape (v' q) = shape (v q) /\ t_dtype (v' q) = t_dtype (v q).

(** Allocation leaves the parameters already there alone. *)
Definition extends (h h' : heap) : Prop :=
  next h <= next h' /\ forall q, q < next h -> data h' q = data h q.

Lemma extends_refl (h : heap) : extends h h.
Proof. split; auto. Qed.

Lemma extends_trans (h1 h2 h3 : heap) : extends h1 h2 -> extends h2 h3 -> extends h1 h3.
Proof.
  intros [H1 F1] [H2 F2]. split; [lia |].
  intros q Hq. rewrite F2 by lia. apply F1, Hq.
Qed.

Section WithLibraries.

Context {L : Libraries}.

Lemma weights_ok_same_shapes (layer : module) (v v' : param_id -> tensor) :
  same_shapes v v' -> weights_ok layer v -> weights_ok layer v'.
Proof.
  intros Hs H. unfold weights_ok in *.
  induction H as [| np w ps ws (Hname & Hnp & Hd) _ IH]; constructor; [| exact IH].
  destruct (Hs (snd np)) as [Hshape Hdtype].
  unfold single in *. rewrite Hshape, Hdtype. auto.
Qed.

Lemma weights_ok_extends (layer : module) (h h' : heap) :
  extends h h' -> below layer (next h) ->
  weights_ok layer (data h) -> weights_ok layer (data h').
Proof.
  intros [_ F] Hb H. unfold weights_ok, below in *.
  revert Hb. induction H as [| np w ps ws Hnp _ IH]; intro Hb; constructor.
  - rewrite F; [exact Hnp | exact (Forall_inv Hb)].
  - apply IH. exact (Forall_inv_tail Hb).
Qed.

Lemma new_parameter_extends (rows cols : nat) (h : heap) :
  extends h (snd (new_parameter init_entries rows cols h))
  /\ (shape (data (snd (new_parameter init_entries rows cols h)) (next h)) = (rows, cols)
      /\ single (data (snd (new_parameter init_entries rows cols h)) (next h)))
  /\ fst (new_parameter init_entries rows cols h) = next h
  /\ next (snd (new_parameter init_entries rows cols h)) = S (next h).
Proof.
  unfold new_parameter, extends, update, single. cbn. repeat split; try lia.
  - intros q Hq. destruct (q =? next h) eqn:E; [| reflexivity].
    apply Nat.eqb_eq in E. lia.
  - now rewrite Nat.eqb_refl.
  - now rewrite Nat.eqb_refl.
Qed.

(** The parameters [ps] have, under [v], the shapes listed in [ws]. *)
Definition shaped (v : param_id -> tensor) (ps : list (string * param_id))
           (ws : list (string * (nat * nat))) : Prop :=
  Forall2 (fun np w => fst np = fst w /\ shape (v (snd np)) = snd w
                       /\ single (v (snd np))) ps ws.

Lemma shaped_extends (h h' : heap) ps ws :
  extends h h' -> Forall (fun np => snd np < next h) ps ->
  shaped (data h) ps ws -> shaped (data h') ps ws.
Proof.
  intros [_ F] Hb H. unfold shaped in *.
  revert Hb. induction H as [| np w ps ws Hnp _ IH]; intro Hb; constructor.
  - rewrite F; [exact Hnp | exact (Forall_inv Hb)].
  - apply IH. exact (Forall_inv_tail Hb).
Qed.

Lemma setattr_parameter (self : module) (name : string) (p : param_id) :
  _parameters (setattr self name (VParameter p)) = _parameters self ++ [(name, p)]
  /\ cls (setattr self name (VParameter p)) = cls self
  /\ cfg (setattr self name (VParameter p)) = cfg self.
Proof. destruct self. cbn. auto. Qed.

Lemma add_weights_shaped (ws : list (string * (nat * nat))) :
  forall self h done,
    shaped (data h) (_parameters self) done ->
    below self (next h) ->
    let r := fold_left add_weight ws (self, h) in
    shaped (data (snd r)) (_parameters (fst r)) (done ++ ws)
    /\ below (fst r) (next (snd r))
    /\ extends h (snd r).
Proof.
  induction ws as [| [name [rows cols]] ws IH]; intros self h done Hs Hb; cbn zeta.
  - cbn [fold_left fst snd]. rewrite app_nil_r. auto using extends_refl.
  - cbn [fold_left].
    change (add_weight (self, h) (name, (rows, cols)))
      with (setattr self name (VParameter (fst (new_parameter init_entries rows cols h))),
            snd (new_parameter init_entries rows cols h)).
    destruct (new_parameter_extends rows cols h) as (He & Hshape & Hid & Hnext).
    set (h1 := snd (new_parameter init_entries rows cols h)) in *.
    rewrite Hid.
    destruct (setattr_parameter self name (next h)) as (Hps & _ & _).
    specialize (IH (setattr self name (VParameter (next h))) h1
                   (done ++ [(name, (rows, cols))])).
    cbn zeta in IH.
    destruct IH as (IH1 & IH2 & IH3).
    + rewrite Hps. apply Forall2_app.
      * apply (shaped_extends h h1); assumption.
      * constructor; [split; [reflexivity | exact Hshape] | constructor].
    + unfold below. rewrite Hps, Hnext. apply Forall_app. split.
      * eapply Forall_impl; [| exact Hb]. cbn. intros; lia.
      * constructor; [cbn; lia | constructor].
    + rewrite <- app_assoc in IH1. cbn [app] in IH1.
      repeat split; [exact IH1 | exact IH2 | exact (proj1 (extends_trans _ _ _ He IH3))
                    | exact (proj2 (extends_trans _ _ _ He IH3))].
Qed.

(** A new layer has well-shaped weights, all below the next free address,
    and leaves the older parameters alone. *)
Lemma new_layer_shaped (c : string) (args : list nat) (h : heap) :
  let r := new_layer c args h in
  weights_ok (fst r) (data (snd r))
  /\ below (fst r) (next (snd r))
  /\ extends h (snd r).
Proof.
  cbn zeta. rewrite new_layer_fold.
  destruct (add_weights_shaped (layer_weights c args) (Module_init c args) h [])
    as (H1 & H2 & H3); [constructor | constructor |].
  cbn zeta in H1, H2, H3. cbn [app] in H1. repeat split; try assumption; try apply H3.
  unfold weights_ok.
  destruct (Channels.add_weights_class (layer_weights c args) (Module_init c args) h)
    as [-> ->].
  exact H1.
Qed.

Lemma below_le (m : module) (n n' : param_id) : n <= n' -> below m n -> below m n'.
Proof. intros Hn Hb. eapply Forall_impl; [| exact Hb]. cbn. intros; lia. Qed.

(** A layer of a stack under construction: well-shaped and below the next
    free address. *)
Definition settled (h : heap) (layer : module) : Prop :=
  weights_ok layer (data h) /\ below layer (next h).

Lemma settled_extends (h h' : heap) (layer : module) :
  extends h h' -> settled h layer -> settled h' layer.
Proof.
  intros He [H1 H2]. split.
  - apply (weights_ok_extends layer h h'); assumption.
  - apply (below_le layer (next h)); [apply He | exact H2].
Qed.

Lemma append_layers_shaped (c : string) (args : list nat) (n : nat) :
  forall layers h,
    Forall (settled h) layers ->
    let r := append_layers n (new_layer c args) layers h in
    Forall (settled (snd r)) (fst r) /\ extends h (snd r).
Proof.
  induction n as [| n IH]; intros layers h HF; cbn zeta.
  - cbn [append_layers fst snd]. auto using extends_refl.
  - cbn [append_layers].
    destruct (new_layer_shaped c args h) as (Hw & Hb & He).
    destruct (new_layer c args h) as [layer h1]. cbn [fst snd] in Hw, Hb, He.
    destruct (IH (layers ++ [layer]) h1) as [H1 H2].
    + apply Forall_app. split.
      * eapply Forall_impl; [| exact HF]. intro l. apply settled_extends, He.
      * constructor; [split; assumption | constructor].
    + split; [exact H1 | exact (extends_trans _ _ _ He H2)].
Qed.

Lemma Linear_shaped (i o : nat) (h : heap) :
  let r := Linear init_entries i o h in
  extends h (snd r)
  /\ _parameters (fst r) = [("weight", next h); ("bias", S (next h))]
  /\ (shape (data (snd r) (next h)) = (o, i) /\ single (data (snd r) (next h)))
  /\ next (snd r) = next h + 2.
Proof.
  cbn zeta. unfold Linear, new_parameter, extends, update, single. cbn.
  repeat split; try lia.
  - intros q Hq.
    destruct (q =? S (next h)) eqn:E1; [apply Nat.eqb_eq in E1; lia |].
    destruct (q =? next h) eqn:E2; [apply Nat.eqb_eq in E2; lia | reflexivity].
  - destruct (next h =? S (next h)) eqn:E1; [apply Nat.eqb_eq in E1; lia |].
    now rewrite Nat.eqb_refl.
  - destruct (next h =? S (next h)) eqn:E1; [apply Nat.eqb_eq in E1; lia |].
    now rewrite Nat.eqb_refl.
Qed.

(** The weight of a read-out head under the values [v]: the shape
    (classes, width), in single precision. *)
Definition head_weight (v : param_id -> tensor) (wid : param_id)
           (width classes : nat) : Prop :=
  shape (v wid) = (classes, width) /\ single (v wid).

Lemma head_weight_same_shapes v v' wid width classes :
  same_shapes v v' -> head_weight v wid width classes -> head_weight v' wid width classes.
Proof.
  intros Hs [H1 H2]. destruct (Hs wid) as [Hshape Hdtype].
  unfold head_weight, single in *. rewrite Hshape, Hdtype. auto.
Qed.

(** What [HSN(channels, n_layers)] looks like after construction. *)
Lemma HSN_init_shaped (channels n_layers : nat) (h : heap) :
  exists layers linear wid,
    let r := HSN_init channels n_layers h in
    getattr_list (fst r) "layers" = Ok layers
    /\ getattr_module (fst r) "linear" = Ok linear
    /\ _modules (fst r) = [("linear", linear)]
    /\ lookup "weight" (_parameters linear) = Ok wid
    /\ (exists bid, lookup "bias" (_parameters linear) = Ok bid)
    /\ head_weight (data (snd r)) wid channels 1
    /\ length layers = n_layers
    /\ Forall (fun l => cls l = "HSNLayer" /\ cfg l = [channels]) layers
    /\ Forall (fun l => weights_ok l (data (snd r))) layers.
Proof.
  unfold HSN_init, HSNLayer.
  destruct (append_layers_shaped "HSNLayer" [channels] n_layers [] h (Forall_nil _))
    as [Hset He].
  pose proof (append_layers_spec "HSNLayer" [channels] n_layers [] h) as (_ & _ & Hlen).
  pose proof (Channels.append_layers_class "HSNLayer" [channels] n_layers [] h
                                           (Forall_nil _)) as Hclass.
  destruct (append_layers n_layers (new_layer "HSNLayer" [channels]) [] h) as [layers h1].
  cbn [fst snd length Nat.add] in *.
  destruct (Linear_shaped channels 1 h1) as (He2 & Hps & Hshape & _).
  destruct (Linear init_entries channels 1 h1) as [linear h2]. cbn [fst snd] in *.
  exists layers, linear, (next h1). cbn zeta. cbn [fst snd].
  repeat split; try assumption; try reflexivity; try apply Hshape.
  - rewrite Hps. reflexivity.
  - exists (S (next h1)). rewrite Hps. reflexivity.
  - eapply Forall_impl; [| exact Hset]. intros l Hl.
    apply (settled_extends h1 h2 l He2 Hl).
Qed.

(** The read-out head [self.name] is in place: a linear layer whose weight
    has, under [v], the shape (classes, width). *)
Definition head_ok (model : module) (name : string) (v : param_id -> tensor)
           (width classes : nat) : Prop :=
  exists linear wid bid,
    getattr_module model name = Ok linear
    /\ lookup "weight" (_parameters linear) = Ok wid
    /\ lookup "bias" (_parameters linear) = Ok bid
    /\ head_weight v wid width classes.

Lemma head_ok_same_shapes model name v v' width classes :
  same_shapes v v' -> head_ok model name v width classes ->
  head_ok model name v' width classes.
Proof.
  intros Hs (linear & wid & bid & H1 & H2 & H3 & H4).
  exists linear, wid, bid. eauto using head_weight_same_shapes.
Qed.

(** What [ConvCXN(...)] looks like after construction. *)
Lemma ConvCXN_init_shaped (in_ch_0 in_ch_1 in_ch_2 num_classes n_layers : nat) (h : heap) :
  let r := ConvCXN_init in_ch_0 in_ch_1 in_ch_2 num_classes n_layers h in
  exists layers,
    getattr_list (fst r) "layers" = Ok layers
    /\ length layers = n_layers
    /\ Forall (fun l => cls l = "ConvCXNLayer" /\ cfg l = [in_ch_0; in_ch_1; in_ch_2]) layers
    /\ Forall (fun l => weights_ok l (data (snd r))) layers
    /\ head_ok (fst r) "lin_0" (data (snd r)) in_ch_0 num_classes
    /\ head_ok (fst r) "lin_1" (data (snd r)) in_ch_1 num_classes
    /\ head_ok (fst r) "lin_2" (data (snd r)) in_ch_2 num_classes.
Proof.
  cbn zeta. unfold ConvCXN_init, ConvCXNLayer.
  destruct (append_layers_shaped "ConvCXNLayer" [in_ch_0; in_ch_1; in_ch_2] n_layers [] h
                                 (Forall_nil _)) as [Hset He].
  pose proof (append_layers_spec "ConvCXNLayer" [in_ch_0; in_ch_1; in_ch_2] n_layers [] h)
    as (_ & _ & Hlen).
  pose proof (Channels.append_layers_class "ConvCXNLayer" [in_ch_0; in_ch_1; in_ch_2]
                                           n_layers [] h (Forall_nil _)) as Hclass.
  destruct (append_layers n_layers (new_layer "ConvCXNLayer" [in_ch_0; in_ch_1; in_ch_2])
                          [] h) as [layers h1].
  cbn [fst snd length Nat.add] in *.
  destruct (Linear_shaped in_ch_0 num_classes h1) as (E0 & P0 & S0 & N0).
  destruct (Linear init_entries in_ch_0 num_classes h1) as [lin_0 h2]. cbn [fst snd] in *.
  destruct (Linear_shaped in_ch_1 num_classes h2) as (E1 & P1 & S1 & N1).
  destruct (Linear init_entries in_ch_1 num_classes h2) as [lin_1 h3]. cbn [fst snd] in *.
  destruct (Linear_shaped in_ch_2 num_classes h3) as (E2 & P2 & S2 & N2).
  destruct (Linear init_entries in_ch_2 num_classes h3) as [lin_2 h4]. cbn [fst snd] in *.
  exists layers. repeat split; try assumption; try reflexivity.
  - eapply Forall_impl; [| exact Hset]. intros l Hl.
    apply (settled_extends h1 h4 l); [| exact Hl].
    eauto using extends_trans.
  - exists lin_0, (next h1), (S (next h1)). rewrite P0.
    split; [reflexivity | split; [reflexivity | split; [reflexivity |]]].
    unfold head_weight. rewrite (proj2 E2) by lia.
    rewrite (proj2 E1) by lia. exact S0.
  - exists lin_1, (next h2), (S (next h2)). rewrite P1.
    split; [reflexivity | split; [reflexivity | split; [reflexivity |]]].
    unfold head_weight. rewrite (proj2 E2) by lia. exact S1.
  - exists lin_2, (next h3), (S (next h3)). rewrite P2.
    split; [reflexivity | split; [reflexivity | split; [reflexivity |]]].
    exact S2.
Qed.

(** A linear layer accepts a signal of its width and of the dtype of its
    weight. *)
Lemma Linear_forward_ok (linear : module) (v : param_id -> tensor) (wid bid : param_id)
      (width classes : nat) (x : tensor) :
  lookup "weight" (_parameters linear) = Ok wid ->
  lookup "bias" (_parameters linear) = Ok bid ->
  head_weight v wid width classes ->
  t_cols x = width -> single x ->
  exists y, Linear_forward linear v x = Ok y /\ shape y = (t_rows x, classes)
            /\ single y.
Proof.
  intros Hw Hb [Hs Hd] Hx Hsx. unfold Linear_forward. rewrite Hw, Hb. cbn [Py.bind].
  injection Hs as Hr Hc. unfold mm_check, single in *.
  rewrite Hsx, Hd, Hx, Hc, Nat.eqb_refl. cbn [dtype_eqb negb].
  eexists. split; [reflexivity |]. unfold shape. cbn. now rewrite Hr.
Qed.

(** What the notebooks rely on from the imported libraries. *)
Section Contracts.

(** A high-skip layer with intact weights maps a signal over the nodes to a
    signal of the same shape, given neighbourhoods that fit the nodes, all
    in single precision. *)
Hypothesis HSNLayer_contract :
  forall layer v x_0 incidence_1 adjacency_0 channels,
    cls layer = "HSNLayer" -> cfg layer = [channels] -> weights_ok layer v ->
    t_cols x_0 = channels ->
    t_rows incidence_1 = t_rows x_0 ->
    shape adjacency_0 = (t_rows x_0, t_rows x_0) ->
    single x_0 -> single incidence_1 -> single adjacency_0 ->
    exists y, HSNLayer_forward layer v x_0 incidence_1 adjacency_0 = Ok y
              /\ shape y = shape x_0 /\ single y.

(** The loss is defined on a prediction and a target of one shape, in
    single precision. *)
Hypothesis loss_contract :
  forall input target,
    shape input = shape target -> single input -> single target ->
    is_ok (binary_cross_entropy_with_logits input target) = true.

(** An update keeps the shape and the dtype of the parameter. *)
Hypothesis adam_contract :
  forall rate slot t g,
    shape (fst (adam_update rate slot t g)) = shape t
    /\ t_dtype (fst (adam_update rate slot t g)) = t_dtype t.

Lemma step_params_same_shapes (ps : list param_id) (rate : Q)
      (g : param_id -> option tensor) :
  forall vs, same_shapes (fst vs) (fst (step_params ps rate g vs)).
Proof.
  induction ps as [| p ps IH]; intros [v sl] q; [split; reflexivity |].
  cbn [step_params]. destruct (g p) as [gp |]; [| apply IH].
  pose proof (adam_contract rate (sl p) (v p) gp) as Ha.
  destruct (adam_update rate (sl p) (v p) gp) as [t slot]. cbn [fst] in Ha.
  destruct (IH (update v p t, fun q => if q =? p then slot else sl q) q) as [H1 H2].
  rewrite H1, H2. cbn [fst]. unfold update.
  destruct (q =? p) eqn:E; [| split; reflexivity].
  apply Nat.eqb_eq in E. subst q. exact Ha.
Qed.

Lemma step_same_shapes (s : session) : same_shapes (params s) (params (step s)).
Proof.
  unfold step.
  pose proof (step_params_same_shapes (param_group (opt s)) (lr (opt s)) (grads s)
                                      (params s, slots (opt s))) as H.
  destruct (step_params (param_group (opt s)) (lr (opt s)) (grads s)
                        (params s, slots (opt s))).
  exact H.
Qed.

Lemma HSN_layers_ok (layers : list module) (v : param_id -> tensor)
      (incidence_1 adjacency_0 : tensor) (channels : nat) :
  Forall (fun l => cls l = "HSNLayer" /\ cfg l = [channels]) layers ->
  Forall (fun l => weights_ok l v) layers ->
  single incidence_1 -> single adjacency_0 ->
  forall x_0,
    t_cols x_0 = channels ->
    t_rows incidence_1 = t_rows x_0 ->
    shape adjacency_0 = (t_rows x_0, t_rows x_0) ->
    single x_0 ->
    exists y, HSN_layers layers v x_0 incidence_1 adjacency_0 = Ok y
              /\ shape y = shape x_0 /\ single y.
Proof.
  intros Hc Hw Hsi Hsa.
  induction layers as [| layer layers IH]; intros x_0 Hx Hi Ha Hsx.
  - exists x_0. auto.
  - cbn [HSN_layers].
    destruct (Forall_inv Hc) as [Hcls Hcfg].
    destruct (HSNLayer_contract layer v x_0 incidence_1 adjacency_0 channels
                Hcls Hcfg (Forall_inv Hw) Hx Hi Ha Hsx Hsi Hsa) as (y & -> & Hy & Hsy).
    cbn [Py.bind]. injection Hy as Hr Hcol.
    destruct (IH (Forall_inv_tail Hc) (Forall_inv_tail Hw) y) as (z & Hz & Hs & Hsz);
      [congruence | congruence | rewrite Hr; exact Ha | exact Hsy |].
    exists z. split; [exact Hz |]. split; [| exact Hsz]. unfold shape in *. congruence.
Qed.

Section HSNRun.

Variables (model : module) (layers : list module) (linear : module).
Variables (wid bid : param_id) (channels : nat).
Variables (x_nodes incidence_1 adjacency_0 nodes_gt_labels : tensor).

Hypothesis model_layers : getattr_list model "layers" = Ok layers.
Hypothesis model_linear : getattr_module model "linear" = Ok linear.
Hypothesis linear_weight : lookup "weight" (_parameters linear) = Ok wid.
Hypothesis linear_bias : lookup "bias" (_parameters linear) = Ok bid.
Hypothesis layers_class :
  Forall (fun l => cls l = "HSNLayer" /\ cfg l = [channels]) layers.
Hypothesis signal_width : t_cols x_nodes = channels.
Hypothesis incidence_fits : t_rows incidence_1 = t_rows x_nodes.
Hypothesis adjacency_fits : shape adjacency_0 = (t_rows x_nodes, t_rows x_nodes).
Hypothesis labels_fit : shape nodes_gt_labels = (t_rows x_nodes, 1).
Hypothesis signal_single : single x_nodes.
Hypothesis incidence_single : single incidence_1.
Hypothesis adjacency_single : single adjacency_0.
Hypothesis labels_single : single nodes_gt_labels.

(** What training keeps true of the parameter values. *)
Definition intact (v : param_id -> tensor) : Prop :=
  Forall (fun l => weights_ok l v) layers /\ head_weight v wid channels 1.

Lemma intact_same_shapes (v v' : param_id -> tensor) :
  same_shapes v v' -> intact v -> intact v'.
Proof.
  intros Hs [H1 H2]. split.
  - eapply Forall_impl; [| exact H1]. intro l. apply weights_ok_same_shapes, Hs.
  - eapply head_weight_same_shapes; eassumption.
Qed.

Lemma HSN_forward_ok (v : param_id -> tensor) :
  intact v ->
  exists y, HSN_forward model v x_nodes incidence_1 adjacency_0 = Ok y
            /\ shape y = (t_rows x_nodes, 1) /\ single y.
Proof.
  intros [Hw Hs]. unfold HSN_forward. rewrite model_layers. cbn [Py.bind].
  destruct (HSN_layers_ok layers v incidence_1 adjacency_0 channels layers_class Hw
              incidence_single adjacency_single
              x_nodes signal_width incidence_fits adjacency_fits signal_single)
    as (y & -> & Hy & Hsy).
  cbn [Py.bind]. rewrite model_linear. cbn [Py.bind].
  injection Hy as Hr Hc.
  destruct (Linear_forward_ok linear v wid bid channels 1 y linear_weight linear_bias Hs)
    as (z & -> & Hz & Hsz); [congruence | exact Hsy |].
  exists z. rewrite Hz, Hr. auto.
Qed.

(** An epoch returns the output of the model under the parameter values it
    starts from, and takes one step of the optimizer. *)
Lemma HSN_epoch_ok (s : session) :
  intact (params s) ->
  exists pred s',
    HSN_epoch model x_nodes incidence_1 adjacency_0 nodes_gt_labels s = Ok (pred, s')
    /\ HSN_forward model (params s) x_nodes incidence_1 adjacency_0 = Ok pred
    /\ shape pred = (t_rows x_nodes, 1)
    /\ steps (opt s') = S (steps (opt s))
    /\ intact (params s').
Proof.
  intro Hi. unfold HSN_epoch, HSN_call.
  destruct (HSN_forward_ok (params (zero_grad s)) Hi) as (y & Hrun & Hy & Hsy).
  rewrite Hrun. cbn [Py.bind].
  pose proof (loss_contract y nodes_gt_labels) as Hl.
  rewrite Hy, labels_fit in Hl. specialize (Hl eq_refl Hsy labels_single).
  destruct (binary_cross_entropy_with_logits y nodes_gt_labels); [| discriminate].
  cbn [Py.bind]. do 2 eexists. split; [reflexivity |].
  split; [exact Hrun |]. split; [exact Hy |].
  split; [exact (proj1 (step_opt _)) |].
  eapply intact_same_shapes; [apply step_same_shapes | exact Hi].
Qed.

(** The predictions of a run: each one is the output of the model under
    the parameter values its epoch starts from, the first of them those
    the run starts from. *)
Definition predicted (s : session) (preds : list tensor) : Prop :=
  match preds with
  | [] => True
  | pred :: _ =>
      HSN_forward model (params s) x_nodes incidence_1 adjacency_0 = Ok pred
  end
  /\ Forall (fun pred =>
               exists v, intact v
                         /\ HSN_forward model v x_nodes incidence_1 adjacency_0 = Ok pred)
            preds.

Lemma HSN_train_ok (n : nat) :
  forall s,
    intact (params s) ->
    exists preds s',
      HSN_train model x_nodes incidence_1 adjacency_0 nodes_gt_labels n s = Ok (preds, s')
      /\ length preds = n
      /\ Forall (fun pred => shape pred = (t_rows x_nodes, 1)) preds
      /\ predicted s preds
      /\ steps (opt s') = steps (opt s) + n.
Proof.
  induction n as [| n IH]; intros s Hi.
  - exists [], s. repeat split; auto.
  - cbn [HSN_train].
    destruct (HSN_epoch_ok s Hi) as (pred & s1 & -> & Hf & Hp & Hst & Hi1).
    cbn [Py.bind].
    destruct (IH s1 Hi1) as (preds & s' & -> & Hlen & HF & [_ Hall] & Hsteps).
    cbn [Py.bind].
    exists (pred :: preds), s'.
    repeat split; [cbn; congruence | constructor; assumption | exact Hf | | lia].
    constructor; [exists (params s); auto | exact Hall].
Qed.

End HSNRun.

Lemma ConvCXN_readout_ok (l_0 l_1 l_2 : tensor) (classes : nat) :
  t_cols l_0 = classes -> t_cols l_1 = classes -> t_cols l_2 = classes ->
  exists y, ConvCXN_readout l_0 l_1 l_2 = Ok y /\ v_len y = classes.
Proof.
  intros H0 H1 H2. unfold ConvCXN_readout, add1. cbn [mean_dim0 v_len].
  rewrite H2, H1, Nat.eqb_refl. cbn [Py.bind v_len]. rewrite H0, Nat.eqb_refl.
  eexists. split; reflexivity.
Qed.

Section ConvCXNRun.

(** A layer of the convolutional network with intact weights keeps the
    shapes of the signals over nodes and edges and produces a signal over
    the faces, one row per row of the edge-to-face neighbourhood, all in
    single precision. *)
Hypothesis ConvCXNLayer_contract :
  forall layer v x_0 x_1 n00 n12 c0 c1 c2,
    cls layer = "ConvCXNLayer" -> cfg layer = [c0; c1; c2] -> weights_ok layer v ->
    t_cols x_0 = c0 -> t_cols x_1 = c1 ->
    shape n00 = (t_rows x_0, t_rows x_0) ->
    t_cols n12 = t_rows x_1 ->
    single x_0 -> single x_1 -> single n00 -> single n12 ->
    exists y_0 y_1 y_2,
      ConvCXNLayer_forward layer v x_0 x_1 n00 n12 = Ok (y_0, y_1, y_2)
      /\ shape y_0 = shape x_0 /\ shape y_1 = shape x_1
      /\ shape y_2 = (t_rows n12, c2)
      /\ single y_0 /\ single y_1 /\ single y_2.

(** The loss is defined on a vector of logits and a class among them. *)
Hypothesis cross_entropy_contract :
  forall input target,
    target < v_len input -> is_ok (cross_entropy input target) = true.

Variables (model : module) (layers : list module) (c0 c1 c2 classes : nat).

Hypothesis model_layers : getattr_list model "layers" = Ok layers.
Hypothesis layers_nonempty : layers <> [].
Hypothesis layers_class :
  Forall (fun l => cls l = "ConvCXNLayer" /\ cfg l = [c0; c1; c2]) layers.

Definition intact3 (v : param_id -> tensor) : Prop :=
  Forall (fun l => weights_ok l v) layers
  /\ head_ok model "lin_0" v c0 classes
  /\ head_ok model "lin_1" v c1 classes
  /\ head_ok model "lin_2" v c2 classes.

Lemma intact3_same_shapes (v v' : param_id -> tensor) :
  same_shapes v v' -> intact3 v -> intact3 v'.
Proof.
  intros Hs (H & H0 & H1 & H2). repeat split.
  - eapply Forall_impl; [| exact H]. intro l. apply weights_ok_same_shapes, Hs.
  - apply (head_ok_same_shapes _ _ v); assumption.
  - apply (head_ok_same_shapes _ _ v); assumption.
  - apply (head_ok_same_shapes _ _ v); assumption.
Qed.

(** The shapes of the signals and the neighbourhoods of a call fit each
    other and the model. *)
Definition shapes_fit (x_0 x_1 n00 n12 : tensor) : Prop :=
  t_cols x_0 = c0 /\ t_cols x_1 = c1
  /\ shape n00 = (t_rows x_0, t_rows x_0)
  /\ t_cols n12 = t_rows x_1.

(** They fit, and all of them are in single precision. *)
Definition fits (x_0 x_1 n00 n12 : tensor) : Prop :=
  shapes_fit x_0 x_1 n00 n12
  /\ single x_0 /\ single x_1 /\ single n00 /\ single n12.

(** The casts of the training loop make any dtype fit. *)
Lemma fits_float (x_0 x_1 n00 n12 : tensor) :
  shapes_fit x_0 x_1 n00 n12 -> fits (float x_0) (float x_1) (float n00) (float n12).
Proof. intro H. repeat split; apply H. Qed.

Lemma ConvCXN_layers_ok (v : param_id -> tensor) (n00 n12 : tensor) (ls : list module) :
  Forall (fun l => cls l = "ConvCXNLayer" /\ cfg l = [c0; c1; c2]) ls ->
  Forall (fun l => weights_ok l v) ls ->
  forall x_0 x_1 x_2,
    fits x_0 x_1 n00 n12 ->
    exists y_0 y_1 y_2,
      ConvCXN_layers ls v x_0 x_1 x_2 n00 n12 = Ok (y_0, y_1, y_2)
      /\ (t_cols y_0 = c0 /\ single y_0) /\ (t_cols y_1 = c1 /\ single y_1)
      /\ ((ls <> [] \/ exists t, x_2 = Some t /\ t_cols t = c2 /\ single t) ->
          exists t, y_2 = Some t /\ t_cols t = c2 /\ single t).
Proof.
  intros Hc Hw. induction ls as [| layer ls IH]; intros x_0 x_1 x_2 Hf.
  - exists x_0, x_1, x_2. destruct Hf as ((H0 & H1 & _) & S0 & S1 & _).
    repeat split; try assumption. intros [H | H]; [congruence | exact H].
  - cbn [ConvCXN_layers]. destruct Hf as ((H0 & H1 & Hn & Hm) & D0 & D1 & Dn & Dm).
    destruct (Forall_inv Hc) as [Hcls Hcfg].
    destruct (ConvCXNLayer_contract layer v x_0 x_1 n00 n12 c0 c1 c2 Hcls Hcfg
                (Forall_inv Hw) H0 H1 Hn Hm D0 D1 Dn Dm)
      as (z_0 & z_1 & z_2 & -> & S0 & S1 & S2 & E0 & E1 & E2).
    cbn [Py.bind]. injection S0 as R0 C0. injection S1 as R1 C1. injection S2 as R2 C2.
    destruct (IH (Forall_inv_tail Hc) (Forall_inv_tail Hw) z_0 z_1 (Some z_2))
      as (y_0 & y_1 & y_2 & Hrun & Hy0 & Hy1 & Hy2).
    + unfold fits, shapes_fit. rewrite R0, R1. repeat split; congruence.
    + exists y_0, y_1, y_2. repeat split; try apply Hy0; try apply Hy1; try assumption.
      intros _. apply Hy2. right. eauto.
Qed.

Lemma ConvCXN_forward_ok (v : param_id -> tensor) (x_0 x_1 n00 n12 : tensor) :
  intact3 v -> fits x_0 x_1 n00 n12 ->
  exists y, ConvCXN_forward model v x_0 x_1 n00 n12 = Ok y /\ v_len y = classes.
Proof.
  intros (Hw & Hh0 & Hh1 & Hh2) Hf. unfold ConvCXN_forward.
  rewrite model_layers. cbn [Py.bind].
  destruct (ConvCXN_layers_ok v n00 n12 layers layers_class Hw x_0 x_1 None Hf)
    as (y_0 & y_1 & y_2 & -> & [Hy0 Hd0] & [Hy1 Hd1] & Hy2).
  destruct Hy2 as (t & -> & Ht & Hdt); [left; exact layers_nonempty |].
  cbn [Py.bind].
  destruct Hh0 as (lin_0 & w0 & b0 & -> & Hw0 & Hb0 & Hs0).
  destruct Hh1 as (lin_1 & w1 & b1 & -> & Hw1 & Hb1 & Hs1).
  destruct Hh2 as (lin_2 & w2 & b2 & -> & Hw2 & Hb2 & Hs2).
  cbn [Py.bind].
  destruct (Linear_forward_ok lin_0 v w0 b0 c0 classes y_0 Hw0 Hb0 Hs0 Hy0 Hd0)
    as (l_0 & -> & Hl0 & _).
  cbn [Py.bind].
  destruct (Linear_forward_ok lin_1 v w1 b1 c1 classes y_1 Hw1 Hb1 Hs1 Hy1 Hd1)
    as (l_1 & -> & Hl1 & _).
  cbn [Py.bind read_local].
  destruct (Linear_forward_ok lin_2 v w2 b2 c2 classes t Hw2 Hb2 Hs2 Ht Hdt)
    as (l_2 & -> & Hl2 & _).
  cbn [Py.bind].
  injection Hl0 as _ Hl0. injection Hl1 as _ Hl1. injection Hl2 as _ Hl2.
  apply ConvCXN_readout_ok; assumption.
Qed.

Variables (adjacency_0 incidence_2_t : tensor).

(** A labelled sample of the training set fits the model and the
    neighbourhoods: the loop casts its signals. *)
Definition sample_fits (x : sample) : Prop :=
  let '(x_0, x_1, y) := x in
  shapes_fit x_0 x_1 adjacency_0 incidence_2_t /\ y < classes.

(** A held-out sample reaches the model as it is: it has to be in single
    precision already, as have the neighbourhoods. *)
Definition sample_ready (x : sample) : Prop :=
  let '(x_0, x_1, y) := x in
  fits x_0 x_1 adjacency_0 incidence_2_t /\ y < classes.

Lemma py_div_ok (a b : nat) : b <> 0 -> exists q, py_div a b = Ok q.
Proof. destruct b; [congruence | cbn; eauto]. Qed.

Lemma train_sample_ok (c : counters) (s : session) (x : sample) :
  intact3 (params s) -> sample_fits x ->
  exists c' s',
    train_sample model adjacency_0 incidence_2_t c s x = Ok (c', s')
    /\ intact3 (params s').
Proof.
  intros Hi Hx. destruct x as [[x_0 x_1] y]. destruct Hx as [Hf Hy].
  unfold train_sample, ConvCXN_call.
  destruct (ConvCXN_forward_ok (params (zero_grad s)) (float x_0) (float x_1)
              (float adjacency_0) (float incidence_2_t) Hi (fits_float _ _ _ _ Hf))
    as (y_hat & -> & Hlen).
  cbn [Py.bind].
  pose proof (cross_entropy_contract y_hat y) as Hl. rewrite Hlen in Hl.
  specialize (Hl Hy). destruct (cross_entropy y_hat y); [| discriminate].
  cbn [Py.bind]. do 2 eexists. split; [reflexivity |].
  eapply intact3_same_shapes; [apply step_same_shapes | exact Hi].
Qed.

Lemma train_samples_ok (xs : list sample) :
  Forall sample_fits xs ->
  forall c s,
    intact3 (params s) ->
    exists c' s',
      train_samples model adjacency_0 incidence_2_t xs c s = Ok (c', s')
      /\ intact3 (params s').
Proof.
  induction 1 as [| x xs Hx _ IH]; intros c s Hi.
  - exists c, s. auto.
  - cbn [train_samples].
    destruct (train_sample_ok c s x Hi Hx) as (cnt & s1 & -> & Hi1). cbn [Py.bind].
    apply IH, Hi1.
Qed.

Lemma test_samples_ok (xs : list sample) :
  Forall sample_ready xs ->
  forall c s,
    intact3 (params s) ->
    exists c', test_samples model adjacency_0 incidence_2_t xs c s = Ok (c', s).
Proof.
  induction 1 as [| x xs Hx _ IH]; intros c s Hi.
  - exists c. reflexivity.
  - cbn [test_samples]. destruct x as [[x_0 x_1] y], c as [n k]. destruct Hx as [Hf _].
    unfold test_sample, ConvCXN_call.
    destruct (ConvCXN_forward_ok (params s) x_0 x_1 adjacency_0 incidence_2_t Hi Hf)
      as (y_hat & -> & _).
    cbn [Py.bind]. apply IH, Hi.
Qed.

Variables (x_0_train x_1_train : list tensor) (labels_train : list nat).
Variables (x_0_test x_1_test : list tensor) (labels_test : list nat).

Hypothesis train_fits : Forall sample_fits (zip3 x_0_train x_1_train labels_train).
Hypothesis test_fits : Forall sample_ready (zip3 x_0_test x_1_test labels_test).
Hypothesis train_nonempty : zip3 x_0_train x_1_train labels_train <> [].
Hypothesis test_nonempty : zip3 x_0_test x_1_test labels_test <> [].

Lemma ConvCXN_epoch_ok (epoch_i : nat) (s : session) :
  intact3 (params s) ->
  exists s',
    ConvCXN_epoch model adjacency_0 incidence_2_t
                  x_0_train x_1_train labels_train x_0_test x_1_test labels_test
                  epoch_i s = Ok s'
    /\ intact3 (params s').
Proof.
  intro Hi. unfold ConvCXN_epoch, train_phase.
  destruct (train_samples_ok _ train_fits (mkCounters [] 0 0) s Hi)
    as (c & s1 & Hrun & Hi1).
  rewrite Hrun. cbn [Py.bind].
  apply train_samples_counts in Hrun. destruct Hrun as (Hn & _).
  destruct (py_div_ok (correct c) (num_samples c)) as (acc & ->).
  { rewrite Hn. cbn [num_samples Nat.add].
    destruct (zip3 x_0_train x_1_train labels_train); [congruence | discriminate]. }
  cbn [Py.bind].
  destruct (epoch_i mod test_interval =? 0); [| eauto].
  unfold test_phase.
  destruct (test_samples_ok _ test_fits (0, 0)
              (print (EpochLine epoch_i (qmean (epoch_loss c)) acc) s1) Hi1)
    as ([n k] & Htest).
  rewrite Htest. cbn [Py.bind].
  apply test_samples_frame in Htest. destruct Htest as [_ Hk]. cbn [fst Nat.add] in Hk.
  destruct (py_div_ok k n) as (tacc & ->).
  { rewrite Hk. destruct (zip3 x_0_test x_1_test labels_test); [congruence | discriminate]. }
  cbn [Py.bind]. eexists. split; [reflexivity | exact Hi1].
Qed.

Lemma ConvCXN_epochs_ok (range : list nat) :
  forall s,
    intact3 (params s) ->
    exists s',
      ConvCXN_epochs model adjacency_0 incidence_2_t
                     x_0_train x_1_train labels_train x_0_test x_1_test labels_test
                     range s = Ok s'.
Proof.
  induction range as [| epoch_i range IH]; intros s Hi.
  - exists s. reflexivity.
  - cbn [ConvCXN_epochs].
    destruct (ConvCXN_epoch_ok epoch_i s Hi) as (s1 & -> & Hi1). cbn [Py.bind].
    apply IH, Hi1.
Qed.

End ConvCXNRun.

End Contracts.

End WithLibraries.

End Shapes.

(** ** The read-out of ConvCXN *)

Module Readout.

(** The aggregation as the specification words it: per rank, the mean of
    every column of the logits; then the sum of the three means, entry by
    entry.  The mean of no numbers is not a number. *)
Definition column (x : tensor) (j : nat) : list Q :=
  map (fun row => nth j row 0%Q) (to_lists x).

Definition list_mean (l : list Q) : option Q :=
  match l with
  | [] => None
  | _ :: _ => Some (fold_right Qplus 0 l / inject_Z (Z.of_nat (length l)))%Q
  end.

Definition sum_of_means (x_0 x_1 x_2 : tensor) (j : nat) : option Q :=
  plus (plus (list_mean (column x_0 j)) (list_mean (column x_1 j)))
       (list_mean (column x_2 j)).

(** Two entries are the same: both nan, or equal numbers. *)
Definition same_entry (a b : option Q) : Prop :=
  match a, b with
  | Some x, Some y => (x == y)%Q
  | None, None => True
  | _, _ => False
  end.

Lemma column_entries (x : tensor) (j : nat) :
  j < t_cols x ->
  column x j = map (fun i => t_at x i j) (seq 0 (t_rows x)).
Proof.
  intro Hj. unfold column, to_lists. rewrite map_map. apply map_ext. intro i.
  rewrite (nth_indep _ 0%Q (t_at x i 0)) by (now rewrite length_map, length_seq).
  rewrite (map_nth (fun j => t_at x i j) (seq 0 (t_cols x)) 0 j).
  now rewrite seq_nth.
Qed.

Lemma fold_right_Qplus_acc (l : list Q) (a : Q) :
  (fold_right Qplus a l == fold_right Qplus 0 l + a)%Q.
Proof.
  induction l as [| x l IH]; simpl.
  - ring.
  - rewrite IH. ring.
Qed.

Lemma qsum_fold_right (n : nat) (f : nat -> Q) :
  (qsum n f == fold_right Qplus 0 (map f (seq 0 n)))%Q.
Proof.
  induction n as [| n IH].
  - reflexivity.
  - rewrite seq_S, map_app, fold_right_app. cbn [qsum map fold_right Nat.add].
    rewrite fold_right_Qplus_acc, IH. ring.
Qed.

Lemma mean_dim0_spec (x : tensor) (j : nat) :
  j < t_cols x ->
  same_entry (v_at (mean_dim0 x) j) (list_mean (column x j)).
Proof.
  intro Hj. rewrite (column_entries x j Hj). unfold mean_dim0. cbn [v_at].
  destruct (t_rows x) as [| n]; [exact I |].
  change (list_mean (map (fun i => t_at x i j) (seq 0 (S n))))
    with (Some (fold_right Qplus 0 (map (fun i => t_at x i j) (seq 0 (S n)))
                / inject_Z (Z.of_nat (length (map (fun i => t_at x i j)
                                                  (seq 0 (S n))))))%Q).
  cbn [same_entry]. rewrite length_map, length_seq. now rewrite qsum_fold_right.
Qed.

Lemma plus_same (a a' b b' : option Q) :
  same_entry a a' -> same_entry b b' -> same_entry (plus a b) (plus a' b').
Proof.
  destruct a, a', b, b'; cbn; try tauto. intros -> ->. reflexivity.
Qed.

Lemma plus_reorder (a b c : option Q) :
  same_entry (plus (plus c b) a) (plus (plus a b) c).
Proof. destruct a, b, c; cbn; try exact I. ring. Qed.

Lemma same_entry_trans (a b c : option Q) :
  same_entry a b -> same_entry b c -> same_entry a c.
Proof.
  destruct a, b, c; cbn; try tauto. intros -> ->. reflexivity.
Qed.

(** On logits of shapes (n0,2), (n1,2) and (n2,2) the returned expression
    is defined, has shape (2,) and is, entry by entry, the sum of the three
    column means. *)
Lemma readout_is_sum (x_0 x_1 x_2 : tensor) (n0 n1 n2 : nat) :
  shape x_0 = (n0, 2) -> shape x_1 = (n1, 2) -> shape x_2 = (n2, 2) ->
  exists y,
    ConvCXN_readout x_0 x_1 x_2 = Ok y
    /\ shape1 y = 2
    /\ forall j, j < 2 -> same_entry (v_at y j) (sum_of_means x_0 x_1 x_2 j).
Proof.
  intros H0 H1 H2. injection H0 as _ C0. injection H1 as _ C1. injection H2 as _ C2.
  unfold ConvCXN_readout, add1. cbn [mean_dim0 v_len].
  rewrite C2, C1. cbn [Nat.eqb Py.bind v_len]. rewrite C0. cbn [Nat.eqb].
  eexists. split; [reflexivity |]. split; [reflexivity |].
  intros j Hj. cbn [v_at]. unfold sum_of_means.
  eapply same_entry_trans; [apply plus_reorder |].
  apply plus_same; [apply plus_same |].
  - apply (mean_dim0_spec x_0 j). lia.
  - apply (mean_dim0_spec x_1 j). lia.
  - apply (mean_dim0_spec x_2 j). lia.
Qed.

Section WithLibraries.

Context {L : Libraries}.

(** The final logits of a call, by rank: what the three heads return on
    the signals the layers leave. *)
Definition final_logits (self : module) (v : param_id -> tensor)
           (x_0 x_1 neighborhood_0_to_0 neighborhood_1_to_2 : tensor)
           (logits : tensor * tensor * tensor) : Prop :=
  let '(l_0, l_1, l_2) := logits in
  exists layers z_0 z_1 z_2 lin_0 lin_1 lin_2,
    getattr_list self "layers" = Ok layers
    /\ ConvCXN_layers layers v x_0 x_1 None neighborhood_0_to_0 neighborhood_1_to_2
       = Ok (z_0, z_1, Some z_2)
    /\ getattr_module self "lin_0" = Ok lin_0 /\ Linear_forward lin_0 v z_0 = Ok l_0
    /\ getattr_module self "lin_1" = Ok lin_1 /\ Linear_forward lin_1 v z_1 = Ok l_1
    /\ getattr_module self "lin_2" = Ok lin_2 /\ Linear_forward lin_2 v z_2 = Ok l_2.

(** C5.  Whenever the final logits of a call have the shapes (n0,2),
    (n1,2) and (n2,2), [forward] returns; what it returns has shape (2,)
    and is, entry by entry, the sum of the three column means of those
    logits (at a rank with no cell the mean, and with it the sum, is
    nan). *)
Theorem forward_is_sum_of_means (self : module) (v : param_id -> tensor)
        (x_0 x_1 neighborhood_0_to_0 neighborhood_1_to_2 : tensor)
        (l_0 l_1 l_2 : tensor) (n0 n1 n2 : nat) :
  final_logits self v x_0 x_1 neighborhood_0_to_0 neighborhood_1_to_2 (l_0, l_1, l_2) ->
  shape l_0 = (n0, 2) -> shape l_1 = (n1, 2) -> shape l_2 = (n2, 2) ->
  exists y,
    ConvCXN_forward self v x_0 x_1 neighborhood_0_to_0 neighborhood_1_to_2 = Ok y
    /\ shape1 y = 2
    /\ forall j, j < 2 -> same_entry (v_at y j) (sum_of_means l_0 l_1 l_2 j).
Proof.
  intros (layers & z_0 & z_1 & z_2 & lin_0 & lin_1 & lin_2
          & Hl & Hrun & Hm0 & Hf0 & Hm1 & Hf1 & Hm2 & Hf2) H0 H1 H2.
  unfold ConvCXN_forward.
  rewrite Hl. cbn [Py.bind]. rewrite Hrun. cbn [Py.bind].
  rewrite Hm0. cbn [Py.bind]. rewrite Hf0. cbn [Py.bind].
  rewrite Hm1. cbn [Py.bind]. rewrite Hf1. cbn [Py.bind].
  rewrite Hm2. cbn [Py.bind read_local]. rewrite Hf2. cbn [Py.bind].
  exact (readout_is_sum l_0 l_1 l_2 n0 n1 n2 H0 H1 H2).
Qed.

(** What [forward] returns is the read-out of the logits of its three
    heads. *)
Lemma ConvCXN_forward_readout (self : module) (v : param_id -> tensor)
      (x_0 x_1 n00 n12 : tensor) (y : tensor1) :
  ConvCXN_forward self v x_0 x_1 n00 n12 = Ok y ->
  exists l_0 l_1 l_2, ConvCXN_readout l_0 l_1 l_2 = Ok y.
Proof.
  intro H. unfold ConvCXN_forward in H. Loops.inv_bind H. eauto.
Qed.

End WithLibraries.

End Readout.

(** ** The local [x_2] of [ConvCXN.forward] *)

Module Locals.

Import Registry.

Definition shape_mismatch : Py.exn :=
  RuntimeError "mat1 and mat2 shapes cannot be multiplied".

Section WithLibraries.

Context {L : Libraries}.

(** Once the loop has run through a layer, [x_2] is bound. *)
Lemma ConvCXN_layers_bind (layers : list module) (v : param_id -> tensor)
      (n00 n12 : tensor) :
  forall x_0 x_1 x_2 y_0 y_1 y_2,
    ConvCXN_layers layers v x_0 x_1 x_2 n00 n12 = Ok (y_0, y_1, y_2) ->
    (layers <> [] \/ x_2 <> None) -> y_2 <> None.
Proof.
  induction layers as [| layer layers IH]; intros x_0 x_1 x_2 y_0 y_1 y_2 H Hb.
  - injection H as _ _ <-. destruct Hb as [Hb | Hb]; [congruence | exact Hb].
  - cbn [ConvCXN_layers] in H. apply Loops.bind_Ok in H.
    destruct H as ([[z_0 z_1] z_2] & _ & H).
    apply (IH _ _ _ _ _ _ H). right. discriminate.
Qed.

(** C10, as the code has it.  A model without layers can always be
    constructed, and its [forward] always fails: the read-outs of [x_0]
    and [x_1] run first and fail on a signal of the wrong dtype or width;
    when both accept their input, reading [x_2] fails since nothing has
    assigned it.  With one layer or more, a loop that runs to its end
    leaves [x_2] assigned. *)
Theorem x_2_is_bound_by_the_first_layer
        (in_ch_0 in_ch_1 in_ch_2 num_classes n_layers : nat) (h : heap) :
  ConvCXN_new in_ch_0 in_ch_1 in_ch_2 num_classes 0 h
  = Ok (ConvCXN_init in_ch_0 in_ch_1 in_ch_2 num_classes 0 h)
  /\ (forall v x_0 x_1 n00 n12,
      ConvCXN_forward (fst (ConvCXN_init in_ch_0 in_ch_1 in_ch_2 num_classes 0 h))
                      v x_0 x_1 n00 n12
      = match mm_check x_0 (v (next h)) with
        | Some e => Raise e
        | None =>
            match mm_check x_1 (v (next h + 2)) with
            | Some e => Raise e
            | None => Raise (UnboundLocalError "x_2")
            end
        end)
  /\ (1 <= n_layers ->
      exists layers,
        getattr_list (fst (ConvCXN_init in_ch_0 in_ch_1 in_ch_2 num_classes n_layers h))
                     "layers" = Ok layers
        /\ forall v x_0 x_1 n00 n12,
            is_ok (ConvCXN_layers layers v x_0 x_1 None n00 n12) = true ->
            exists y_0 y_1 y_2,
              ConvCXN_layers layers v x_0 x_1 None n00 n12 = Ok (y_0, y_1, Some y_2)).
Proof.
  split; [exact (Channels.ConvCXN_new_spec in_ch_0 in_ch_1 in_ch_2 num_classes 0 h) |].
  split.
  - intros v x_0 x_1 n00 n12.
    unfold ConvCXN_init, ConvCXN_forward, ConvCXNLayer, Linear, new_parameter, Linear_forward.
    cbn. replace (next h + 2) with (S (S (next h))) by lia.
    destruct (mm_check x_0 (v (next h))); [reflexivity |].
    destruct (mm_check x_1 (v (S (S (next h))))); reflexivity.
  - intro Hn. unfold ConvCXN_init, ConvCXNLayer.
    pose proof (append_layers_spec "ConvCXNLayer" [in_ch_0; in_ch_1; in_ch_2]
                                   n_layers [] h) as (_ & _ & Hlen).
    destruct (append_layers n_layers (new_layer "ConvCXNLayer" [in_ch_0; in_ch_1; in_ch_2])
                            [] h) as [layers h1].
    destruct (Linear init_entries in_ch_0 num_classes h1) as [lin_0 h2].
    destruct (Linear init_entries in_ch_1 num_classes h2) as [lin_1 h3].
    destruct (Linear init_entries in_ch_2 num_classes h3) as [lin_2 h4].
    cbn [fst snd length Nat.add] in *. exists layers. split; [reflexivity |].
    intros v x_0 x_1 n00 n12 Hok. apply Loops.is_ok_Ok in Hok.
    destruct Hok as [[[y_0 y_1] y_2] Hrun].
    pose proof (ConvCXN_layers_bind _ _ _ _ _ _ _ _ _ _ Hrun) as Hb.
    destruct y_2 as [y_2 |].
    + eauto.
    + exfalso. apply Hb; [| reflexivity]. left. intro. subst layers.
      cbn in Hlen. lia.
Qed.

End WithLibraries.

End Locals.

(** ** The two end-to-end scenarios *)

Module Scenarios.

Import Domain Notebooks Loops Shapes.

(** The cells the HSN notebook lists for its domain. *)
Example hsn_simplices_printed :
  SC.simplices hsn_domain = [[1]; [2]; [3]; [1; 2]; [1; 3]]%Z.
Proof. reflexivity. Qed.

(** The matrices the HSN notebook prints. *)
Example hsn_incidence_1_printed :
  exists t, hsn_incidence_1 = Ok t
            /\ shape t = (3, 2)
            /\ to_lists t = [[-1; -1]; [1; 0]; [0; 1]]%Q.
Proof. eexists. split; [reflexivity |]. split; reflexivity. Qed.

Example hsn_adjacency_0_printed :
  exists t, hsn_adjacency_0 = Ok t
            /\ shape t = (3, 3)
            /\ to_lists t = [[0; 1; 1]; [1; 0; 0]; [1; 0; 0]]%Q.
Proof. eexists. split; [reflexivity |]. split; reflexivity. Qed.

(** The matrix the template notebook prints. *)
Example incidence_2_printed :
  exists t, incidence_2_torch = Ok t
            /\ to_lists t
               = [[0; 0]; [0; 0]; [1; 0]; [-1; 1]; [0; -1]; [1; 0]; [0; 1]]%Q.
Proof. eexists. split; reflexivity. Qed.

(** What the ConvCXN notebook prints about its complex: 6 nodes, 8 edges
    and 1 2-cell. *)
Example complex_printed :
  (length (CC.nodes complex), length (CC.edges complex), length (CC.cells complex))
  = (6, 8, 1).
Proof. reflexivity. Qed.

(** C3, as stated, fails: the 2-cell brings two edges of its boundary
    that are not among the six listed ones, so the complex does not have 6
    edges and the transposed incidence matrix is not of shape (1,6). *)
Lemma convcxn_complex_has_not_6_edges :
  ~ (length (CC.edges complex) = 6
     /\ exists t, incidence_2_t = Ok t /\ shape t = (1, 6)).
Proof. intros [H _]. vm_compute in H. discriminate. Qed.

(** The conversion the notebooks apply to a matrix of the domain:
    [torch.from_numpy(M.todense()).to_sparse()]. *)
Definition adapt (M : tensor) : tensor := to_sparse (from_numpy (todense M)).

Lemma SC_incidence_matrix_spec (c : SC.t) (d rank : nat) :
  SC.dim c = Some d -> 1 <= rank <= d ->
  exists M, SC.incidence_matrix c rank = Ok M
            /\ shape M = (length (SC.skeleton c (rank - 1)), length (SC.skeleton c rank))
            /\ t_dtype M = Float32.
Proof.
  intros Hd [H1 H2]. unfold SC.incidence_matrix. rewrite Hd.
  destruct (d <? rank) eqn:E; [apply Nat.ltb_lt in E; lia |].
  destruct rank as [| r]; [lia |].
  replace (S r - 1) with r by lia.
  eexists. split; [reflexivity |]. split; reflexivity.
Qed.

Lemma SC_adjacency_matrix_spec (c : SC.t) (d rank : nat) :
  SC.dim c = Some d -> rank < d ->
  exists A, SC.adjacency_matrix c rank = Ok A
            /\ shape A = (length (SC.skeleton c rank), length (SC.skeleton c rank))
            /\ t_dtype A = Float32.
Proof.
  intros Hd Hr. unfold SC.adjacency_matrix.
  destruct (SC_incidence_matrix_spec c d (S rank) Hd) as (B & -> & HB & HdB); [lia |].
  cbn [Py.bind]. eexists. split; [reflexivity |].
  injection HB as Hrows _. rewrite Nat.sub_0_r in Hrows.
  unfold shape. cbn [t_rows t_cols t_dtype]. rewrite Hrows. split; [reflexivity | exact HdB].
Qed.

(** C6.  For a rank between 1 and the dimension of a simplicial complex,
    the adapter turns the incidence matrix of that rank into a tensor of
    shape (cells of the rank below, cells of the rank), its transpose
    into one of the transposed shape, and the adjacency matrix of the rank
    below into a square tensor over the cells of that rank; on a cell
    complex, the transposed incidence matrix of rank 2 into a tensor of
    shape (faces, edges) and the adjacency matrix of rank 0 into one of
    shape (nodes, nodes).  All of them are floating point, of the dtype of
    the signals the notebooks build: the matrices of a simplicial complex
    come in single precision, those of a cell complex are cast to it.
    The tensors of the three notebooks are instances. *)
Theorem adapter_shapes_and_dtypes
        (c : SC.t) (d rank : nat) (cc : CC.t) (signal : list (list Q)) :
  SC.dim c = Some d -> 1 <= rank <= d ->
  (exists M,
      SC.incidence_matrix c rank = Ok M
      /\ shape (adapt M)
         = (length (SC.skeleton c (rank - 1)), length (SC.skeleton c rank))
      /\ shape (adapt (T M))
         = (length (SC.skeleton c rank), length (SC.skeleton c (rank - 1)))
      /\ is_floating (t_dtype (adapt M)) = true
      /\ t_dtype (adapt M) = t_dtype (torch_tensor signal)
      /\ t_dtype (adapt (T M)) = t_dtype (torch_tensor signal))
  /\ (exists A,
        SC.adjacency_matrix c (rank - 1) = Ok A
        /\ shape (adapt A)
           = (length (SC.skeleton c (rank - 1)), length (SC.skeleton c (rank - 1)))
        /\ is_floating (t_dtype (adapt A)) = true
        /\ t_dtype (adapt A) = t_dtype (torch_tensor signal))
  /\ (exists M,
        CC.incidence_matrix cc 2 = Ok M
        /\ shape (float (adapt (T M))) = (length (CC.cells cc), length (CC.edges cc))
        /\ is_floating (t_dtype (float (adapt (T M)))) = true
        /\ forall (L : Libraries) (rows cols k : nat),
             t_dtype (float (adapt (T M))) = t_dtype (rand_tensor rows cols k))
  /\ (exists A,
        CC.adjacency_matrix cc 0 = Ok A
        /\ shape (float (adapt A)) = (length (CC.nodes cc), length (CC.nodes cc))
        /\ is_floating (t_dtype (float (adapt A))) = true
        /\ forall (L : Libraries) (rows cols k : nat),
             t_dtype (float (adapt A)) = t_dtype (rand_tensor rows cols k))
  /\ (exists t, hsn_incidence_1 = Ok t /\ shape t = (3, 2)
                /\ t_dtype t = t_dtype x_nodes)
  /\ (exists t, hsn_adjacency_0 = Ok t /\ shape t = (3, 3)
                /\ t_dtype t = t_dtype x_nodes)
  /\ (exists t, incidence_2_torch = Ok t /\ shape t = (7, 2)
                /\ t_dtype t = t_dtype template_x_2)
  /\ (exists t, incidence_2_t = Ok t /\ shape t = (1, 8)
                /\ forall (L : Libraries) (rows cols k : nat),
                     t_dtype t = t_dtype (rand_tensor rows cols k))
  /\ (exists t, convcxn_adjacency_0 = Ok t /\ shape t = (6, 6)
                /\ forall (L : Libraries) (rows cols k : nat),
                     t_dtype t = t_dtype (rand_tensor rows cols k)).
Proof.
  intros Hd Hr.
  destruct (SC_incidence_matrix_spec c d rank Hd Hr) as (M & HM & HsM & HdM).
  destruct (SC_adjacency_matrix_spec c d (rank - 1) Hd) as (A & HA & HsA & HdA); [lia |].
  split.
  { exists M. unfold adapt, to_sparse, from_numpy, todense.
    injection HsM as Hrows Hcols.
    unfold shape, T. cbn [t_rows t_cols t_dtype]. rewrite Hrows, Hcols, HdM.
    repeat split; solve [assumption | reflexivity]. }
  split.
  { exists A. unfold adapt, to_sparse, from_numpy, todense. rewrite HsA, HdA.
    repeat split; solve [assumption | reflexivity]. }
  repeat split; eexists; (split; [reflexivity |]); repeat split; reflexivity.
Qed.

Section WithLibraries.

Context {L : Libraries}.

(** C4.  The domain of the HSN notebook has 3 nodes and 2 edges, its
    incidence matrix of rank 1 has shape (3,2) and its adjacency matrix of
    rank 0 has shape (3,3).  With a layer that accepts the width 2 and,
    like the loss and the optimizer, keeps its contract, the model of two
    layers is constructed and the five epochs of training all complete:
    the optimizer takes five steps, and every epoch produces a prediction
    of shape (3,1) that is the output of the model on the node signal,
    the first one under the initial parameter values. *)
Theorem hsn_scenario :
  layer_rejects "HSNLayer" [2] = None ->
  (forall layer v x_0 incidence_1 adjacency_0 channels,
      cls layer = "HSNLayer" -> cfg layer = [channels] -> weights_ok layer v ->
      t_cols x_0 = channels ->
      t_rows incidence_1 = t_rows x_0 ->
      shape adjacency_0 = (t_rows x_0, t_rows x_0) ->
      single x_0 -> single incidence_1 -> single adjacency_0 ->
      exists y, HSNLayer_forward layer v x_0 incidence_1 adjacency_0 = Ok y
                /\ shape y = shape x_0 /\ single y) ->
  (forall input target,
      shape input = shape target -> single input -> single target ->
      is_ok (binary_cross_entropy_with_logits input target) = true) ->
  (forall rate slot t g,
      shape (fst (adam_update rate slot t g)) = shape t
      /\ t_dtype (fst (adam_update rate slot t g)) = t_dtype t) ->
  length (SC.skeleton hsn_domain 0) = 3
  /\ length (SC.skeleton hsn_domain 1) = 2
  /\ HSN_new channels_nodes 2 empty_heap = Ok hsn_model
  /\ exists incidence_1 adjacency_0 preds s,
       hsn_incidence_1 = Ok incidence_1 /\ shape incidence_1 = (3, 2)
       /\ hsn_adjacency_0 = Ok adjacency_0 /\ shape adjacency_0 = (3, 3)
       /\ hsn_train 5 = Ok (preds, s)
       /\ length preds = 5
       /\ Forall (fun pred => shape pred = (3, 1)) preds
       /\ steps (opt s) = 5
       /\ (exists first rest,
             preds = first :: rest
             /\ HSN_forward (fst hsn_model) (data (snd hsn_model))
                            x_nodes incidence_1 adjacency_0 = Ok first)
       /\ Forall (fun pred =>
                    exists v, HSN_forward (fst hsn_model) v
                                          x_nodes incidence_1 adjacency_0 = Ok pred)
                 preds.
Proof.
  intros Haccept Hlayer Hloss Hadam.
  split; [reflexivity |]. split; [reflexivity |].
  split.
  { rewrite Channels.HSN_new_spec.
    change (layer_rejects "HSNLayer" [channels_nodes])
      with (layer_rejects "HSNLayer" [2]).
    rewrite Haccept. reflexivity. }
  destruct hsn_incidence_1_printed as (i & Hi & Hsi & _).
  destruct hsn_adjacency_0_printed as (a & Ha & Hsa & _).
  assert (Hdi : single i).
  { assert (H : exists t, hsn_incidence_1 = Ok t /\ single t)
      by (eexists; split; reflexivity).
    destruct H as (t & Ht & Hs). rewrite Hi in Ht. now injection Ht as ->. }
  assert (Hda : single a).
  { assert (H : exists t, hsn_adjacency_0 = Ok t /\ single t)
      by (eexists; split; reflexivity).
    destruct H as (t & Ht & Hs). rewrite Ha in Ht. now injection Ht as ->. }
  exists i, a.
  unfold hsn_train. rewrite Hi, Ha. cbn [Py.bind].
  destruct (HSN_init_shaped channels_nodes 2 empty_heap)
    as (layers & linear & wid & Hl & Hlin & _ & Hw & [bid Hb] & Hshape & _ & Hclass & Hok).
  cbn zeta in *. fold hsn_model in Hl, Hlin, Hshape, Hok.
  injection Hsi as Hir Hic. injection Hsa as Har Hac.
  destruct (HSN_train_ok Hlayer Hloss Hadam (fst hsn_model) layers linear wid bid
                         channels_nodes x_nodes i a nodes_gt_labels)
    with (n := 5) (s := new_session (snd hsn_model) hsn_optimizer)
    as (preds & s & Hrun & Hlen & Hshapes & [Hfirst Hall] & Hsteps);
    try assumption; try reflexivity.
  - unfold shape. now rewrite Har, Hac.
  - split; assumption.
  - exists preds, s.
    split; [reflexivity |]. split; [unfold shape; now rewrite Hir, Hic |].
    split; [reflexivity |]. split; [unfold shape; now rewrite Har, Hac |].
    split; [exact Hrun |]. split; [exact Hlen |]. split; [exact Hshapes |].
    split; [exact Hsteps |]. split.
    + destruct preds as [| first rest]; [discriminate |].
      exists first, rest. split; [reflexivity | exact Hfirst].
    + eapply Forall_impl; [| exact Hall]. intros pred (v & _ & Hv). eauto.
Qed.

Lemma zip3_Forall {A B C} (P : A -> Prop) (Q : B -> Prop) (R : C -> Prop)
      (a : list A) (b : list B) (c : list C) :
  Forall P a -> Forall Q b -> Forall R c ->
  Forall (fun x => P (fst (fst x)) /\ Q (snd (fst x)) /\ R (snd x)) (zip3 a b c).
Proof.
  intro Ha. revert b c. induction Ha as [| x a Hx _ IH]; intros b c Hb Hc.
  - constructor.
  - destruct Hb as [| y b Hy Hb]; [constructor |].
    destruct Hc as [| z c Hz Hc]; [constructor |].
    cbn [zip3]. constructor; [cbn; auto | apply IH; assumption].
Qed.

Lemma rand_tensors_shape (rows cols start len : nat) :
  Forall (fun t => shape t = (rows, cols)) (map (rand_tensor rows cols) (seq start len)).
Proof.
  apply Forall_forall. intros t Hin. apply in_map_iff in Hin.
  destruct Hin as (k & <- & _). reflexivity.
Qed.

Lemma randints_binary (start len : nat) :
  Forall (fun y => y < 2) (map randint (seq start len)).
Proof.
  apply Forall_forall. intros y Hin. apply in_map_iff in Hin.
  destruct Hin as (k & <- & _). unfold randint. destruct (random_randint k); lia.
Qed.

Lemma rand_tensors_single (rows cols start len : nat) :
  Forall single (map (rand_tensor rows cols) (seq start len)).
Proof.
  apply Forall_forall. intros t Hin. apply in_map_iff in Hin.
  destruct Hin as (k & <- & _). reflexivity.
Qed.

Lemma convcxn_samples_fit (a i : tensor) (xs0 xs1 : list tensor) (ys : list nat) :
  shape a = (6, 6) -> shape i = (1, 8) ->
  Forall (fun t => shape t = (6, 4)) xs0 ->
  Forall (fun t => shape t = (8, 5)) xs1 ->
  Forall (fun y => y < 2) ys ->
  Forall (sample_fits 4 5 2 a i) (zip3 xs0 xs1 ys).
Proof.
  intros Ha Hi H0 H1 Hy.
  eapply Forall_impl; [| exact (zip3_Forall _ _ _ _ _ _ H0 H1 Hy)].
  intros [[x_0 x_1] y] (S0 & S1 & Sy). cbn [fst snd] in *.
  injection S0 as R0 C0. injection S1 as R1 C1.
  injection Ha as Ra Ca. injection Hi as Ri Ci.
  unfold sample_fits, shapes_fit, shape. rewrite R0, R1, Ra, Ca, Ci. auto.
Qed.

Lemma convcxn_samples_ready (a i : tensor) (xs0 xs1 : list tensor) (ys : list nat) :
  shape a = (6, 6) -> shape i = (1, 8) -> single a -> single i ->
  Forall (fun t => shape t = (6, 4) /\ single t) xs0 ->
  Forall (fun t => shape t = (8, 5) /\ single t) xs1 ->
  Forall (fun y => y < 2) ys ->
  Forall (sample_ready 4 5 2 a i) (zip3 xs0 xs1 ys).
Proof.
  intros Ha Hi Da Di H0 H1 Hy.
  eapply Forall_impl; [| exact (zip3_Forall _ _ _ _ _ _ H0 H1 Hy)].
  intros [[x_0 x_1] y] ([S0 D0] & [S1 D1] & Sy). cbn [fst snd] in *.
  injection S0 as R0 C0. injection S1 as R1 C1.
  injection Ha as Ra Ca. injection Hi as Ri Ci.
  unfold sample_ready, fits, shapes_fit, shape. rewrite R0, R1, Ra, Ca, Ci. auto 10.
Qed.

Lemma Forall_both {A} (P Q : A -> Prop) (l : list A) :
  Forall P l -> Forall Q l -> Forall (fun x => P x /\ Q x) l.
Proof.
  induction 1 as [| x l Hx HP IH]; intro HQ; [constructor |].
  inversion HQ; subst. constructor; auto.
Qed.

(** C3, as the code has it.  The complex of the ConvCXN notebook has 6
    nodes, 8 edges and 1 face, the transposed incidence matrix has shape
    (1,8) and the adjacency matrix shape (6,6); with layers and a loss
    that keep their contracts, training for 3 epochs over the 100 samples
    completes and prints a summary line for each epoch and, after the
    second one, a test line. *)
Theorem convcxn_scenario (args_lr : Q) :
  (forall layer v x_0 x_1 n00 n12 c0 c1 c2,
      cls layer = "ConvCXNLayer" -> cfg layer = [c0; c1; c2] -> weights_ok layer v ->
      t_cols x_0 = c0 -> t_cols x_1 = c1 ->
      shape n00 = (t_rows x_0, t_rows x_0) ->
      t_cols n12 = t_rows x_1 ->
      single x_0 -> single x_1 -> single n00 -> single n12 ->
      exists y_0 y_1 y_2,
        ConvCXNLayer_forward layer v x_0 x_1 n00 n12 = Ok (y_0, y_1, y_2)
        /\ shape y_0 = shape x_0 /\ shape y_1 = shape x_1
        /\ shape y_2 = (t_rows n12, c2)
        /\ single y_0 /\ single y_1 /\ single y_2) ->
  (forall input target,
      target < v_len input -> is_ok (cross_entropy input target) = true) ->
  (forall rate slot t g,
      shape (fst (adam_update rate slot t g)) = shape t
      /\ t_dtype (fst (adam_update rate slot t g)) = t_dtype t) ->
  length (CC.nodes complex) = 6
  /\ length (CC.edges complex) = 8
  /\ length (CC.cells complex) = 1
  /\ (exists t, incidence_2_t = Ok t /\ shape t = (1, 8))
  /\ (exists t, convcxn_adjacency_0 = Ok t /\ shape t = (6, 6))
  /\ length (zip3 x_0_train x_1_train labels_train) = 100
  /\ exists s,
       convcxn_train args_lr 3 = Ok s
       /\ map kind_of (stdout s) = [Epoch 1; Epoch 2; Test; Epoch 3].
Proof.
  intros Hlayer Hloss Hadam.
  do 3 (split; [reflexivity |]).
  assert (Hi : exists t, incidence_2_t = Ok t /\ shape t = (1, 8) /\ single t)
    by (eexists; split; [| split]; reflexivity).
  assert (Ha : exists t, convcxn_adjacency_0 = Ok t /\ shape t = (6, 6) /\ single t)
    by (eexists; split; [| split]; reflexivity).
  assert (Hlen : length (zip3 x_0_train x_1_train labels_train) = 100).
  { apply zip3_length; unfold x_0_train, x_1_train, labels_train;
      now rewrite length_map, length_seq. }
  assert (Hlen' : length (zip3 x_0_test x_1_test labels_test) = 10).
  { apply zip3_length; unfold x_0_test, x_1_test, labels_test;
      now rewrite length_map, length_seq. }
  destruct Hi as (i & Hi & Si & Di), Ha as (a & Ha & Sa & Da).
  split; [eauto |]. split; [eauto |]. split; [assumption |].
  unfold convcxn_train. rewrite Hi, Ha. cbn [Py.bind]. unfold ConvCXN_train.
  destruct (ConvCXN_init_shaped in_ch_0 in_ch_1 in_ch_2 2 2 empty_heap)
    as (layers & Hl & Hn & Hclass & Hok & H0 & H1 & H2).
  fold convcxn_model in Hl, Hok, H0, H1, H2.
  destruct (ConvCXN_epochs_ok Hadam Hlayer Hloss (fst convcxn_model) layers
              in_ch_0 in_ch_1 in_ch_2 2 Hl) with
      (adjacency_0 := a) (incidence_2_t := i)
      (x_0_train := x_0_train) (x_1_train := x_1_train) (labels_train := labels_train)
      (x_0_test := x_0_test) (x_1_test := x_1_test) (labels_test := labels_test)
      (range := seq 1 3)
      (s := new_session (snd convcxn_model)
                        (Adam (parameters (fst convcxn_model)) args_lr))
    as (s & Hrun).
  - intro; subst layers; discriminate.
  - exact Hclass.
  - apply convcxn_samples_fit; try assumption;
      first [apply rand_tensors_shape | apply randints_binary].
  - apply convcxn_samples_ready; try assumption;
      first [apply Forall_both; [apply rand_tensors_shape | apply rand_tensors_single]
            | apply randints_binary].
  - intro E. rewrite E in Hlen. discriminate.
  - intro E. rewrite E in Hlen'. discriminate.
  - repeat split; assumption.
  - exists s. split; [exact Hrun |].
    apply epochs_output in Hrun. rewrite Hrun. reflexivity.
Qed.

End WithLibraries.

End Scenarios.

(** ** A small instance of the imported libraries

    Used to run the models on concrete inputs. *)

Module Toy.

Definition shape_error {A} : result A :=
  Raise (RuntimeError "mat1 and mat2 shapes cannot be multiplied").

(** The entries of a tensor, computed once and kept in lowest terms. *)
Definition stored (t : tensor) : tensor :=
  let rows := map (map Qred) (to_lists t) in
  mkTensor (t_dtype t) (t_rows t) (t_cols t) (fun i j => nth j (nth i rows []) 0%Q).

(** [a @ b], defined on two tensors of one dtype whose inner dimensions
    agree. *)
Definition matmul (a b : tensor) : result tensor :=
  if negb (dtype_eqb (t_dtype a) (t_dtype b)) then
    Raise (RuntimeError "mat1 and mat2 must have the same dtype")
  else if t_cols a =? t_rows b then
    Ok (stored (mkTensor (t_dtype b) (t_rows a) (t_cols b)
                  (fun i j => qsum (t_cols a) (fun k => t_at a i k * t_at b k j)%Q)))
  else shape_error.

Definition weight_of (layer : module) (v : param_id -> tensor) : result tensor :=
  p <- lookup "weight" (_parameters layer) ;;
  Ok (v p).

(** adjacency_0 @ (x_0 @ W) *)
Definition hsn_layer (layer : module) (v : param_id -> tensor)
           (x_0 incidence_1 adjacency_0 : tensor) : result tensor :=
  w <- weight_of layer v ;;
  if t_rows incidence_1 =? t_rows x_0 then
    xw <- matmul x_0 w ;;
    matmul adjacency_0 xw
  else shape_error.

(** incidence_2^T @ (incidence_2 @ (x_2 @ W)) *)
Definition template_layer (layer : module) (v : param_id -> tensor)
           (x_2 incidence_2 : tensor) : result tensor :=
  w <- weight_of layer v ;;
  xw <- matmul x_2 w ;;
  x_1 <- matmul incidence_2 xw ;;
  matmul (T incidence_2) x_1.

(** x_0 <- n00 @ (x_0 @ W); x_1 unchanged; x_2 <- n12 @ x_1, widened or
    cut to the width of the faces. *)
Definition convcxn_layer (layer : module) (v : param_id -> tensor)
           (x_0 x_1 n00 n12 : tensor) : result (tensor * tensor * tensor) :=
  w <- weight_of layer v ;;
  xw <- matmul x_0 w ;;
  y_0 <- matmul n00 xw ;;
  y_2 <- matmul n12 x_1 ;;
  Ok (y_0, x_1,
      mkTensor (t_dtype y_2) (t_rows y_2) (nth 2 (cfg layer) 0)
               (fun i j => if j <? t_cols y_2 then t_at y_2 i j else 0%Q)).

Definition squared_error (input target : tensor) : result Q :=
  if (t_rows input =? t_rows target) && (t_cols input =? t_cols target) then
    Ok (qsum (t_rows input)
          (fun i => qsum (t_cols input)
                      (fun j => (t_at input i j - t_at target i j)
                                * (t_at input i j - t_at target i j))))%Q
  else Raise (ValueError "Target size must be the same as input size").

(** The zero-one loss of a prediction. *)
Definition zero_one (input : tensor1) (target : nat) : result Q :=
  if target <? v_len input then
    Ok (if argmax input =? target then 0 else 1)%Q
  else Raise (RuntimeError "Target out of bounds").

#[export] Instance libraries : Libraries := {|
  init_entries := fun p i j => (inject_Z (Z.of_nat (1 + (p + i + j) mod 3)) / 4)%Q;
  layer_weights := fun _ args =>
    match args with
    | c :: _ => [("weight", (c, c))]
    | [] => []
    end;
  (* the initialisation of a weight without entries divides by zero *)
  layer_rejects := fun _ args =>
    match args with
    | 0 :: _ => Some ZeroDivisionError
    | _ => None
    end;
  HSNLayer_forward := hsn_layer;
  TemplateLayer_forward := template_layer;
  ConvCXNLayer_forward := convcxn_layer;
  binary_cross_entropy_with_logits := squared_error;
  cross_entropy := zero_one;
  autograd := fun _ v p =>
    Some (mkTensor Float32 (t_rows (v p)) (t_cols (v p)) (fun _ _ => (1 # 8)%Q));
  adam_slot := nat;
  adam_init := 0;
  adam_update := fun rate slot t g =>
    (stored (mkTensor (t_dtype t) (t_rows t) (t_cols t)
                      (fun i j => (t_at t i j - rate * t_at g i j)%Q)), S slot);
  np_random_rand := fun k i j => (inject_Z (Z.of_nat ((k + 2 * i + j) mod 7)) / 7)%Q;
  random_randint := Nat.even
|}.

(** The tensors, the model and the first samples of the ConvCXN notebook
    under this instance. *)
Definition unwrap (r : result tensor) : tensor :=
  match r with
  | Ok t => t
  | Raise _ => torch_tensor []
  end.

Definition adjacency_0 : tensor := unwrap Notebooks.convcxn_adjacency_0.
Definition incidence_2_t : tensor := unwrap Notebooks.incidence_2_t.
Definition model : module := fst Notebooks.convcxn_model.
Definition session_0 : session :=
  Notebooks.new_session (snd Notebooks.convcxn_model) (Adam (parameters model) (1 # 4)).
Definition x_0_few : list tensor := firstn 2 Notebooks.x_0_train.
Definition x_1_few : list tensor := firstn 2 Notebooks.x_1_train.
Definition labels_few : list nat := firstn 2 Notebooks.labels_train.

(** The tensors of the HSN and of the template notebook. *)
Definition hsn_incidence_1 : tensor := unwrap Notebooks.hsn_incidence_1.
Definition hsn_adjacency_0 : tensor := unwrap Notebooks.hsn_adjacency_0.
Definition template_incidence_2 : tensor := unwrap Notebooks.incidence_2_torch.

(** A small model and the tensors of a call of it: two nodes, one edge
    and one face. *)
Definition small : module * heap := ConvCXN_init 1 1 1 2 1 Notebooks.empty_heap.
Definition small_x_0 : tensor := torch_tensor [[1]; [2]]%Q.
Definition small_x_1 : tensor := torch_tensor [[3]]%Q.
Definition small_adjacency_0 : tensor := torch_tensor [[0; 1]; [1; 0]]%Q.
Definition small_incidence_2_t : tensor := torch_tensor [[1]]%Q.

(** The same edge in a complex without faces: no row. *)
Definition no_face : tensor := mkTensor Float32 0 1 (fun _ _ => 0%Q).

(** The instance keeps the contracts the notebooks rely on. *)

Lemma matmul_Ok (a b : tensor) :
  t_dtype a = t_dtype b -> t_cols a = t_rows b ->
  exists y, matmul a b = Ok y /\ shape y = (t_rows a, t_cols b)
            /\ t_dtype y = t_dtype b.
Proof.
  intros Hd H. unfold matmul. rewrite Hd, H, Nat.eqb_refl.
  destruct (t_dtype b); cbn [dtype_eqb negb]; eexists; repeat split; reflexivity.
Qed.

Ltac the_weight Hw Hcls Hcfg p :=
  unfold Shapes.weights_ok in Hw; rewrite Hcls, Hcfg in Hw; cbn in Hw;
  inversion Hw as [| [name p] w ps ws (Hname & Hshape & Hsingle) Hrest Eps Ews]; subst;
  cbn in Hname, Hshape, Hsingle; subst name; injection Hshape as Hwr Hwc.

Lemma hsn_layer_contract :
  forall layer v x_0 incidence_1 adjacency_0 channels,
    cls layer = "HSNLayer" -> cfg layer = [channels] ->
    Shapes.weights_ok layer v ->
    t_cols x_0 = channels ->
    t_rows incidence_1 = t_rows x_0 ->
    shape adjacency_0 = (t_rows x_0, t_rows x_0) ->
    Shapes.single x_0 -> Shapes.single incidence_1 -> Shapes.single adjacency_0 ->
    exists y, HSNLayer_forward layer v x_0 incidence_1 adjacency_0 = Ok y
              /\ shape y = shape x_0 /\ Shapes.single y.
Proof.
  intros layer v x_0 incidence_1 adjacency_0 channels Hcls Hcfg Hw Hx Hi Ha Dx Di Da.
  the_weight Hw Hcls Hcfg p. unfold Shapes.single in *.
  cbn. unfold hsn_layer, weight_of. rewrite <- Eps. cbn.
  rewrite Hi, Nat.eqb_refl.
  destruct (matmul_Ok x_0 (v p)) as (xw & -> & Hxw & Dxw); [congruence | congruence |].
  cbn [Py.bind]. injection Hxw as Hr Hc. injection Ha as Har Hac.
  destruct (matmul_Ok adjacency_0 xw) as (y & -> & Hy & Dy); [congruence | congruence |].
  exists y. split; [reflexivity |]. rewrite Hy. unfold shape. split; congruence.
Qed.

Lemma template_layer_contract :
  forall layer v x_2 incidence_2 c c_mid,
    cls layer = "TemplateLayer" -> cfg layer = [c; c_mid; c] ->
    Shapes.weights_ok layer v ->
    t_cols x_2 = c ->
    t_cols incidence_2 = t_rows x_2 ->
    Shapes.single x_2 -> Shapes.single incidence_2 ->
    exists y, TemplateLayer_forward layer v x_2 incidence_2 = Ok y
              /\ shape y = shape x_2 /\ Shapes.single y.
Proof.
  intros layer v x_2 incidence_2 c c_mid Hcls Hcfg Hw Hx Hi Dx Di.
  the_weight Hw Hcls Hcfg p. unfold Shapes.single in *.
  cbn. unfold template_layer, weight_of. rewrite <- Eps. cbn.
  destruct (matmul_Ok x_2 (v p)) as (xw & -> & Hxw & Dxw); [congruence | congruence |].
  cbn [Py.bind]. injection Hxw as Hr Hc.
  destruct (matmul_Ok incidence_2 xw) as (x_1 & -> & Hx1 & Dx1);
    [congruence | congruence |].
  cbn [Py.bind]. injection Hx1 as Hr1 Hc1.
  destruct (matmul_Ok (T incidence_2) x_1) as (y & -> & Hy & Dy);
    [cbn; congruence | cbn; congruence |].
  exists y. split; [reflexivity |]. rewrite Hy. unfold shape. cbn. split; congruence.
Qed.

Lemma squared_error_contract :
  forall input target,
    shape input = shape target -> Shapes.single input -> Shapes.single target ->
    is_ok (binary_cross_entropy_with_logits input target) = true.
Proof.
  intros input target H _ _. injection H as Hr Hc. cbn. unfold squared_error.
  now rewrite Hr, Hc, !Nat.eqb_refl.
Qed.

Lemma convcxn_layer_contract :
  forall layer v x_0 x_1 n00 n12 c0 c1 c2,
    cls layer = "ConvCXNLayer" -> cfg layer = [c0; c1; c2] ->
    Shapes.weights_ok layer v ->
    t_cols x_0 = c0 -> t_cols x_1 = c1 ->
    shape n00 = (t_rows x_0, t_rows x_0) ->
    t_cols n12 = t_rows x_1 ->
    Shapes.single x_0 -> Shapes.single x_1 ->
    Shapes.single n00 -> Shapes.single n12 ->
    exists y_0 y_1 y_2,
      ConvCXNLayer_forward layer v x_0 x_1 n00 n12 = Ok (y_0, y_1, y_2)
      /\ shape y_0 = shape x_0 /\ shape y_1 = shape x_1
      /\ shape y_2 = (t_rows n12, c2)
      /\ Shapes.single y_0 /\ Shapes.single y_1 /\ Shapes.single y_2.
Proof.
  intros layer v x_0 x_1 n00 n12 c0 c1 c2 Hcls Hcfg Hw H0 H1 Hn Hm D0 D1 Dn Dm.
  the_weight Hw Hcls Hcfg p. unfold Shapes.single in *.
  cbn. unfold convcxn_layer, weight_of. rewrite <- Eps. cbn.
  destruct (matmul_Ok x_0 (v p)) as (xw & -> & Hxw & Dxw); [congruence | congruence |].
  cbn [Py.bind]. injection Hxw as Hr Hc. injection Hn as Hnr Hnc.
  destruct (matmul_Ok n00 xw) as (y_0 & -> & Hy0 & Dy0); [congruence | congruence |].
  cbn [Py.bind].
  destruct (matmul_Ok n12 x_1) as (y_2 & -> & Hy2 & Dy2); [congruence | congruence |].
  cbn [Py.bind]. injection Hy2 as Hy2r Hy2c.
  do 3 eexists. split; [reflexivity |]. rewrite Hcfg. cbn [nth].
  repeat split; try congruence.
  - rewrite Hy0. unfold shape. congruence.
  - unfold shape. cbn. now rewrite Hy2r.
  - cbn. congruence.
Qed.

Lemma zero_one_contract :
  forall input target,
    target < v_len input -> is_ok (cross_entropy input target) = true.
Proof.
  intros input target H. cbn. unfold zero_one.
  apply Nat.ltb_lt in H. now rewrite H.
Qed.

Lemma adam_update_contract :
  forall rate slot t g,
    shape (fst (adam_update rate slot t g)) = shape t
    /\ t_dtype (fst (adam_update rate slot t g)) = t_dtype t.
Proof. split; reflexivity. Qed.

End Toy.

(** ** Training runs of the three classifiers, for any configuration *)

Module Runs.

Import Registry Loops Shapes.

(** Replaces the state a call returns by the state it was given. *)
Ltac returned_state :=
  match goal with
  | E : ConvCXN_call _ _ _ _ _ _ = Ok _ |- _ =>
      apply ConvCXN_call_frame in E; destruct E as [-> ?]
  | E : HSN_call _ _ _ _ _ = Ok _ |- _ =>
      apply HSN_call_frame in E; destruct E as [-> ?]
  end.

Section WithLibraries.

Context {L : Libraries}.

(** The session of a notebook right after its model and its optimizer are
    built. *)
Definition fresh_session (built : module * heap) (rate : Q) : session :=
  Notebooks.new_session (snd built) (Adam (parameters (fst built)) rate).

Lemma HSN_epoch_group (model : module) (x i a labels pred : tensor) (s s' : session) :
  HSN_epoch model x i a labels s = Ok (pred, s') ->
  param_group (opt s') = param_group (opt s) /\ steps (opt s') = S (steps (opt s)).
Proof.
  intro H. unfold HSN_epoch in H. inv_bind H. returned_state. injection H as _ <-.
  destruct (step_opt (backward (HSN_loss model x i a labels) (leaves model) (zero_grad s)))
    as (Hs & Hg & _).
  rewrite Hs, Hg. auto.
Qed.

(** Training changes no parameter outside those the optimizer was given,
    and steps the optimizer once per epoch. *)
Lemma HSN_train_frame (model : module) (x i a labels : tensor) (n : nat) :
  forall s preds s',
    HSN_train model x i a labels n s = Ok (preds, s') ->
    param_group (opt s') = param_group (opt s)
    /\ steps (opt s') = steps (opt s) + n
    /\ forall q, ~ In q (param_group (opt s)) -> params s' q = params s q.
Proof.
  induction n as [| n IH]; intros s preds s' H.
  - injection H as _ <-. repeat split; auto.
  - cbn [HSN_train] in H. inv_bind H. injection H as _ <-.
    match goal with
    | E : HSN_epoch _ _ _ _ _ _ = Ok (_, ?s1) |- _ =>
        pose proof (HSN_epoch_group _ _ _ _ _ _ _ _ E) as [Hg Hs];
        pose proof (fun q Hq => HSN_epoch_frame _ _ _ _ _ _ _ _ q Hq E) as Hf
    end.
    match goal with
    | E : HSN_train _ _ _ _ _ _ _ = Ok _ |- _ =>
        apply IH in E; destruct E as (Hg' & Hs' & Hf')
    end.
    repeat split.
    + congruence.
    + lia.
    + intros q Hq. rewrite Hf' by (rewrite Hg; exact Hq). apply Hf, Hq.
Qed.

(** With layers, a loss and an optimizer that keep their contracts, an
    HSN of any number of layers (none included) whose constructor call
    has returned is trained through every epoch on a signal that fits it,
    given in single precision like the neighbourhoods and the labels;
    every epoch predicts one logit per node, and the optimizer steps once
    per epoch. *)
Theorem HSN_training_completes
        (channels n_layers epochs : nat) (h : heap) (rate : Q)
        (x_0 incidence_1 adjacency_0 labels : tensor) (built : module * heap) :
  (forall layer v x_0 incidence_1 adjacency_0 channels,
      cls layer = "HSNLayer" -> cfg layer = [channels] -> weights_ok layer v ->
      t_cols x_0 = channels ->
      t_rows incidence_1 = t_rows x_0 ->
      shape adjacency_0 = (t_rows x_0, t_rows x_0) ->
      single x_0 -> single incidence_1 -> single adjacency_0 ->
      exists y, HSNLayer_forward layer v x_0 incidence_1 adjacency_0 = Ok y
                /\ shape y = shape x_0 /\ single y) ->
  (forall input target,
      shape input = shape target -> single input -> single target ->
      is_ok (binary_cross_entropy_with_logits input target) = true) ->
  (forall rate slot t g,
      shape (fst (adam_update rate slot t g)) = shape t
      /\ t_dtype (fst (adam_update rate slot t g)) = t_dtype t) ->
  HSN_new channels n_layers h = Ok built ->
  t_cols x_0 = channels ->
  t_rows incidence_1 = t_rows x_0 ->
  shape adjacency_0 = (t_rows x_0, t_rows x_0) ->
  shape labels = (t_rows x_0, 1) ->
  single x_0 -> single incidence_1 -> single adjacency_0 -> single labels ->
  exists preds s',
    HSN_train (fst built) x_0 incidence_1 adjacency_0 labels
              epochs (fresh_session built rate)
    = Ok (preds, s')
    /\ length preds = epochs
    /\ Forall (fun pred => shape pred = (t_rows x_0, 1)) preds
    /\ steps (opt s') = epochs.
Proof.
  intros Hlayer Hloss Hadam Hnew Hx Hi Ha Hy Dx Di Da Dy.
  apply Channels.HSN_new_Ok in Hnew. subst built.
  destruct (HSN_init_shaped channels n_layers h)
    as (layers & linear & wid & Hl & Hlin & _ & Hw & [bid Hb] & Hshape & _ & Hclass & Hok).
  cbn zeta in *.
  destruct (HSN_train_ok Hlayer Hloss Hadam (fst (HSN_init channels n_layers h))
              layers linear wid bid channels x_0 incidence_1 adjacency_0 labels)
    with (n := epochs) (s := fresh_session (HSN_init channels n_layers h) rate)
    as (preds & s' & Hrun & Hlen & Hshapes & _ & Hsteps); try assumption.
  - split; assumption.
  - exists preds, s'. auto.
Qed.

(** Training an HSN never changes a parameter of its layers: after any
    number of completed epochs each of them has the value it was
    initialised with, while the optimizer has stepped once per epoch. *)
Theorem HSN_training_leaves_layers_untrained
        (channels n_layers epochs : nat) (h : heap) (rate : Q)
        (x_0 incidence_1 adjacency_0 labels : tensor) :
  is_ok (HSN_train (fst (HSN_init channels n_layers h)) x_0 incidence_1 adjacency_0 labels
                   epochs (fresh_session (HSN_init channels n_layers h) rate)) = true ->
  exists preds s',
    HSN_train (fst (HSN_init channels n_layers h)) x_0 incidence_1 adjacency_0 labels
              epochs (fresh_session (HSN_init channels n_layers h) rate)
    = Ok (preds, s')
    /\ steps (opt s') = epochs
    /\ forall q, In q (layer_parameters (fst (HSN_init channels n_layers h))) ->
                 params s' q = data (snd (HSN_init channels n_layers h)) q.
Proof.
  intro Hok. apply is_ok_Ok in Hok. destruct Hok as [[preds s'] Hrun].
  exists preds, s'. split; [exact Hrun |].
  apply HSN_train_frame in Hrun. destruct Hrun as (_ & Hs & Hf).
  split; [exact Hs |].
  intros q Hq. apply Hf. cbn [fresh_session Notebooks.new_session opt Adam param_group].
  destruct (HSN_registry channels n_layers h) as [Hlp Hp]. cbn zeta in Hlp, Hp.
  rewrite Hlp in Hq. rewrite Hp. rewrite in_seq in *. lia.
Qed.

(** *** TemplateNN *)

Lemma TemplateNN_call_frame (model : module) (s s' : session) (x i y : tensor) :
  TemplateNN_call model s x i = Ok (y, s') ->
  s' = s /\ TemplateNN_forward model (params s) x i = Ok y.
Proof.
  unfold TemplateNN_call.
  destruct (TemplateNN_forward model (params s) x i); cbn; [| discriminate].
  intro H. injection H as <- <-. auto.
Qed.

(** What [TemplateNN(...)] looks like after construction. *)
Lemma TemplateNN_init_shaped (channels_face channels_edge n_layers : nat) (h : heap) :
  exists layers,
    getattr_list (fst (TemplateNN_init channels_face channels_edge n_layers h)) "layers"
    = Ok layers
    /\ length layers = n_layers
    /\ Forall (fun l => cls l = "TemplateLayer"
                        /\ cfg l = [channels_face; channels_edge; channels_face]) layers
    /\ Forall (fun l => weights_ok l
                          (data (snd (TemplateNN_init channels_face channels_edge
                                                      n_layers h)))) layers
    /\ head_ok (fst (TemplateNN_init channels_face channels_edge n_layers h)) "linear"
               (data (snd (TemplateNN_init channels_face channels_edge n_layers h)))
               channels_face 1.
Proof.
  unfold TemplateNN_init, TemplateLayer.
  destruct (append_layers_shaped "TemplateLayer" [channels_face; channels_edge; channels_face]
                                 n_layers [] h (Forall_nil _)) as [Hset He].
  pose proof (append_layers_spec "TemplateLayer" [channels_face; channels_edge; channels_face]
                                 n_layers [] h) as (_ & _ & Hlen).
  pose proof (Channels.append_layers_class
                "TemplateLayer" [channels_face; channels_edge; channels_face]
                n_layers [] h (Forall_nil _)) as Hclass.
  destruct (append_layers n_layers
              (new_layer "TemplateLayer" [channels_face; channels_edge; channels_face])
              [] h) as [layers h1].
  cbn [fst snd length Nat.add] in *.
  destruct (Linear_shaped channels_face 1 h1) as (E & P & Hs & _).
  destruct (Linear init_entries channels_face 1 h1) as [linear h2]. cbn [fst snd] in *.
  exists layers. repeat split; try assumption; try reflexivity.
  - eapply Forall_impl; [| exact Hset]. intros l Hl. apply (settled_extends h1 h2 l E Hl).
  - exists linear, (next h1), (S (next h1)). rewrite P.
    split; [reflexivity | split; [reflexivity | split; [reflexivity | exact Hs]]].
Qed.

Section TemplateRun.

(** A template layer with intact weights and equal input and output
    widths sends a signal over the faces through the edges and back,
    keeping its shape, all in single precision. *)
Hypothesis TemplateLayer_contract :
  forall layer v x_2 incidence_2 c c_mid,
    cls layer = "TemplateLayer" -> cfg layer = [c; c_mid; c] ->
    weights_ok layer v ->
    t_cols x_2 = c ->
    t_cols incidence_2 = t_rows x_2 ->
    single x_2 -> single incidence_2 ->
    exists y, TemplateLayer_forward layer v x_2 incidence_2 = Ok y
              /\ shape y = shape x_2 /\ single y.

Hypothesis loss_contract :
  forall input target,
    shape input = shape target -> single input -> single target ->
    is_ok (binary_cross_entropy_with_logits input target) = true.

Hypothesis adam_contract :
  forall rate slot t g,
    shape (fst (adam_update rate slot t g)) = shape t
    /\ t_dtype (fst (adam_update rate slot t g)) = t_dtype t.

Variables (model : module) (layers : list module) (c_face c_edge : nat).
Variables (x_2 incidence_2 labels : tensor).

Hypothesis model_layers : getattr_list model "layers" = Ok layers.
Hypothesis layers_class :
  Forall (fun l => cls l = "TemplateLayer" /\ cfg l = [c_face; c_edge; c_face]) layers.
Hypothesis signal_width : t_cols x_2 = c_face.
Hypothesis incidence_fits : t_cols incidence_2 = t_rows x_2.
Hypothesis labels_fit : shape labels = (t_rows x_2, 1).
Hypothesis signal_single : single x_2.
Hypothesis incidence_single : single incidence_2.
Hypothesis labels_single : single labels.

Definition intact1 (v : param_id -> tensor) : Prop :=
  Forall (fun l => weights_ok l v) layers /\ head_ok model "linear" v c_face 1.

Lemma TemplateNN_layers_ok (v : param_id -> tensor) (ls : list module) :
  Forall (fun l => cls l = "TemplateLayer" /\ cfg l = [c_face; c_edge; c_face]) ls ->
  Forall (fun l => weights_ok l v) ls ->
  forall x,
    shape x = shape x_2 -> single x ->
    exists y, TemplateNN_layers ls v x incidence_2 = Ok y /\ shape y = shape x_2
              /\ single y.
Proof.
  intros Hc Hw. induction ls as [| layer ls IH]; intros x Hx Dx.
  - exists x. auto.
  - cbn [TemplateNN_layers]. injection Hx as Hr Hcol.
    destruct (Forall_inv Hc) as [Hcls Hcfg].
    destruct (TemplateLayer_contract layer v x incidence_2 c_face c_edge
                Hcls Hcfg (Forall_inv Hw)) as (y & -> & Hy & Dy);
      [congruence | congruence | exact Dx | exact incidence_single |].
    cbn [Py.bind]. apply (IH (Forall_inv_tail Hc) (Forall_inv_tail Hw)); [| exact Dy].
    rewrite Hy. unfold shape. congruence.
Qed.

Lemma TemplateNN_forward_ok (v : param_id -> tensor) :
  intact1 v ->
  exists y, TemplateNN_forward model v x_2 incidence_2 = Ok y
            /\ shape y = (t_rows x_2, 1) /\ single y.
Proof.
  intros [Hw (linear & wid & bid & Hlin & Hwid & Hbid & Hs)].
  unfold TemplateNN_forward. rewrite model_layers. cbn [Py.bind].
  destruct (TemplateNN_layers_ok v layers layers_class Hw x_2 eq_refl signal_single)
    as (y & -> & Hy & Dy).
  cbn [Py.bind]. rewrite Hlin. cbn [Py.bind]. injection Hy as Hr Hc.
  destruct (Linear_forward_ok linear v wid bid c_face 1 y Hwid Hbid Hs)
    as (z & -> & Hz & Dz); [congruence | exact Dy |].
  exists z. split; [reflexivity |]. now rewrite Hz, Hr.
Qed.

Lemma TemplateNN_train_ok (n : nat) :
  forall s,
    intact1 (params s) ->
    exists preds s',
      TemplateNN_train model x_2 incidence_2 labels n s = Ok (preds, s')
      /\ length preds = n
      /\ Forall (fun pred => shape pred = (t_rows x_2, 1)) preds
      /\ steps (opt s') = steps (opt s) + n.
Proof.
  induction n as [| n IH]; intros s Hi.
  - exists [], s. repeat split; auto.
  - cbn [TemplateNN_train]. unfold TemplateNN_epoch, TemplateNN_call.
    destruct (TemplateNN_forward_ok (params (zero_grad s)) Hi) as (y & -> & Hy & Dy).
    cbn [Py.bind].
    pose proof (loss_contract y labels) as Hl. rewrite Hy, labels_fit in Hl.
    specialize (Hl eq_refl Dy labels_single).
    destruct (binary_cross_entropy_with_logits y labels); [| discriminate].
    cbn [Py.bind].
    destruct (IH (step (backward (TemplateNN_loss model x_2 incidence_2 labels)
                                 (leaves model) (zero_grad s))))
      as (preds & s' & -> & Hlen & HF & Hsteps).
    + pose proof (step_same_shapes adam_contract
                    (backward (TemplateNN_loss model x_2 incidence_2 labels)
                              (leaves model) (zero_grad s))) as Hsame.
      destruct Hi as [Hw Hh]. split.
      * eapply Forall_impl; [| exact Hw]. intro l.
        exact (weights_ok_same_shapes l _ _ Hsame).
      * exact (head_ok_same_shapes _ _ _ _ _ _ Hsame Hh).
    + cbn [Py.bind]. exists (y :: preds), s'.
      rewrite (proj1 (step_opt _)) in Hsteps. cbn [opt backward zero_grad] in Hsteps.
      repeat split; [cbn; congruence | constructor; assumption | lia].
Qed.

End TemplateRun.

(** With layers, a loss and an optimizer that keep their contracts, a
    TemplateNN of any number of layers (none included) whose constructor
    call has returned is trained through every epoch on a signal over the
    faces that fits it, given in single precision like the incidence
    matrix and the labels; every epoch predicts one logit per face, and
    the optimizer steps once per epoch. *)
Theorem TemplateNN_training_completes
        (channels_face channels_edge n_layers epochs : nat) (h : heap) (rate : Q)
        (x_2 incidence_2 labels : tensor) (built : module * heap) :
  (forall layer v x_2 incidence_2 c c_mid,
      cls layer = "TemplateLayer" -> cfg layer = [c; c_mid; c] ->
      weights_ok layer v ->
      t_cols x_2 = c ->
      t_cols incidence_2 = t_rows x_2 ->
      single x_2 -> single incidence_2 ->
      exists y, TemplateLayer_forward layer v x_2 incidence_2 = Ok y
                /\ shape y = shape x_2 /\ single y) ->
  (forall input target,
      shape input = shape target -> single input -> single target ->
      is_ok (binary_cross_entropy_with_logits input target) = true) ->
  (forall rate slot t g,
      shape (fst (adam_update rate slot t g)) = shape t
      /\ t_dtype (fst (adam_update rate slot t g)) = t_dtype t) ->
  TemplateNN_new channels_face channels_edge n_layers h = Ok built ->
  t_cols x_2 = channels_face ->
  t_cols incidence_2 = t_rows x_2 ->
  shape labels = (t_rows x_2, 1) ->
  single x_2 -> single incidence_2 -> single labels ->
  exists preds s',
    TemplateNN_train (fst built) x_2 incidence_2 labels epochs
                     (fresh_session built rate)
    = Ok (preds, s')
    /\ length preds = epochs
    /\ Forall (fun pred => shape pred = (t_rows x_2, 1)) preds
    /\ steps (opt s') = epochs.
Proof.
  intros Hlayer Hloss Hadam Hnew Hx Hi Hy Dx Di Dy.
  apply Channels.TemplateNN_new_Ok in Hnew. subst built.
  destruct (TemplateNN_init_shaped channels_face channels_edge n_layers h)
    as (layers & Hl & _ & Hclass & Hok & Hhead).
  apply (TemplateNN_train_ok Hlayer Hloss Hadam
           (fst (TemplateNN_init channels_face channels_edge n_layers h))
           layers channels_face channels_edge x_2 incidence_2 labels);
    try assumption.
  split; assumption.
Qed.

(** *** ConvCXN *)

Section ConvCXNFrame.

Variables (model : module) (adjacency_0 incidence_2_t : tensor).

Lemma train_samples_frame (xs : list sample) :
  forall c s c' s',
    train_samples model adjacency_0 incidence_2_t xs c s = Ok (c', s') ->
    param_group (opt s') = param_group (opt s)
    /\ forall q, ~ In q (param_group (opt s)) -> params s' q = params s q.
Proof.
  induction xs as [| x xs IH]; intros c s c' s' H.
  - injection H as _ <-. auto.
  - cbn [train_samples] in H. inv_bind H.
    match goal with
    | E : train_sample _ _ _ _ _ _ = Ok _ |- _ =>
        unfold train_sample in E; destruct x as [[x_0 x_1] y];
        inv_bind E; returned_state; injection E as _ <-
    end.
    apply IH in H. destruct H as [Hg Hf].
    destruct (step_opt (backward (ConvCXN_loss model adjacency_0 incidence_2_t (x_0, x_1, y))
                                 (leaves model) (zero_grad s))) as (_ & Hg1 & _).
    split.
    + rewrite Hg, Hg1. reflexivity.
    + intros q Hq. rewrite Hf by (rewrite Hg1; exact Hq). now rewrite step_frame.
Qed.

(** The correct predictions never outnumber the samples seen. *)
Lemma train_samples_correct (xs : list sample) :
  forall c s c' s',
    train_samples model adjacency_0 incidence_2_t xs c s = Ok (c', s') ->
    correct c <= num_samples c -> correct c' <= num_samples c'.
Proof.
  induction xs as [| x xs IH]; intros c s c' s' H Hc.
  - injection H as <- _. exact Hc.
  - cbn [train_samples] in H. inv_bind H.
    match goal with
    | E : train_sample _ _ _ _ _ _ = Ok _ |- _ =>
        unfold train_sample in E; destruct x as [[x_0 x_1] y];
        inv_bind E; returned_state; injection E as <- _
    end.
    apply IH in H; [exact H |]. cbn [correct num_samples].
    unfold hit. destruct (argmax _ =? y); lia.
Qed.

Variables (x_0_train x_1_train : list tensor) (labels_train : list nat).
Variables (x_0_test x_1_test : list tensor) (labels_test : list nat).

Lemma ConvCXN_epochs_frame (range : list nat) :
  forall s s',
    ConvCXN_epochs model adjacency_0 incidence_2_t
                   x_0_train x_1_train labels_train x_0_test x_1_test labels_test
                   range s = Ok s' ->
    param_group (opt s') = param_group (opt s)
    /\ steps (opt s')
       = steps (opt s) + length range * length (zip3 x_0_train x_1_train labels_train)
    /\ forall q, ~ In q (param_group (opt s)) -> params s' q = params s q.
Proof.
  induction range as [| epoch_i range IH]; intros s s' H.
  - injection H as <-. repeat split; auto.
  - cbn [ConvCXN_epochs] in H. inv_bind H. apply IH in H.
    destruct H as (Hg & Hs & Hf).
    match goal with
    | E : ConvCXN_epoch _ _ _ _ _ _ _ _ _ _ _ = Ok ?s1 |- _ =>
        assert (Hstep : param_group (opt s1) = param_group (opt s)
                        /\ steps (opt s1)
                           = steps (opt s)
                             + length (zip3 x_0_train x_1_train labels_train)
                        /\ forall q, ~ In q (param_group (opt s)) ->
                                     params s1 q = params s q)
    end.
    { match goal with
      | E : ConvCXN_epoch _ _ _ _ _ _ _ _ _ _ _ = Ok _ |- _ =>
          unfold ConvCXN_epoch in E; inv_bind E
      end.
      match goal with
      | E : train_phase _ _ _ _ _ _ _ _ = Ok _ |- _ =>
          unfold train_phase in E; inv_bind E; injection E as <- <-
      end.
      match goal with
      | E : train_samples _ _ _ _ _ _ = Ok _ |- _ =>
          pose proof (train_samples_frame _ _ _ _ _ E) as [Hg1 Hf1];
          apply train_samples_counts in E; destruct E as (_ & _ & Hs1 & _)
      end.
      match goal with
      | E : (if ?b then _ else _) = Ok _ |- _ => destruct b
      end.
      - match goal with
        | E : test_phase _ _ _ _ _ = Ok _ |- _ => unfold test_phase in E; inv_bind E
        end.
        match goal with
        | E : test_samples _ _ _ _ _ _ = Ok _ |- _ =>
            apply test_samples_frame in E; destruct E as [-> _]
        end.
        match goal with
        | E : Ok _ = Ok _ |- _ => injection E as <-
        end.
        unfold print. cbn [opt params]. unfold sample in *. auto.
      - match goal with
        | E : Ok _ = Ok _ |- _ => injection E as <-
        end.
        unfold print. cbn [opt params]. unfold sample in *. auto. }
    destruct Hstep as (Hg1 & Hs1 & Hf1). cbn [length]. repeat split.
    + congruence.
    + rewrite Hs, Hs1. lia.
    + intros q Hq. rewrite Hf by (rewrite Hg1; exact Hq). apply Hf1, Hq.
Qed.

End ConvCXNFrame.

(** With layers, a loss and an optimizer that keep their contracts, a
    ConvCXN with at least one layer whose constructor call has returned is
    trained through any number of epochs on non-empty training and
    held-out sets whose samples fit the model, the held-out ones and the
    neighbourhoods in single precision since they reach the model as
    they are; the run prints a summary line per epoch and a test line
    after every second one. *)
Theorem ConvCXN_training_completes
        (in_ch_0 in_ch_1 in_ch_2 num_classes n_layers num_epochs : nat)
        (h : heap) (rate : Q) (adjacency_0 incidence_2_t : tensor)
        (x_0_train x_1_train : list tensor) (labels_train : list nat)
        (x_0_test x_1_test : list tensor) (labels_test : list nat)
        (built : module * heap) :
  (forall layer v x_0 x_1 n00 n12 c0 c1 c2,
      cls layer = "ConvCXNLayer" -> cfg layer = [c0; c1; c2] -> weights_ok layer v ->
      t_cols x_0 = c0 -> t_cols x_1 = c1 ->
      shape n00 = (t_rows x_0, t_rows x_0) ->
      t_cols n12 = t_rows x_1 ->
      single x_0 -> single x_1 -> single n00 -> single n12 ->
      exists y_0 y_1 y_2,
        ConvCXNLayer_forward layer v x_0 x_1 n00 n12 = Ok (y_0, y_1, y_2)
        /\ shape y_0 = shape x_0 /\ shape y_1 = shape x_1
        /\ shape y_2 = (t_rows n12, c2)
        /\ single y_0 /\ single y_1 /\ single y_2) ->
  (forall input target,
      target < v_len input -> is_ok (cross_entropy input target) = true) ->
  (forall rate slot t g,
      shape (fst (adam_update rate slot t g)) = shape t
      /\ t_dtype (fst (adam_update rate slot t g)) = t_dtype t) ->
  1 <= n_layers ->
  ConvCXN_new in_ch_0 in_ch_1 in_ch_2 num_classes n_layers h = Ok built ->
  Forall (sample_fits in_ch_0 in_ch_1 num_classes adjacency_0 incidence_2_t)
         (zip3 x_0_train x_1_train labels_train) ->
  Forall (sample_ready in_ch_0 in_ch_1 num_classes adjacency_0 incidence_2_t)
         (zip3 x_0_test x_1_test labels_test) ->
  zip3 x_0_train x_1_train labels_train <> [] ->
  zip3 x_0_test x_1_test labels_test <> [] ->
  exists s',
    ConvCXN_train (fst built) adjacency_0 incidence_2_t
                  x_0_train x_1_train labels_train x_0_test x_1_test labels_test
                  num_epochs (fresh_session built rate)
    = Ok s'
    /\ map kind_of (stdout s') = expected_output (seq 1 num_epochs).
Proof.
  intros Hlayer Hloss Hadam Hn Hnew Htrain Htest Hne Hne'.
  apply Channels.ConvCXN_new_Ok in Hnew. subst built.
  destruct (ConvCXN_init_shaped in_ch_0 in_ch_1 in_ch_2 num_classes n_layers h)
    as (layers & Hl & Hlen & Hclass & Hok & H0 & H1 & H2).
  unfold ConvCXN_train.
  destruct (ConvCXN_epochs_ok Hadam Hlayer Hloss
              (fst (ConvCXN_init in_ch_0 in_ch_1 in_ch_2 num_classes n_layers h))
              layers in_ch_0 in_ch_1 in_ch_2 num_classes Hl) with
      (adjacency_0 := adjacency_0) (incidence_2_t := incidence_2_t)
      (x_0_train := x_0_train) (x_1_train := x_1_train) (labels_train := labels_train)
      (x_0_test := x_0_test) (x_1_test := x_1_test) (labels_test := labels_test)
      (range := seq 1 num_epochs)
      (s := fresh_session (ConvCXN_init in_ch_0 in_ch_1 in_ch_2 num_classes n_layers h)
                          rate)
    as (s' & Hrun); try assumption.
  - intro; subst layers; cbn in Hlen; lia.
  - repeat split; assumption.
  - exists s'. split; [exact Hrun |].
    apply epochs_output in Hrun. exact Hrun.
Qed.

(** Training a ConvCXN steps the optimizer once per training sample and
    epoch, and never changes a parameter of its layers. *)
Theorem ConvCXN_training_leaves_layers_untrained
        (in_ch_0 in_ch_1 in_ch_2 num_classes n_layers num_epochs : nat)
        (h : heap) (rate : Q) (adjacency_0 incidence_2_t : tensor)
        (x_0_train x_1_train : list tensor) (labels_train : list nat)
        (x_0_test x_1_test : list tensor) (labels_test : list nat) :
  is_ok (ConvCXN_train (fst (ConvCXN_init in_ch_0 in_ch_1 in_ch_2 num_classes n_layers h))
                       adjacency_0 incidence_2_t
                       x_0_train x_1_train labels_train x_0_test x_1_test labels_test
                       num_epochs
                       (fresh_session (ConvCXN_init in_ch_0 in_ch_1 in_ch_2 num_classes
                                                    n_layers h) rate)) = true ->
  exists s',
    ConvCXN_train (fst (ConvCXN_init in_ch_0 in_ch_1 in_ch_2 num_classes n_layers h))
                  adjacency_0 incidence_2_t
                  x_0_train x_1_train labels_train x_0_test x_1_test labels_test
                  num_epochs
                  (fresh_session (ConvCXN_init in_ch_0 in_ch_1 in_ch_2 num_classes
                                               n_layers h) rate)
    = Ok s'
    /\ steps (opt s') = num_epochs * length (zip3 x_0_train x_1_train labels_train)
    /\ forall q,
         In q (layer_parameters
                 (fst (ConvCXN_init in_ch_0 in_ch_1 in_ch_2 num_classes n_layers h))) ->
         params s' q
         = data (snd (ConvCXN_init in_ch_0 in_ch_1 in_ch_2 num_classes n_layers h)) q.
Proof.
  intro Hok. apply is_ok_Ok in Hok. destruct Hok as [s' Hrun].
  exists s'. split; [exact Hrun |]. unfold ConvCXN_train in Hrun.
  apply ConvCXN_epochs_frame in Hrun. destruct Hrun as (_ & Hs & Hf).
  rewrite length_seq in Hs. split; [exact Hs |].
  intros q Hq. apply Hf. cbn [fresh_session Notebooks.new_session opt Adam param_group].
  destruct (ConvCXN_registry in_ch_0 in_ch_1 in_ch_2 num_classes n_layers h) as [Hlp Hp].
  cbn zeta in Hlp, Hp. rewrite Hlp in Hq. rewrite Hp. rewrite in_seq in *. lia.
Qed.

End WithLibraries.

(** *** The lines a run prints *)

Definition is_test (k : kind) : bool :=
  match k with
  | Test => true
  | Epoch _ => false
  end.

Lemma expected_output_snoc (n : nat) :
  expected_output (seq 1 (S n))
  = expected_output (seq 1 n)
    ++ Epoch (S n) :: (if S n mod test_interval =? 0 then [Test] else []).
Proof.
  unfold expected_output. rewrite seq_S, flat_map_app. cbn [flat_map Nat.add].
  now rewrite app_nil_r.
Qed.

Lemma half_succ (n : nat) :
  S n / 2 = n / 2 + (if S n mod 2 =? 0 then 1 else 0).
Proof.
  pose proof (Nat.div_mod_eq n 2) as Hn. pose proof (Nat.div_mod_eq (S n) 2) as Hs.
  pose proof (Nat.mod_upper_bound n 2) as Bn.
  pose proof (Nat.mod_upper_bound (S n) 2) as Bs.
  destruct (S n mod 2 =? 0) eqn:E.
  - apply Nat.eqb_eq in E. lia.
  - apply Nat.eqb_neq in E. lia.
Qed.

Lemma expected_output_counts (n : nat) :
  length (filter is_test (expected_output (seq 1 n))) = n / 2
  /\ length (filter (fun k => negb (is_test k)) (expected_output (seq 1 n))) = n.
Proof.
  induction n as [| n [IH1 IH2]]; [split; reflexivity |].
  rewrite expected_output_snoc, !filter_app, !length_app, IH1, IH2, half_succ.
  unfold test_interval. destruct (S n mod 2 =? 0); cbn; lia.
Qed.

Section WithLibraries.

Context {L : Libraries}.

(** A run of [num_epochs] epochs that completes has printed [num_epochs]
    summary lines and [num_epochs / 2] test lines, in the order of the
    epochs, after whatever was printed before. *)
Theorem ConvCXN_training_output
        (model : module) (adjacency_0 incidence_2_t : tensor)
        (x_0_train x_1_train : list tensor) (labels_train : list nat)
        (x_0_test x_1_test : list tensor) (labels_test : list nat)
        (num_epochs : nat) (s : session) :
  is_ok (ConvCXN_train model adjacency_0 incidence_2_t
                       x_0_train x_1_train labels_train x_0_test x_1_test labels_test
                       num_epochs s) = true ->
  exists s' printed,
    ConvCXN_train model adjacency_0 incidence_2_t
                  x_0_train x_1_train labels_train x_0_test x_1_test labels_test
                  num_epochs s = Ok s'
    /\ map kind_of (stdout s') = map kind_of (stdout s) ++ printed
    /\ printed = expected_output (seq 1 num_epochs)
    /\ length (filter is_test printed) = num_epochs / 2
    /\ length (filter (fun k => negb (is_test k)) printed) = num_epochs.
Proof.
  intro Hok. apply is_ok_Ok in Hok. destruct Hok as [s' Hrun].
  exists s', (expected_output (seq 1 num_epochs)). split; [exact Hrun |].
  unfold ConvCXN_train in Hrun. apply epochs_output in Hrun.
  destruct (expected_output_counts num_epochs). auto.
Qed.

(** [zip] stops with the shortest of its three lists. *)
Lemma zip3_length_min {A B C} (a : list A) (b : list B) (c : list C) :
  length (zip3 a b c) = Nat.min (length a) (Nat.min (length b) (length c)).
Proof.
  revert b c. induction a as [| x a IH]; intros [| y b] [| z c]; cbn; auto.
Qed.

(** An epoch over training lists of different lengths sees only as many
    samples as the shortest list holds: the rest is dropped without
    notice. *)
Theorem epoch_stops_with_shortest_list
        (model : module) (adjacency_0 incidence_2_t : tensor)
        (x_0_train x_1_train : list tensor) (labels_train : list nat)
        (epoch_i : nat) (s : session) :
  is_ok (train_phase model adjacency_0 incidence_2_t
                     x_0_train x_1_train labels_train epoch_i s) = true ->
  exists c s',
    train_phase model adjacency_0 incidence_2_t
                x_0_train x_1_train labels_train epoch_i s = Ok (c, s')
    /\ num_samples c
       = Nat.min (length x_0_train) (Nat.min (length x_1_train) (length labels_train))
    /\ steps (opt s')
       = steps (opt s)
         + Nat.min (length x_0_train) (Nat.min (length x_1_train) (length labels_train)).
Proof.
  intro Hok. apply is_ok_Ok in Hok. destruct Hok as [[c s'] Hrun].
  exists c, s'. split; [exact Hrun |].
  unfold train_phase in Hrun. inv_bind Hrun. injection Hrun as <- <-.
  match goal with
  | E : train_samples _ _ _ _ _ _ = Ok _ |- _ =>
      apply train_samples_counts in E; destruct E as (E1 & _ & E3 & _)
  end.
  unfold sample in *. rewrite zip3_length_min in E1, E3.
  unfold print. cbn [opt num_samples] in *. auto.
Qed.

(** With an empty training set an epoch fails on the division by the
    number of samples, whatever the model, before any line is printed. *)
Theorem empty_training_set_divides_by_zero
        (model : module) (adjacency_0 incidence_2_t : tensor)
        (x_0_train x_1_train : list tensor) (labels_train : list nat)
        (x_0_test x_1_test : list tensor) (labels_test : list nat)
        (num_epochs : nat) (s : session) :
  zip3 x_0_train x_1_train labels_train = [] ->
  1 <= num_epochs ->
  ConvCXN_train model adjacency_0 incidence_2_t
                x_0_train x_1_train labels_train x_0_test x_1_test labels_test
                num_epochs s = Raise ZeroDivisionError.
Proof.
  intros He Hn. destruct num_epochs as [| n]; [lia |].
  unfold ConvCXN_train. cbn [seq ConvCXN_epochs].
  unfold ConvCXN_epoch, train_phase. rewrite He. reflexivity.
Qed.

(** With an empty held-out set, an epoch whose training part and summary
    line are through fails on the division by the number of held-out
    samples when its number is a multiple of the test interval; an epoch
    with any other number does not evaluate: it ends with its training
    part. *)
Theorem empty_test_set_divides_by_zero
        (model : module) (adjacency_0 incidence_2_t : tensor)
        (x_0_train x_1_train : list tensor) (labels_train : list nat)
        (x_0_test x_1_test : list tensor) (labels_test : list nat)
        (epoch_i : nat) (s : session) :
  zip3 x_0_test x_1_test labels_test = [] ->
  is_ok (train_phase model adjacency_0 incidence_2_t
                     x_0_train x_1_train labels_train epoch_i s) = true ->
  (epoch_i mod test_interval = 0 ->
   ConvCXN_epoch model adjacency_0 incidence_2_t
                 x_0_train x_1_train labels_train x_0_test x_1_test labels_test
                 epoch_i s = Raise ZeroDivisionError)
  /\ (epoch_i mod test_interval <> 0 ->
      exists c s',
        train_phase model adjacency_0 incidence_2_t
                    x_0_train x_1_train labels_train epoch_i s = Ok (c, s')
        /\ ConvCXN_epoch model adjacency_0 incidence_2_t
                         x_0_train x_1_train labels_train x_0_test x_1_test labels_test
                         epoch_i s = Ok s').
Proof.
  intros He Hok. apply is_ok_Ok in Hok. destruct Hok as [[c s'] Hrun].
  unfold ConvCXN_epoch. rewrite Hrun. cbn [Py.bind]. split; intro Hm.
  - rewrite Hm. cbn [Nat.eqb]. unfold test_phase. rewrite He. reflexivity.
  - exists c, s'. split; [reflexivity |].
    destruct (epoch_i mod test_interval =? 0) eqn:E; [| reflexivity].
    apply Nat.eqb_eq in E. contradiction.
Qed.

(** *** The accuracies a run reports *)

Definition accuracy (l : line) : Q :=
  match l with
  | EpochLine _ _ train_acc => train_acc
  | TestLine test_acc => test_acc
  end.

Definition accuracy_in_range (l : line) : Prop :=
  (0 <= accuracy l /\ accuracy l <= 1)%Q.

Lemma py_div_in_range (a b : nat) (q : Q) :
  py_div a b = Ok q -> a <= b -> (0 <= q /\ q <= 1)%Q.
Proof.
  destruct b as [| b]; [discriminate |]. cbn [py_div]. intros H Hab. injection H as <-.
  assert (Hpos : (0 < inject_Z (Z.of_nat (S b)))%Q).
  { rewrite <- (Zlt_Qlt 0). lia. }
  split.
  - apply Qle_shift_div_l; [exact Hpos |]. rewrite Qmult_0_l.
    rewrite <- (Zle_Qle 0). lia.
  - apply Qle_shift_div_r; [exact Hpos |]. rewrite Qmult_1_l.
    rewrite <- Zle_Qle. lia.
Qed.

Lemma Forall_snoc {A} (P : A -> Prop) (l : list A) (x : A) :
  Forall P l -> P x -> Forall P (l ++ [x]).
Proof. intros Hl Hx. apply Forall_app. split; [exact Hl | constructor; [exact Hx | constructor]]. Qed.

Section Accuracy.

Variables (model : module) (adjacency_0 incidence_2_t : tensor).

Lemma test_samples_correct (xs : list sample) :
  forall c s c' s',
    test_samples model adjacency_0 incidence_2_t xs c s = Ok (c', s') ->
    snd c <= fst c -> snd c' <= fst c'.
Proof.
  induction xs as [| x xs IH]; intros c s c' s' H Hc.
  - injection H as <- _. exact Hc.
  - cbn [test_samples] in H. inv_bind H.
    match goal with
    | E : test_sample _ _ _ _ _ _ = Ok _ |- _ =>
        unfold test_sample in E; destruct c as [n k], x as [[x_0 x_1] y];
        inv_bind E; returned_state; injection E as <- _
    end.
    apply IH in H; [exact H |]. cbn [fst snd] in *.
    unfold hit. destruct (argmax _ =? y); lia.
Qed.

Variables (x_0_train x_1_train : list tensor) (labels_train : list nat).
Variables (x_0_test x_1_test : list tensor) (labels_test : list nat).

Lemma ConvCXN_epoch_accuracies (epoch_i : nat) (s s' : session) :
  ConvCXN_epoch model adjacency_0 incidence_2_t
                x_0_train x_1_train labels_train x_0_test x_1_test labels_test
                epoch_i s = Ok s' ->
  Forall accuracy_in_range (stdout s) -> Forall accuracy_in_range (stdout s').
Proof.
  intros H HF. unfold ConvCXN_epoch in H. inv_bind H.
  match goal with
  | E : train_phase _ _ _ _ _ _ _ _ = Ok _ |- _ =>
      unfold train_phase in E; inv_bind E; injection E as <- <-
  end.
  match goal with
  | E : train_samples _ _ _ _ _ _ = Ok _ |- _ =>
      pose proof (train_samples_correct _ _ _ _ _ _ _ _ E (Nat.le_refl 0)) as Hc;
      apply train_samples_counts in E; destruct E as (_ & _ & _ & Hout)
  end.
  match goal with
  | E : py_div _ _ = Ok _ |- _ => apply py_div_in_range in E; [| exact Hc]
  end.
  match goal with
  | E : (if ?b then _ else _) = Ok _ |- _ => destruct b
  end.
  - match goal with
    | E : test_phase _ _ _ _ _ = Ok _ |- _ => unfold test_phase in E; inv_bind E
    end.
    match goal with
    | E : test_samples _ _ _ _ _ _ = Ok _ |- _ =>
        pose proof (test_samples_correct _ _ _ _ _ E (Nat.le_refl 0)) as Ht;
        apply test_samples_frame in E; destruct E as [-> _]
    end.
    match goal with
    | E : py_div _ _ = Ok _ |- _ => apply py_div_in_range in E; [| exact Ht]
    end.
    match goal with
    | E : Ok _ = Ok _ |- _ => injection E as <-
    end.
    unfold print. cbn [stdout]. rewrite Hout.
    apply Forall_snoc; [apply Forall_snoc |]; assumption.
  - match goal with
    | E : Ok _ = Ok _ |- _ => injection E as <-
    end.
    unfold print. cbn [stdout]. rewrite Hout.
    apply Forall_snoc; assumption.
Qed.

(** Every accuracy a completed run prints, for training or for the
    held-out set, lies between 0 and 1. *)
Theorem reported_accuracies_in_range (num_epochs : nat) (s : session) :
  stdout s = [] ->
  is_ok (ConvCXN_train model adjacency_0 incidence_2_t
                       x_0_train x_1_train labels_train x_0_test x_1_test labels_test
                       num_epochs s) = true ->
  exists s',
    ConvCXN_train model adjacency_0 incidence_2_t
                  x_0_train x_1_train labels_train x_0_test x_1_test labels_test
                  num_epochs s = Ok s'
    /\ Forall accuracy_in_range (stdout s').
Proof.
  intros Hs Hok. apply is_ok_Ok in Hok. destruct Hok as [s' Hrun].
  exists s'. split; [exact Hrun |]. unfold ConvCXN_train in Hrun.
  assert (HF : Forall accuracy_in_range (stdout s)) by (rewrite Hs; constructor).
  clear Hs. revert s s' Hrun HF. generalize (seq 1 num_epochs).
  induction l as [| epoch_i range IH]; intros s s' Hrun HF.
  - injection Hrun as <-. exact HF.
  - cbn [ConvCXN_epochs] in Hrun. inv_bind Hrun.
    match goal with
    | E : ConvCXN_epoch _ _ _ _ _ _ _ _ _ _ _ = Ok _ |- _ =>
        apply ConvCXN_epoch_accuracies in E; [| exact HF]
    end.
    eapply IH; eassumption.
Qed.

End Accuracy.

(** *** Models without layers, and the parameters a model owns *)

(** With [n_layers = 0] an HSN and a TemplateNN are still defined: their
    forward pass is the linear head applied to the input signal, whatever
    the neighbourhoods. *)
Theorem stack_without_layers_is_its_head (h : heap) :
  (forall channels,
      exists linear,
        getattr_module (fst (HSN_init channels 0 h)) "linear" = Ok linear
        /\ forall v x_0 incidence_1 adjacency_0,
            HSN_forward (fst (HSN_init channels 0 h)) v x_0 incidence_1 adjacency_0
            = Linear_forward linear v x_0)
  /\ (forall channels_face channels_edge,
         exists linear,
           getattr_module (fst (TemplateNN_init channels_face channels_edge 0 h)) "linear"
           = Ok linear
           /\ forall v x_2 incidence_2,
               TemplateNN_forward (fst (TemplateNN_init channels_face channels_edge 0 h))
                                  v x_2 incidence_2
               = Linear_forward linear v x_2).
Proof.
  split; intros; eexists; (split; [reflexivity |]); intros; reflexivity.
Qed.

Lemma seq_blocks_NoDup (start n k : nat) :
  NoDup (seq (start + n) k ++ seq start n).
Proof.
  apply NoDup_app; try apply seq_NoDup.
  intros q H1 H2. rewrite in_seq in *. lia.
Qed.

(** The learnable tensors a forward pass reads are pairwise distinct
    objects: no layer shares a parameter with another layer or with a
    head. *)
Theorem models_share_no_parameters (n_layers : nat) (h : heap) :
  (forall channels, NoDup (leaves (fst (HSN_init channels n_layers h))))
  /\ (forall channels_face channels_edge,
         NoDup (leaves (fst (TemplateNN_init channels_face channels_edge n_layers h))))
  /\ (forall in_ch_0 in_ch_1 in_ch_2 num_classes,
         NoDup (leaves (fst (ConvCXN_init in_ch_0 in_ch_1 in_ch_2 num_classes
                                          n_layers h)))).
Proof.
  repeat split; intros.
  - destruct (HSN_registry channels n_layers h) as [Hl Hp]. cbn zeta in Hl, Hp.
    unfold leaves. fold (layer_parameters (fst (HSN_init channels n_layers h))).
    rewrite Hl, Hp. apply seq_blocks_NoDup.
  - destruct (TemplateNN_registry channels_face channels_edge n_layers h) as [Hl Hp].
    cbn zeta in Hl, Hp. unfold leaves.
    fold (layer_parameters (fst (TemplateNN_init channels_face channels_edge n_layers h))).
    rewrite Hl, Hp. apply seq_blocks_NoDup.
  - destruct (ConvCXN_registry in_ch_0 in_ch_1 in_ch_2 num_classes n_layers h) as [Hl Hp].
    cbn zeta in Hl, Hp. unfold leaves.
    fold (layer_parameters
            (fst (ConvCXN_init in_ch_0 in_ch_1 in_ch_2 num_classes n_layers h))).
    rewrite Hl, Hp. apply seq_blocks_NoDup.
Qed.

(** *** Gradients across epochs *)

Lemma existsb_eqb_In (q : nat) (l : list nat) :
  existsb (Nat.eqb q) l = true <-> In q l.
Proof.
  rewrite existsb_exists. split.
  - intros (x & Hx & E). apply Nat.eqb_eq in E. now subst.
  - intro H. exists q. split; [exact H | apply Nat.eqb_refl].
Qed.

Lemma existsb_eqb_not_In (q : nat) (l : list nat) :
  ~ In q l -> existsb (Nat.eqb q) l = false.
Proof.
  intro H. destruct (existsb (Nat.eqb q) l) eqn:E; [| reflexivity].
  apply existsb_eqb_In in E. contradiction.
Qed.

(** [zero_grad] resets the gradients of the optimizer's parameters only.
    After an epoch of the HSN loop the gradient of a parameter the
    optimizer holds is the derivative of this epoch's loss alone (none if
    the loss was not computed from it), while the gradient of any other
    parameter the loss was computed from is that derivative added onto
    the gradient the epochs before left, if any. *)
Theorem HSN_epoch_gradients
        (model : module) (x_0 incidence_1 adjacency_0 labels : tensor) (s : session) :
  is_ok (HSN_epoch model x_0 incidence_1 adjacency_0 labels s) = true ->
  exists pred s',
    HSN_epoch model x_0 incidence_1 adjacency_0 labels s = Ok (pred, s')
    /\ (forall q,
           In q (leaves model) -> In q (param_group (opt s)) ->
           grads s' q
           = autograd (HSN_loss model x_0 incidence_1 adjacency_0 labels) (params s) q)
    /\ (forall q,
           In q (leaves model) -> ~ In q (param_group (opt s)) ->
           grads s' q
           = match autograd (HSN_loss model x_0 incidence_1 adjacency_0 labels)
                            (params s) q with
             | Some derivative =>
                 Some (match grads s q with
                       | None => derivative
                       | Some stale => add_ stale derivative
                       end)
             | None => grads s q
             end).
Proof.
  intro Hok. apply is_ok_Ok in Hok. destruct Hok as [[pred s'] Hrun].
  exists pred, s'. split; [exact Hrun |].
  unfold HSN_epoch in Hrun. inv_bind Hrun. returned_state. injection Hrun as _ <-.
  unfold step.
  destruct (step_params _ _ _ _) as [v sl]. cbn [grads backward zero_grad params opt].
  split.
  - intros q Hl Hg. apply existsb_eqb_In in Hl, Hg. rewrite Hl, Hg.
    now destruct (autograd _ _ q).
  - intros q Hl Hg. apply existsb_eqb_In in Hl.
    apply existsb_eqb_not_In in Hg. rewrite Hl, Hg.
    destruct (autograd _ _ q); now destruct (grads s q).
Qed.

End WithLibraries.

End Runs.

(** ** The theorems at concrete inputs *)

Import Toy.



Lemma hsn_scenario_witness :
  length (Domain.SimplicialComplex.skeleton Notebooks.hsn_domain 0) = 3
  /\ length (Domain.SimplicialComplex.skeleton Notebooks.hsn_domain 1) = 2
  /\ HSN_new Notebooks.channels_nodes 2 Notebooks.empty_heap = Ok Notebooks.hsn_model
  /\ exists incidence_1 adjacency_0 preds s,
       Notebooks.hsn_incidence_1 = Ok incidence_1 /\ shape incidence_1 = (3, 2)
       /\ Notebooks.hsn_adjacency_0 = Ok adjacency_0 /\ shape adjacency_0 = (3, 3)
       /\ Notebooks.hsn_train (L := Toy.libraries) 5 = Ok (preds, s)
       /\ length preds = 5
       /\ Forall (fun pred => shape pred = (3, 1)) preds
       /\ steps (opt s) = 5
       /\ (exists first rest,
             preds = first :: rest
             /\ HSN_forward (fst Notebooks.hsn_model) (data (snd Notebooks.hsn_model))
                            Notebooks.x_nodes incidence_1 adjacency_0 = Ok first)
       /\ Forall (fun pred =>
                    exists v, HSN_forward (fst Notebooks.hsn_model) v
                                          Notebooks.x_nodes incidence_1 adjacency_0
                              = Ok pred)
                 preds.
Proof.
  exact (Scenarios.hsn_scenario (L := Toy.libraries) eq_refl
           Toy.hsn_layer_contract Toy.squared_error_contract Toy.adam_update_contract).
Defined.

Lemma convcxn_scenario_witness :
  length (Domain.CellComplex.nodes Notebooks.complex) = 6
  /\ length (Domain.CellComplex.edges Notebooks.complex) = 8
  /\ length (Domain.CellComplex.cells Notebooks.complex) = 1
  /\ (exists t, Notebooks.incidence_2_t = Ok t /\ shape t = (1, 8))
  /\ (exists t, Notebooks.convcxn_adjacency_0 = Ok t /\ shape t = (6, 6))
  /\ length (zip3 (Notebooks.x_0_train (L := Toy.libraries))
                  Notebooks.x_1_train Notebooks.labels_train) = 100
  /\ exists s,
       Notebooks.convcxn_train (L := Toy.libraries) (1 # 1000) 3 = Ok s
       /\ map Loops.kind_of (stdout s)
          = [Loops.Epoch 1; Loops.Epoch 2; Loops.Test; Loops.Epoch 3].
Proof.
  exact (Scenarios.convcxn_scenario (L := Toy.libraries) (1 # 1000)
           Toy.convcxn_layer_contract Toy.zero_one_contract Toy.adam_update_contract).
Defined.

(** The final logits of the small model: one row per node, per edge and
    per face, and two columns. *)
Lemma small_logits :
  exists l_0 l_1 l_2,
    Readout.final_logits (fst small) (data (snd small))
                         small_x_0 small_x_1 small_adjacency_0 small_incidence_2_t
                         (l_0, l_1, l_2)
    /\ shape l_0 = (2, 2) /\ shape l_1 = (1, 2) /\ shape l_2 = (1, 2).
Proof.
  unfold Readout.final_logits. do 3 eexists. split.
  - do 7 eexists. repeat (split; [vm_compute; reflexivity |]). vm_compute. reflexivity.
  - repeat split.
Qed.

Lemma forward_is_sum_of_means_witness :
  exists l_0 l_1 l_2 y,
    Readout.final_logits (fst small) (data (snd small))
                         small_x_0 small_x_1 small_adjacency_0 small_incidence_2_t
                         (l_0, l_1, l_2)
    /\ ConvCXN_forward (fst small) (data (snd small))
                       small_x_0 small_x_1 small_adjacency_0 small_incidence_2_t = Ok y
    /\ shape1 y = 2
    /\ forall j, j < 2 ->
         Readout.same_entry (v_at y j) (Readout.sum_of_means l_0 l_1 l_2 j).
Proof.
  destruct small_logits as (l_0 & l_1 & l_2 & Hl & H0 & H1 & H2).
  destruct (Readout.forward_is_sum_of_means _ _ _ _ _ _ _ _ _ 2 1 1 Hl H0 H1 H2)
    as (y & Hy).
  exists l_0, l_1, l_2, y. split; [exact Hl | exact Hy].
Defined.

(** Without a face the logits of rank 2 have no row, and what [forward]
    returns is nan in both entries. *)
Example forward_without_faces_is_nan :
  exists y,
    ConvCXN_forward (fst small) (data (snd small))
                    small_x_0 small_x_1 small_adjacency_0 no_face = Ok y
    /\ shape1 y = 2 /\ v_at y 0 = None /\ v_at y 1 = None.
Proof. eexists. split; [vm_compute; reflexivity | repeat split]. Qed.

Lemma adapter_shapes_and_dtypes_witness :
  Domain.SimplicialComplex.dim Notebooks.hsn_domain = Some 1
  /\ 1 <= 1 <= 1
  /\ exists M A,
       Domain.SimplicialComplex.incidence_matrix Notebooks.hsn_domain 1 = Ok M
       /\ shape (Scenarios.adapt M) = (3, 2)
       /\ shape (Scenarios.adapt (T M)) = (2, 3)
       /\ t_dtype (Scenarios.adapt M) = t_dtype Notebooks.x_nodes
       /\ Domain.SimplicialComplex.adjacency_matrix Notebooks.hsn_domain 0 = Ok A
       /\ shape (Scenarios.adapt A) = (3, 3)
       /\ t_dtype (Scenarios.adapt A) = t_dtype Notebooks.x_nodes.
Proof.
  split; [reflexivity |]. split; [lia |].
  destruct (Scenarios.adapter_shapes_and_dtypes
              Notebooks.hsn_domain 1 1 Notebooks.complex [[1; 1]; [2; 2]; [1; 1]]%Q
              eq_refl (conj (le_n 1) (le_n 1)))
    as ((M & HM & S1 & S2 & _ & D1 & _) & (A & HA & S3 & _ & D2) & _).
  exists M, A. repeat split; assumption.
Defined.

Lemma epoch_steps_once_per_sample_witness :
  exists c s',
    train_phase model adjacency_0 incidence_2_t x_0_few x_1_few labels_few 1 session_0
    = Ok (c, s')
    /\ num_samples c = 2
    /\ length (epoch_loss c) = 2
    /\ steps (opt s') = steps (opt session_0) + 2.
Proof.
  apply Loops.epoch_steps_once_per_sample;
    [reflexivity | reflexivity | reflexivity | vm_compute; reflexivity].
Defined.

Lemma evaluation_keeps_parameters_witness :
  exists s' acc,
    test_phase model adjacency_0 incidence_2_t (zip3 x_0_few x_1_few labels_few) session_0
    = Ok s'
    /\ (forall p, params s' p = params session_0 p)
    /\ grads s' = grads session_0
    /\ opt s' = opt session_0
    /\ stdout s' = stdout session_0 ++ [TestLine acc].
Proof.
  apply Loops.evaluation_keeps_parameters. vm_compute. reflexivity.
Defined.

Lemma x_2_is_bound_by_the_first_layer_witness :
  1 <= 2
  /\ exists layers,
       getattr_list model "layers" = Ok layers
       /\ exists y_0 y_1 y_2,
            ConvCXN_layers layers (params session_0)
                           (hd (torch_tensor []) x_0_few) (hd (torch_tensor []) x_1_few)
                           None adjacency_0 incidence_2_t
            = Ok (y_0, y_1, Some y_2).
Proof.
  split; [lia |].
  destruct (proj2 (proj2 (Locals.x_2_is_bound_by_the_first_layer
                            4 5 5 2 2 Notebooks.empty_heap)))
    as (layers & Hl & H); [lia |].
  exists layers. split; [exact Hl |].
  apply H. vm_compute in Hl. injection Hl as <-. vm_compute. reflexivity.
Defined.

(** C10, as stated, fails: without layers, a call with a node signal of
    the wrong width fails in the first read-out, before [x_2] is read. *)
Lemma forward_without_layers_can_fail_earlier :
  ConvCXN_forward (fst (ConvCXN_init 4 5 5 2 0 Notebooks.empty_heap))
                  (data (snd (ConvCXN_init 4 5 5 2 0 Notebooks.empty_heap)))
                  (torch_tensor [[1; 2; 3]]%Q) (torch_tensor [[1; 2; 3; 4; 5]]%Q)
                  adjacency_0 incidence_2_t
  = Raise Locals.shape_mismatch
  /\ Locals.shape_mismatch <> UnboundLocalError "x_2".
Proof. split; [vm_compute; reflexivity | discriminate]. Qed.

(** The HSN notebook under the instance: the layers own the parameters 0
    and 1, the optimizer is given 2 and 3, those of the linear head. *)
Example hsn_optimizer_parameters :
  Registry.layer_parameters (fst Notebooks.hsn_model) = [0; 1]
  /\ param_group Notebooks.hsn_optimizer = [2; 3].
Proof. split; reflexivity. Qed.

Lemma HSN_training_completes_witness :
  HSN_new 2 3 Notebooks.empty_heap = Ok (HSN_init 2 3 Notebooks.empty_heap)
  /\ exists preds s',
       HSN_train (fst (HSN_init 2 3 Notebooks.empty_heap))
                 Notebooks.x_nodes hsn_incidence_1 hsn_adjacency_0
                 Notebooks.nodes_gt_labels
                 4 (Runs.fresh_session (HSN_init 2 3 Notebooks.empty_heap) (1 # 100))
       = Ok (preds, s')
       /\ length preds = 4
       /\ Forall (fun pred => shape pred = (t_rows Notebooks.x_nodes, 1)) preds
       /\ steps (opt s') = 4.
Proof.
  split; [reflexivity |].
  apply (Runs.HSN_training_completes 2 3 4 Notebooks.empty_heap (1 # 100));
    first [ exact hsn_layer_contract | exact squared_error_contract
          | exact adam_update_contract | reflexivity ].
Defined.

Lemma HSN_training_leaves_layers_untrained_witness :
  exists preds s',
    HSN_train (fst (HSN_init 2 2 Notebooks.empty_heap))
              Notebooks.x_nodes hsn_incidence_1 hsn_adjacency_0 Notebooks.nodes_gt_labels
              5 (Runs.fresh_session (HSN_init 2 2 Notebooks.empty_heap) (1 # 4))
    = Ok (preds, s')
    /\ steps (opt s') = 5
    /\ forall q, In q (Registry.layer_parameters (fst (HSN_init 2 2 Notebooks.empty_heap))) ->
                 params s' q = data (snd (HSN_init 2 2 Notebooks.empty_heap)) q.
Proof.
  apply Runs.HSN_training_leaves_layers_untrained. vm_compute. reflexivity.
Defined.

Lemma TemplateNN_training_completes_witness :
  TemplateNN_new 2 4 2 Notebooks.empty_heap = Ok (TemplateNN_init 2 4 2 Notebooks.empty_heap)
  /\ exists preds s',
       TemplateNN_train (fst (TemplateNN_init 2 4 2 Notebooks.empty_heap))
                        Notebooks.template_x_2 template_incidence_2
                        Notebooks.faces_gt_labels
                        5 (Runs.fresh_session (TemplateNN_init 2 4 2 Notebooks.empty_heap)
                                              (1 # 100))
       = Ok (preds, s')
       /\ length preds = 5
       /\ Forall (fun pred => shape pred = (t_rows Notebooks.template_x_2, 1)) preds
       /\ steps (opt s') = 5.
Proof.
  split; [reflexivity |].
  apply (Runs.TemplateNN_training_completes 2 4 2 5 Notebooks.empty_heap (1 # 100));
    first [ exact template_layer_contract | exact squared_error_contract
          | exact adam_update_contract | reflexivity ].
Defined.

Lemma notebook_samples_fit :
  Forall (Shapes.sample_fits 4 5 2 adjacency_0 incidence_2_t)
         (zip3 Notebooks.x_0_train Notebooks.x_1_train Notebooks.labels_train)
  /\ Forall (Shapes.sample_ready 4 5 2 adjacency_0 incidence_2_t)
            (zip3 Notebooks.x_0_test Notebooks.x_1_test Notebooks.labels_test).
Proof.
  split.
  - apply Scenarios.convcxn_samples_fit;
      first [ reflexivity | apply Scenarios.rand_tensors_shape
            | apply Scenarios.randints_binary ].
  - apply Scenarios.convcxn_samples_ready;
      first [ reflexivity
            | apply Scenarios.Forall_both;
              [apply Scenarios.rand_tensors_shape | apply Scenarios.rand_tensors_single]
            | apply Scenarios.randints_binary ].
Qed.

Lemma ConvCXN_training_completes_witness :
  1 <= 1
  /\ ConvCXN_new 4 5 5 2 1 Notebooks.empty_heap
     = Ok (ConvCXN_init 4 5 5 2 1 Notebooks.empty_heap)
  /\ exists s',
       ConvCXN_train (fst (ConvCXN_init 4 5 5 2 1 Notebooks.empty_heap))
                     adjacency_0 incidence_2_t
                     Notebooks.x_0_train Notebooks.x_1_train Notebooks.labels_train
                     Notebooks.x_0_test Notebooks.x_1_test Notebooks.labels_test
                     4 (Runs.fresh_session (ConvCXN_init 4 5 5 2 1 Notebooks.empty_heap)
                                           (1 # 1000))
       = Ok s'
       /\ map Loops.kind_of (stdout s') = Loops.expected_output (seq 1 4).
Proof.
  split; [lia |]. split; [reflexivity |].
  apply (Runs.ConvCXN_training_completes 4 5 5 2 1 4 Notebooks.empty_heap (1 # 1000));
    first [ exact convcxn_layer_contract | exact zero_one_contract
          | exact adam_update_contract | lia | reflexivity
          | exact (proj1 notebook_samples_fit) | exact (proj2 notebook_samples_fit)
          | discriminate ].
Defined.

Lemma ConvCXN_training_leaves_layers_untrained_witness :
  exists s',
    ConvCXN_train (fst (ConvCXN_init 4 5 5 2 2 Notebooks.empty_heap))
                  adjacency_0 incidence_2_t
                  x_0_few x_1_few labels_few x_0_few x_1_few labels_few
                  3 (Runs.fresh_session (ConvCXN_init 4 5 5 2 2 Notebooks.empty_heap)
                                        (1 # 4))
    = Ok s'
    /\ steps (opt s') = 3 * length (zip3 x_0_few x_1_few labels_few)
    /\ forall q,
         In q (Registry.layer_parameters
                 (fst (ConvCXN_init 4 5 5 2 2 Notebooks.empty_heap))) ->
         params s' q = data (snd (ConvCXN_init 4 5 5 2 2 Notebooks.empty_heap)) q.
Proof.
  apply Runs.ConvCXN_training_leaves_layers_untrained. vm_compute. reflexivity.
Defined.

Lemma ConvCXN_training_output_witness :
  exists s' printed,
    ConvCXN_train model adjacency_0 incidence_2_t
                  x_0_few x_1_few labels_few x_0_few x_1_few labels_few 5 session_0
    = Ok s'
    /\ map Loops.kind_of (stdout s') = map Loops.kind_of (stdout session_0) ++ printed
    /\ printed = Loops.expected_output (seq 1 5)
    /\ length (filter Runs.is_test printed) = 5 / 2
    /\ length (filter (fun k => negb (Runs.is_test k)) printed) = 5.
Proof.
  apply Runs.ConvCXN_training_output. vm_compute. reflexivity.
Defined.

Lemma epoch_stops_with_shortest_list_witness :
  exists c s',
    train_phase model adjacency_0 incidence_2_t
                (firstn 3 Notebooks.x_0_train) (firstn 2 Notebooks.x_1_train)
                (firstn 5 Notebooks.labels_train) 1 session_0
    = Ok (c, s')
    /\ num_samples c
       = Nat.min (length (firstn 3 Notebooks.x_0_train))
                 (Nat.min (length (firstn 2 Notebooks.x_1_train))
                          (length (firstn 5 Notebooks.labels_train)))
    /\ steps (opt s')
       = steps (opt session_0)
         + Nat.min (length (firstn 3 Notebooks.x_0_train))
                   (Nat.min (length (firstn 2 Notebooks.x_1_train))
                            (length (firstn 5 Notebooks.labels_train))).
Proof.
  apply Runs.epoch_stops_with_shortest_list. vm_compute. reflexivity.
Defined.

Lemma empty_training_set_divides_by_zero_witness :
  zip3 (@nil tensor) x_1_few labels_few = []
  /\ 1 <= 3
  /\ ConvCXN_train model adjacency_0 incidence_2_t
                   [] x_1_few labels_few x_0_few x_1_few labels_few 3 session_0
     = Raise ZeroDivisionError.
Proof.
  split; [reflexivity |]. split; [lia |].
  apply Runs.empty_training_set_divides_by_zero; [reflexivity | lia].
Defined.

Lemma empty_test_set_divides_by_zero_witness :
  zip3 x_0_few (@nil tensor) labels_few = []
  /\ ConvCXN_epoch model adjacency_0 incidence_2_t
                   x_0_few x_1_few labels_few x_0_few [] labels_few 2 session_0
     = Raise ZeroDivisionError
  /\ exists c s',
       train_phase model adjacency_0 incidence_2_t x_0_few x_1_few labels_few 1 session_0
       = Ok (c, s')
       /\ ConvCXN_epoch model adjacency_0 incidence_2_t
                        x_0_few x_1_few labels_few x_0_few [] labels_few 1 session_0
          = Ok s'.
Proof.
  split; [reflexivity |]. split.
  - apply (Runs.empty_test_set_divides_by_zero model adjacency_0 incidence_2_t
             x_0_few x_1_few labels_few x_0_few [] labels_few 2 session_0);
      [reflexivity | vm_compute; reflexivity | reflexivity].
  - apply (Runs.empty_test_set_divides_by_zero model adjacency_0 incidence_2_t
             x_0_few x_1_few labels_few x_0_few [] labels_few 1 session_0);
      [reflexivity | vm_compute; reflexivity | discriminate].
Defined.

Lemma reported_accuracies_in_range_witness :
  stdout session_0 = []
  /\ exists s',
       ConvCXN_train model adjacency_0 incidence_2_t
                     x_0_few x_1_few labels_few x_0_few x_1_few labels_few 4 session_0
       = Ok s'
       /\ Forall Runs.accuracy_in_range (stdout s').
Proof.
  split; [reflexivity |].
  apply Runs.reported_accuracies_in_range; [reflexivity | vm_compute; reflexivity].
Defined.

Lemma HSN_epoch_gradients_witness :
  exists pred s',
    HSN_epoch (fst Notebooks.hsn_model) Notebooks.x_nodes hsn_incidence_1 hsn_adjacency_0
              Notebooks.nodes_gt_labels
              (Runs.fresh_session Notebooks.hsn_model (1 # 100))
    = Ok (pred, s')
    /\ (forall q,
           In q (leaves (fst Notebooks.hsn_model)) ->
           In q (param_group (opt (Runs.fresh_session Notebooks.hsn_model (1 # 100)))) ->
           grads s' q
           = autograd (HSN_loss (fst Notebooks.hsn_model) Notebooks.x_nodes
                                hsn_incidence_1 hsn_adjacency_0
                                Notebooks.nodes_gt_labels)
                      (params (Runs.fresh_session Notebooks.hsn_model (1 # 100))) q)
    /\ (forall q,
           In q (leaves (fst Notebooks.hsn_model)) ->
           ~ In q (param_group (opt (Runs.fresh_session Notebooks.hsn_model (1 # 100)))) ->
           grads s' q
           = match autograd (HSN_loss (fst Notebooks.hsn_model) Notebooks.x_nodes
                                      hsn_incidence_1 hsn_adjacency_0
                                      Notebooks.nodes_gt_labels)
                            (params (Runs.fresh_session Notebooks.hsn_model (1 # 100)))
                            q with
             | Some derivative =>
                 Some (match grads (Runs.fresh_session Notebooks.hsn_model (1 # 100)) q with
                       | None => derivative
                       | Some stale => add_ stale derivative
                       end)
             | None => grads (Runs.fresh_session Notebooks.hsn_model (1 # 100)) q
             end).
Proof.
  apply Runs.HSN_epoch_gradients. vm_compute. reflexivity.
Defined.
